(** * A shallow embedding of the transaction coordinator

    The development follows the Go sources, file by file:
    - [Transaction] and its methods, package [txn]
      (src/pkg/txn/transaction.go);
    - [LocalTimeSource], package [timesource] (same file, second part);
    - [Server.Run] and the four handlers of the executor
      (src/datastore.go, second part);
    - the [txn.Connector] interface (src/benchmarks/db/redis/db.go, second
      part) and the test of the Redis connection that exercises it
      (src/pkg/datastore/redis/redis_connection_test.go);
    - [type State int] (src/datastore.go, first part).

    Go values are modelled as the code has them: an [error] is the message
    it carries ([nil] is [None]), an [int64] is a [Z] with its wrap-around
    written out, [map[string]Datastorer] is a [gmap string Datastorer].
    Interfaces whose implementations live outside the coordinator
    ([Datastorer], [TSRMaintainer], [TimeSourcer]) are records of functions
    over an arbitrary [World]; every call through them is recorded in a
    trace of events, together with what the call returned. What the Go
    runtime decides, the order of a [range] over a map and the order in
    which goroutines run, is drawn from the world each time it is
    needed. *)

From stdpp Require Import gmap strings list fin_maps.
From Stdlib Require Import ZArith Lia DecimalString.

Local Open Scope string_scope.
Local Open Scope list_scope.
Local Open Scope stdpp_scope.

(** Go's [error]: the message; [errors.New msg] is [msg], [e.Error()] is [e]. *)
Definition error := string.

(** [int64] arithmetic (and [int], on the 64-bit platforms the executor
    runs on) wraps around. *)
Definition wrap64 (z : Z) : Z := ((z + 2 ^ 63) mod 2 ^ 64 - 2 ^ 63)%Z.

(* ===================================================================== *)
(** * Package [config] *)
(* ===================================================================== *)

Module Config.

(** [type State int] with its five constants, in the order of their
    values 0 to 4. *)
Inductive State := EMPTY | STARTED | PREPARED | COMMITTED | ABORTED.

#[global] Instance State_eq_dec : EqDecision State.
Proof. solve_decision. Defined.

Definition State_value (s : State) : Z :=
  match s with
  | EMPTY => 0 | STARTED => 1 | PREPARED => 2 | COMMITTED => 3 | ABORTED => 4
  end%Z.

(** Modelled from the spec: the constants of [config.AsyncLevel] are not
    among the sources; section 4.4 gives the three levels 0, 1 and 2. *)
Definition AsyncLevelZero : Z := 0.
Definition AsyncLevelOne : Z := 1.
Definition AsyncLevelTwo : Z := 2.

(** Modelled from the spec: the two values of
    [ConcurrentOptimizationLevel] (section 6), sequential and parallel
    prepare. *)
Definition DEFAULT : Z := 0.
Definition PARALLELIZE_ON_PREPARE : Z := 1.

End Config.

(* ===================================================================== *)
(** * Package [txn]: the coordinator *)
(* ===================================================================== *)

Module Txn.
Import Config.

(** ** The state machine embedded in [Transaction] *)

Definition StateViolation : error := "state violation".

(** Modelled from the spec: [StateMachine.CheckState] is not among the
    sources. Section 4.4: an operation invoked in a state other than the
    expected one fails with a state-violation error. *)
Definition CheckState (cur expected : State) : option error :=
  if decide (cur = expected) then None else Some StateViolation.

(** Modelled from the spec: the transitions of section 4.4,
    EMPTY -> STARTED, STARTED -> COMMITTED, STARTED -> ABORTED and
    COMMITTED -> ABORTED; ABORTED is terminal. *)
Definition transition_ok (cur new : State) : bool :=
  match cur, new with
  | EMPTY, STARTED => true
  | STARTED, COMMITTED => true
  | STARTED, ABORTED => true
  | COMMITTED, ABORTED => true
  | _, _ => false
  end.

(** A method returns, or panics (a call through a nil interface). *)
Inductive Outcome (A : Type) := Returns (a : A) | Panics.
Arguments Returns {A} a.
Arguments Panics {A}.

Section Coordinator.

(** Everything outside the coordinator: the backends, the clock, the
    memory the caller's buffers live in. *)
Context {World : Type}.

(** The [any] of [Write(dsName, key, value any)]. *)
Context {any : Type}.

(** ** The interfaces the coordinator consumes *)

(** The methods of [Datastorer] that [Transaction] calls. [Read] fills the
    buffer [value] points to, which lives in the world; [SetTxn] stores
    the back reference to the transaction in the datastore, which lives
    there too. *)
Record Datastorer := {
  GetName : string;
  ds_SetTxn : World → World;
  ds_Start : World → option error * World;
  ds_Read : string → any → World → option error * World;
  ds_Write : string → any → World → option error * World;
  ds_Delete : string → World → option error * World;
  ds_Prepare : World → option error * World;
  ds_Commit : World → option error * World;
  ds_Abort : bool → World → option error * World;
}.

Record TSRMaintainer := {
  tsr_ReadTSR : string → World → (State * option error) * World;
  tsr_WriteTSR : string → State → World → option error * World;
  tsr_CreateTSR : string → State → World → (State * option error) * World;
  tsr_DeleteTSR : string → World → option error * World;
}.

Record TimeSourcer := {
  ts_GetTime : string → World → (Z * option error) * World;
}.

(** The two fields of [config.Config] that [Commit] reads, and the
    identifier generator that [Start] calls. *)
Record ConfigT := {
  ConcurrentOptimizationLevel : Z;
  AsyncLevel : Z;
  GenerateId : World → string * World;
}.

(** ** [type Transaction struct]

    [state] is the embedded [*StateMachine]. The fields that none of the
    methods below reads ([oracleURL], [locker], [client], [debugStart]) are
    left out; [tsrMaintainer] is nil until [SetGlobalDatastore]. *)

Record Transaction := {
  TxnId : string;
  TxnStartTime : Z;
  TxnCommitTime : Z;
  tsrMaintainer : option TSRMaintainer;
  dataStoreMap : gmap string Datastorer;
  timeSource : TimeSourcer;
  isReadOnly : bool;
  writeCount : Z;
  isRemote : bool;
  state : State;
}.

Definition set_state (s : State) (t : Transaction) : Transaction :=
  {| TxnId := TxnId t; TxnStartTime := TxnStartTime t;
     TxnCommitTime := TxnCommitTime t; tsrMaintainer := tsrMaintainer t;
     dataStoreMap := dataStoreMap t; timeSource := timeSource t;
     isReadOnly := isReadOnly t; writeCount := writeCount t;
     isRemote := isRemote t; state := s |}.

Definition set_TxnId (id : string) (t : Transaction) : Transaction :=
  {| TxnId := id; TxnStartTime := TxnStartTime t;
     TxnCommitTime := TxnCommitTime t; tsrMaintainer := tsrMaintainer t;
     dataStoreMap := dataStoreMap t; timeSource := timeSource t;
     isReadOnly := isReadOnly t; writeCount := writeCount t;
     isRemote := isRemote t; state := state t |}.

Definition set_TxnStartTime (z : Z) (t : Transaction) : Transaction :=
  {| TxnId := TxnId t; TxnStartTime := z;
     TxnCommitTime := TxnCommitTime t; tsrMaintainer := tsrMaintainer t;
     dataStoreMap := dataStoreMap t; timeSource := timeSource t;
     isReadOnly := isReadOnly t; writeCount := writeCount t;
     isRemote := isRemote t; state := state t |}.

Definition set_TxnCommitTime (z : Z) (t : Transaction) : Transaction :=
  {| TxnId := TxnId t; TxnStartTime := TxnStartTime t;
     TxnCommitTime := z; tsrMaintainer := tsrMaintainer t;
     dataStoreMap := dataStoreMap t; timeSource := timeSource t;
     isReadOnly := isReadOnly t; writeCount := writeCount t;
     isRemote := isRemote t; state := state t |}.

Definition set_tsrMaintainer (m : option TSRMaintainer) (t : Transaction)
  : Transaction :=
  {| TxnId := TxnId t; TxnStartTime := TxnStartTime t;
     TxnCommitTime := TxnCommitTime t; tsrMaintainer := m;
     dataStoreMap := dataStoreMap t; timeSource := timeSource t;
     isReadOnly := isReadOnly t; writeCount := writeCount t;
     isRemote := isRemote t; state := state t |}.

Definition set_dataStoreMap (m : gmap string Datastorer) (t : Transaction)
  : Transaction :=
  {| TxnId := TxnId t; TxnStartTime := TxnStartTime t;
     TxnCommitTime := TxnCommitTime t; tsrMaintainer := tsrMaintainer t;
     dataStoreMap := m; timeSource := timeSource t;
     isReadOnly := isReadOnly t; writeCount := writeCount t;
     isRemote := isRemote t; state := state t |}.

Definition set_isReadOnly (b : bool) (t : Transaction) : Transaction :=
  {| TxnId := TxnId t; TxnStartTime := TxnStartTime t;
     TxnCommitTime := TxnCommitTime t; tsrMaintainer := tsrMaintainer t;
     dataStoreMap := dataStoreMap t; timeSource := timeSource t;
     isReadOnly := b; writeCount := writeCount t;
     isRemote := isRemote t; state := state t |}.

Definition set_writeCount (z : Z) (t : Transaction) : Transaction :=
  {| TxnId := TxnId t; TxnStartTime := TxnStartTime t;
     TxnCommitTime := TxnCommitTime t; tsrMaintainer := tsrMaintainer t;
     dataStoreMap := dataStoreMap t; timeSource := timeSource t;
     isReadOnly := isReadOnly t; writeCount := z;
     isRemote := isRemote t; state := state t |}.

(** ** What a call does: the trace *)

(** The three [go] statements of the coordinator: [go t.Abort()], the
    closure of [AsyncLevelTwo] (participant commits, then
    [DeleteTSR]) and the closure of [AsyncLevelOne] ([DeleteTSR]). *)
Inductive Task := GoAbort | GoCommitPhase | GoDeleteTSR.

(** One event per call that leaves the coordinator, with the result the
    call gave, and one per goroutine started and not joined. *)
Inductive Event :=
| EvSetTxn (ds : string)
| EvGenerateId (id : string)
| EvGetTime (mode : string) (time : Z) (err : option error)
| EvStart (ds : string) (err : option error)
| EvRead (ds key : string) (err : option error)
| EvWrite (ds key : string) (err : option error)
| EvDelete (ds key : string) (err : option error)
| EvPrepare (ds : string) (err : option error)
| EvCommit (ds : string) (err : option error)
| EvAbort (ds : string) (hasCommitted : bool) (err : option error)
| EvCreateTSR (txnId : string) (st : State) (err : option error)
| EvWriteTSR (txnId : string) (st : State) (err : option error)
| EvDeleteTSR (txnId : string) (err : option error)
| EvGo (task : Task).

(** ** The monad of the coordinator's methods

    A method runs on the receiver [*Transaction] and the world; it
    returns or panics (a call through a nil interface), and leaves the
    events it performed, in order. *)

Record Ctx := { txn : Transaction; world : World }.

Definition M (A : Type) : Type := Ctx → Outcome A * Ctx * list Event.

Definition ret {A} (a : A) : M A := λ c, (Returns a, c, []).

Definition bind {A B} (m : M A) (f : A → M B) : M B :=
  λ c, match m c with
       | (Returns a, c1, tr1) =>
           let '(r, c2, tr2) := f a c1 in (r, c2, tr1 ++ tr2)
       | (Panics, c1, tr1) => (Panics, c1, tr1)
       end.

Definition panic {A} : M A := λ c, (Panics, c, []).

Definition getTxn : M Transaction := λ c, (Returns (txn c), c, []).

Definition modifyTxn (f : Transaction → Transaction) : M unit :=
  λ c, (Returns tt, {| txn := f (txn c); world := world c |}, []).

(** A call that leaves the coordinator. *)
Definition call {A} (f : World → A * World) (ev : A → Event) : M A :=
  λ c, let '(a, w) := f (world c) in
       (Returns a, {| txn := txn c; world := w |}, [ev a]).

(** [go f()] without a join: the goroutine is handed to the scheduler
    and the caller goes on. *)
Definition go (task : Task) : M unit := λ c, (Returns tt, c, [EvGo task]).


Notation "x ← m ; k" := (bind m (λ x, k))
  (at level 20, m at level 100, k at level 200, only parsing).
Notation "' p ← m ; k" := (bind m (λ x, match x with p => k end))
  (at level 20, p pattern, m at level 100, k at level 200, only parsing).
Notation "m ;; k" := (bind m (λ _, k))
  (at level 100, k at level 200, right associativity, only parsing).

(** [for _, ds := range l { body }], the variables the body captures
    and assigns being threaded through as [s]. *)
Fixpoint forEach {S} (body : Datastorer → S → M S) (l : list Datastorer)
  (s : S) : M S :=
  match l with
  | [] => ret s
  | ds :: l' => s' ← body ds s; forEach body l' s'
  end.

(** ** The environment of a run *)

Variable Config : ConfigT.

(** Go leaves the order of [range] over a map unspecified, and the
    runtime draws a new one for every [range] statement: [range] is the
    draw, which reads and advances the state the runtime keeps for it in
    the world. What is proved below holds for every [range] and uses at
    most that each draw enumerates the map. *)
Variable range :
  gmap string Datastorer → World → list (string * Datastorer) * World.

(** The goroutines of a [sync.WaitGroup] run in an order the scheduler
    picks, anew for every group: [sched] is the order in which their
    calls take effect (and, for the prepare phase, in which they take the
    mutex to assign [cause]). What is proved below holds for every
    [sched] and uses at most that each draw permutes its argument. *)
Variable sched : list Datastorer → World → list Datastorer * World.

(** The datastores a [for _, ds := range t.dataStoreMap] visits, in the
    order of this execution of the statement. *)
Definition participants : M (list Datastorer) :=
  λ c, let '(l, w) := range (dataStoreMap (txn c)) (world c) in
       (Returns l.*2, {| txn := txn c; world := w |}, []).

(** The order in which the goroutines started for [l], one each and
    joined by [wg.Wait()], make their calls. *)
Definition goroutines (l : list Datastorer) : M (list Datastorer) :=
  λ c, let '(l', w) := sched l (world c) in
       (Returns l', {| txn := txn c; world := w |}, []).

(** ** Constructors and configuration *)

(** [NewTransaction]; [simple] is [timesource.NewSimpleTimeSource()]. *)
Definition NewTransaction (simple : TimeSourcer) : Transaction :=
  {| TxnId := ""; TxnStartTime := 0; TxnCommitTime := 0;
     tsrMaintainer := None; dataStoreMap := ∅; timeSource := simple;
     isReadOnly := true; writeCount := 0; isRemote := false;
     state := EMPTY |}.

(** [AddDatastore]. [ds.SetTxn(t)] hands the participant its back
    reference to the transaction. *)
Definition AddDatastore (ds : Datastorer) : M (option error) :=
  t ← getTxn;
  match dataStoreMap t !! GetName ds with
  | Some _ => ret (Some "duplicated datastore name")
  | None =>
      call (λ w, (tt, ds_SetTxn ds w)) (λ _, EvSetTxn (GetName ds));;
      modifyTxn (set_dataStoreMap (<[GetName ds := ds]> (dataStoreMap t)));;
      ret None
  end.

Definition SetGlobalDatastore (ds : TSRMaintainer) : M unit :=
  modifyTxn (set_tsrMaintainer (Some ds)).

(** ** The embedded [*StateMachine] *)

Definition GetState : M State := t ← getTxn; ret (state t).

(** Modelled from the spec: [StateMachine.SetState] is not among the
    sources. It moves to [new] when section 4.4 allows the transition and
    otherwise leaves the state alone and reports a state violation. *)
Definition SetState (new : State) : M (option error) :=
  t ← getTxn;
  if transition_ok (state t) new
  then modifyTxn (set_state new);; ret None
  else ret (Some StateViolation).

(** ** The TSR wrappers and [getTime] *)

Definition WriteTSR (txnId : string) (st : State) : M (option error) :=
  t ← getTxn;
  match tsrMaintainer t with
  | None => panic
  | Some m => call (tsr_WriteTSR m txnId st) (EvWriteTSR txnId st)
  end.

Definition CreateTSR (txnId : string) (st : State)
  : M (State * option error) :=
  t ← getTxn;
  match tsrMaintainer t with
  | None => panic
  | Some m => call (tsr_CreateTSR m txnId st) (λ r, EvCreateTSR txnId st r.2)
  end.

Definition DeleteTSR : M (option error) :=
  t ← getTxn;
  match tsrMaintainer t with
  | None => panic
  | Some m => call (tsr_DeleteTSR m (TxnId t)) (EvDeleteTSR (TxnId t))
  end.

Definition getTime (mode : string) : M (Z * option error) :=
  t ← getTxn;
  call (ts_GetTime (timeSource t) mode) (λ r, EvGetTime mode r.1 r.2).

(** ** [Start] *)

Fixpoint startAll (l : list Datastorer) : M (option error) :=
  match l with
  | [] => ret None
  | ds :: l' =>
      err ← call (ds_Start ds) (EvStart (GetName ds));
      match err with
      | Some e => ret (Some e)
      | None => startAll l'
      end
  end.

Definition Start : M (option error) :=
  err ← SetState STARTED;
  match err with
  | Some e => ret (Some e)
  | None =>
      t ← getTxn;
      match tsrMaintainer t with
      | None => ret (Some "global datastore not set")
      | Some _ =>
          if decide (size (dataStoreMap t) = 0%nat)
          then ret (Some "no datastores added")
          else
            id ← call (GenerateId Config) EvGenerateId;
            modifyTxn (set_TxnId id);;
            '(ts, err) ← getTime "start";
            modifyTxn (set_TxnStartTime ts);;
            match err with
            | Some e => ret (Some e)
            | None => l ← participants; startAll l
            end
      end
  end.

(** ** [Read], [Write], [Delete] *)

Definition Read (dsName key : string) (value : any) : M (option error) :=
  t ← getTxn;
  match CheckState (state t) STARTED with
  | Some e => ret (Some e)
  | None =>
      match dataStoreMap t !! dsName with
      | Some ds => call (ds_Read ds key value) (EvRead (GetName ds) key)
      | None => ret (Some "datastore not found")
      end
  end.

Definition Write (dsName key : string) (value : any) : M (option error) :=
  t ← getTxn;
  match CheckState (state t) STARTED with
  | Some e => ret (Some e)
  | None =>
      modifyTxn (set_isReadOnly false);;
      modifyTxn (λ t, set_writeCount (wrap64 (writeCount t + 1)) t);;
      match dataStoreMap t !! dsName with
      | Some ds => call (ds_Write ds key value) (EvWrite (GetName ds) key)
      | None => ret (Some "datastore not found")
      end
  end.

Definition Delete (dsName key : string) : M (option error) :=
  t ← getTxn;
  match CheckState (state t) STARTED with
  | Some e => ret (Some e)
  | None =>
      modifyTxn (set_isReadOnly false);;
      match dataStoreMap t !! dsName with
      | Some ds => call (ds_Delete ds key) (EvDelete (GetName ds) key)
      | None => ret (Some "datastore not found")
      end
  end.

(** ** [Commit] *)

(** The closure [prepareDatastore]: [success] and [cause] are the two
    variables it captures; a failing [Prepare] assigns both. *)
Definition prepareDatastore (ds : Datastorer) (sc : bool * option error)
  : M (bool * option error) :=
  err ← call (ds_Prepare ds) (EvPrepare (GetName ds));
  match err with
  | Some e => ret (false, Some e)
  | None => ret sc
  end.

(** The prepare phase: [success := true; var cause error], then one
    [prepareDatastore] per participant, in goroutines joined by
    [wg.Wait()] under [PARALLELIZE_ON_PREPARE] and in the order of [range]
    otherwise. *)
Definition preparePhase : M (bool * option error) :=
  if decide (ConcurrentOptimizationLevel Config = PARALLELIZE_ON_PREPARE)
  then
    l ← participants;
    l' ← goroutines l;
    forEach prepareDatastore l' (true, None)
  else
    l ← participants;
    forEach prepareDatastore l (true, None).

(** The participant commits: one goroutine each, joined by [wg.Wait()];
    what [ds.Commit()] returns is dropped. *)
Definition commitDatastores : M unit :=
  l ← participants;
  l' ← goroutines l;
  forEach (λ ds _, call (ds_Commit ds) (EvCommit (GetName ds));; ret tt)
    l' tt.

Definition Commit : M (option error) :=
  err ← SetState COMMITTED;
  match err with
  | Some e => ret (Some e)
  | None =>
  t ← getTxn;
  if isReadOnly t then ret None else
  '(tc, err) ← getTime "commit";
  modifyTxn (set_TxnCommitTime tc);;
  match err with
  | Some e => ret (Some e)
  | None =>
  '(success, cause) ← preparePhase;
  if negb success then
    go GoAbort;;
    match cause with
    | Some c => ret (Some ("prepare phase failed: " +:+ c))
    | None => panic
    end
  else
  t ← getTxn;
  '(_, err) ← CreateTSR (TxnId t) COMMITTED;
  match err with
  | Some _ =>
      go GoAbort;;
      ret (Some "transaction is aborted by other transaction")
  | None =>
  if decide (AsyncLevel Config = AsyncLevelTwo) then
    go GoCommitPhase;; ret None
  else
  commitDatastores;;
  if decide (AsyncLevel Config = AsyncLevelOne) then
    go GoDeleteTSR;; ret None
  else
  DeleteTSR;; ret None
  end end end.

(** ** [Abort] *)

Definition Abort : M (option error) :=
  lastState ← GetState;
  err ← SetState ABORTED;
  match err with
  | Some e => ret (Some e)
  | None =>
      let hasCommitted := bool_decide (lastState = COMMITTED) in
      t ← getTxn;
      WriteTSR (TxnId t) ABORTED;;
      l ← participants;
      forEach (λ ds _,
                 call (ds_Abort ds hasCommitted)
                   (EvAbort (GetName ds) hasCommitted);;
                 ret tt)
        l tt;;
      ret None
  end.

(** What each goroutine started by [go] runs. *)
Definition runTask (task : Task) : M unit :=
  match task with
  | GoAbort => Abort;; ret tt
  | GoCommitPhase => commitDatastores;; DeleteTSR;; ret tt
  | GoDeleteTSR => DeleteTSR;; ret tt
  end.

(** ** Reading a trace *)

(** [tr] is one call per element of [l], in order, each with some result;
    [mk ds e] is the event of the call on [ds] that returned [e]. *)
Definition calls (mk : Datastorer → option error → Event)
  (l : list Datastorer) (tr : list Event) : Prop :=
  Forall2 (λ ds ev, ∃ e, ev = mk ds e) l tr.

(** [tr] is one call on every participant of [t], in some order. *)
Definition once_per_participant (t : Transaction)
  (mk : Datastorer → option error → Event) (tr : list Event) : Prop :=
  ∃ l, l ≡ₚ (map_to_list (dataStoreMap t)).*2 ∧ calls mk l tr.

Definition failedPrepare (ev : Event) : option error :=
  match ev with EvPrepare _ (Some e) => Some e | _ => None end.

(** The errors of the failing [Prepare] calls of a trace, the first and
    the last of them. *)
Definition prepareErrors (tr : list Event) : list error :=
  omap failedPrepare tr.
Definition lastPrepareError (tr : list Event) : option error :=
  last (prepareErrors tr).

(** What the prepare loop leaves in [success] and [cause]. *)
Definition verdict (sc : bool * option error) (tr : list Event)
  : bool * option error :=
  match lastPrepareError tr with Some e => (false, Some e) | None => sc end.


(** ** What the loops leave *)

(** Calling [f] on the datastores of [l], one after the other, from the
    world [w]: the events, each with the result its call gave, and the
    world after the last call. *)
Fixpoint callAll (f : Datastorer → World → option error * World)
  (mk : Datastorer → option error → Event) (l : list Datastorer) (w : World)
  : list Event * World :=
  match l with
  | [] => ([], w)
  | ds :: l' =>
      let '(e, w1) := f ds w in
      let '(tr, w2) := callAll f mk l' w1 in
      (mk ds e :: tr, w2)
  end.

(** One execution of [range] over the map [m]: the datastores in the
    order drawn. *)
Definition drawParticipants (m : gmap string Datastorer) (w : World)
  : list Datastorer * World :=
  let '(l, w1) := range m w in (l.*2, w1).

(** One goroutine per datastore of [m], started in the order of a
    [range] and run in the order the scheduler draws. *)
Definition drawGoroutines (m : gmap string Datastorer) (w : World)
  : list Datastorer * World :=
  let '(l, w1) := drawParticipants m w in sched l w1.

Definition drawPreparers (m : gmap string Datastorer) (w : World)
  : list Datastorer * World :=
  if decide (ConcurrentOptimizationLevel Config = PARALLELIZE_ON_PREPARE)
  then drawGoroutines m w else drawParticipants m w.

(** The three loops over the participants, from the world [w]: an order
    is drawn and the call is made on each datastore in that order. *)
Definition prepares (m : gmap string Datastorer) (w : World)
  : list Event * World :=
  let '(l, w1) := drawPreparers m w in
  callAll ds_Prepare (λ ds, EvPrepare (GetName ds)) l w1.

Definition commits (m : gmap string Datastorer) (w : World)
  : list Event * World :=
  let '(l, w1) := drawGoroutines m w in
  callAll ds_Commit (λ ds, EvCommit (GetName ds)) l w1.

Definition aborts (hasCommitted : bool) (m : gmap string Datastorer)
  (w : World) : list Event * World :=
  let '(l, w1) := drawParticipants m w in
  callAll (λ ds, ds_Abort ds hasCommitted)
    (λ ds, EvAbort (GetName ds) hasCommitted) l w1.

(** The loop of [Start] stops at the first error: the part of [l] it
    gets to from the world [w], the datastore whose [Start] fails
    included. *)
Fixpoint reached (l : list Datastorer) (w : World) : list Datastorer :=
  match l with
  | [] => []
  | ds :: l' =>
      match ds_Start ds w with
      | (Some _, _) => [ds]
      | (None, w1) => ds :: reached l' w1
      end
  end.

(** The result of the last call of a trace of [Start] calls: what the
    loop of [Start] returns. *)
Definition lastStart (tr : list Event) : option error :=
  match last tr with Some (EvStart _ e) => e | _ => None end.

(** ** The runs of [Commit], path by path

    One constructor per path through [Commit]: what it returns, the
    context it leaves and the events it performs, each call on the world
    the calls before it left. *)

Inductive CommitRun (c : Ctx)
  : Outcome (option error) → Ctx → list Event → Prop :=
| CR_state :
    transition_ok (state (txn c)) COMMITTED = false →
    CommitRun c (Returns (Some StateViolation)) c []
| CR_readonly :
    transition_ok (state (txn c)) COMMITTED = true →
    isReadOnly (txn c) = true →
    CommitRun c (Returns None)
      {| txn := set_state COMMITTED (txn c); world := world c |} []
| CR_time tc e w1 :
    transition_ok (state (txn c)) COMMITTED = true →
    isReadOnly (txn c) = false →
    ts_GetTime (timeSource (txn c)) "commit" (world c) = ((tc, Some e), w1) →
    CommitRun c (Returns (Some e))
      {| txn := set_TxnCommitTime tc (set_state COMMITTED (txn c));
         world := w1 |}
      [EvGetTime "commit" tc (Some e)]
| CR_prepare tc w1 trp w2 e :
    transition_ok (state (txn c)) COMMITTED = true →
    isReadOnly (txn c) = false →
    ts_GetTime (timeSource (txn c)) "commit" (world c) = ((tc, None), w1) →
    prepares (dataStoreMap (txn c)) w1 = (trp, w2) →
    lastPrepareError trp = Some e →
    CommitRun c (Returns (Some ("prepare phase failed: " +:+ e)))
      {| txn := set_TxnCommitTime tc (set_state COMMITTED (txn c));
         world := w2 |}
      (EvGetTime "commit" tc None :: trp ++ [EvGo GoAbort])
| CR_nil tc w1 trp w2 :
    transition_ok (state (txn c)) COMMITTED = true →
    isReadOnly (txn c) = false →
    ts_GetTime (timeSource (txn c)) "commit" (world c) = ((tc, None), w1) →
    prepares (dataStoreMap (txn c)) w1 = (trp, w2) →
    lastPrepareError trp = None →
    tsrMaintainer (txn c) = None →
    CommitRun c Panics
      {| txn := set_TxnCommitTime tc (set_state COMMITTED (txn c));
         world := w2 |}
      (EvGetTime "commit" tc None :: trp)
| CR_taken tc w1 trp w2 m st e w3 :
    transition_ok (state (txn c)) COMMITTED = true →
    isReadOnly (txn c) = false →
    ts_GetTime (timeSource (txn c)) "commit" (world c) = ((tc, None), w1) →
    prepares (dataStoreMap (txn c)) w1 = (trp, w2) →
    lastPrepareError trp = None →
    tsrMaintainer (txn c) = Some m →
    tsr_CreateTSR m (TxnId (txn c)) COMMITTED w2 = ((st, Some e), w3) →
    CommitRun c (Returns (Some "transaction is aborted by other transaction"))
      {| txn := set_TxnCommitTime tc (set_state COMMITTED (txn c));
         world := w3 |}
      (EvGetTime "commit" tc None :: trp
       ++ [EvCreateTSR (TxnId (txn c)) COMMITTED (Some e); EvGo GoAbort])
| CR_two tc w1 trp w2 m st w3 :
    transition_ok (state (txn c)) COMMITTED = true →
    isReadOnly (txn c) = false →
    ts_GetTime (timeSource (txn c)) "commit" (world c) = ((tc, None), w1) →
    prepares (dataStoreMap (txn c)) w1 = (trp, w2) →
    lastPrepareError trp = None →
    tsrMaintainer (txn c) = Some m →
    tsr_CreateTSR m (TxnId (txn c)) COMMITTED w2 = ((st, None), w3) →
    AsyncLevel Config = AsyncLevelTwo →
    CommitRun c (Returns None)
      {| txn := set_TxnCommitTime tc (set_state COMMITTED (txn c));
         world := w3 |}
      (EvGetTime "commit" tc None :: trp
       ++ [EvCreateTSR (TxnId (txn c)) COMMITTED None; EvGo GoCommitPhase])
| CR_one tc w1 trp w2 m st w3 trc w4 :
    transition_ok (state (txn c)) COMMITTED = true →
    isReadOnly (txn c) = false →
    ts_GetTime (timeSource (txn c)) "commit" (world c) = ((tc, None), w1) →
    prepares (dataStoreMap (txn c)) w1 = (trp, w2) →
    lastPrepareError trp = None →
    tsrMaintainer (txn c) = Some m →
    tsr_CreateTSR m (TxnId (txn c)) COMMITTED w2 = ((st, None), w3) →
    AsyncLevel Config ≠ AsyncLevelTwo →
    commits (dataStoreMap (txn c)) w3 = (trc, w4) →
    AsyncLevel Config = AsyncLevelOne →
    CommitRun c (Returns None)
      {| txn := set_TxnCommitTime tc (set_state COMMITTED (txn c));
         world := w4 |}
      (EvGetTime "commit" tc None :: trp
       ++ EvCreateTSR (TxnId (txn c)) COMMITTED None :: trc
       ++ [EvGo GoDeleteTSR])
| CR_zero tc w1 trp w2 m st w3 trc w4 e w5 :
    transition_ok (state (txn c)) COMMITTED = true →
    isReadOnly (txn c) = false →
    ts_GetTime (timeSource (txn c)) "commit" (world c) = ((tc, None), w1) →
    prepares (dataStoreMap (txn c)) w1 = (trp, w2) →
    lastPrepareError trp = None →
    tsrMaintainer (txn c) = Some m →
    tsr_CreateTSR m (TxnId (txn c)) COMMITTED w2 = ((st, None), w3) →
    AsyncLevel Config ≠ AsyncLevelTwo →
    commits (dataStoreMap (txn c)) w3 = (trc, w4) →
    AsyncLevel Config ≠ AsyncLevelOne →
    tsr_DeleteTSR m (TxnId (txn c)) w4 = (e, w5) →
    CommitRun c (Returns None)
      {| txn := set_TxnCommitTime tc (set_state COMMITTED (txn c));
         world := w5 |}
      (EvGetTime "commit" tc None :: trp
       ++ EvCreateTSR (TxnId (txn c)) COMMITTED None :: trc
       ++ [EvDeleteTSR (TxnId (txn c)) e]).

(** ** What a client does with a transaction *)

(** [keeps m]: running [m] does not change [isReadOnly]. *)
Definition keeps {A} (m : M A) : Prop :=
  ∀ c r c' tr, m c = (r, c', tr) → isReadOnly (txn c') = isReadOnly (txn c).

Inductive Op :=
| OpAddDatastore (ds : Datastorer)
| OpSetGlobalDatastore (ds : TSRMaintainer)
| OpStart
| OpRead (dsName key : string) (value : any)
| OpWrite (dsName key : string) (value : any)
| OpDelete (dsName key : string)
| OpCommit
| OpAbort.

Definition perform (op : Op) : M unit :=
  match op with
  | OpAddDatastore ds => AddDatastore ds;; ret tt
  | OpSetGlobalDatastore ds => SetGlobalDatastore ds
  | OpStart => Start;; ret tt
  | OpRead dsName key value => Read dsName key value;; ret tt
  | OpWrite dsName key value => Write dsName key value;; ret tt
  | OpDelete dsName key => Delete dsName key;; ret tt
  | OpCommit => Commit;; ret tt
  | OpAbort => Abort;; ret tt
  end.

Definition isUpdate (op : Op) : bool :=
  match op with
  | OpWrite _ _ _ | OpDelete _ _ => true
  | _ => false
  end.

(** [history ops c]: a client made a new transaction and performed [ops]
    on it, in order, which left [c]. The goroutines the transaction
    started may have run in between, and the world may have changed under
    other clients. *)
Inductive history : list Op → Ctx → Prop :=
| history_new simple w :
    history [] {| txn := NewTransaction simple; world := w |}
| history_perform ops c op c' tr :
    history ops c → perform op c = (Returns tt, c', tr) →
    history (ops ++ [op]) c'
| history_task ops c task c' tr :
    history ops c → runTask task c = (Returns tt, c', tr) →
    history ops c'
| history_world ops c w :
    history ops c → history ops {| txn := txn c; world := w |}.

End Coordinator.
End Txn.

(* ===================================================================== *)
(** * Package [timesource]: the local hybrid clock *)
(* ===================================================================== *)

Module Timesource.
Local Open Scope Z_scope.

(** [int64(math.Pow10(n))]: the powers of ten up to [10^18] are exact in
    [float64] and fit an [int64]; [logicalTimeBits] is 6 in every clock
    the package builds. *)
Definition Pow10 (n : Z) : Z := 10 ^ n.

Record LocalTimeSource := {
  physicalTimeUpdateInterval : Z;
  logicalTimeBits : Z;
  maxLogicalTime : Z;
  physicalTime : Z;
  logicalTime : Z;
}.

(** [NewLocalTimeSource]; [now] is what [time.Now().UnixMilli()] reads. *)
Definition NewLocalTimeSource (now : Z) : LocalTimeSource :=
  {| physicalTimeUpdateInterval := 1;
     logicalTimeBits := 6;
     maxLogicalTime := wrap64 (Z.shiftl 1 6 - 1);
     physicalTime := now;
     logicalTime := 0 |}.

Definition refresh (now : Z) (ts : LocalTimeSource) : LocalTimeSource :=
  {| physicalTimeUpdateInterval := physicalTimeUpdateInterval ts;
     logicalTimeBits := logicalTimeBits ts;
     maxLogicalTime := maxLogicalTime ts;
     physicalTime := now;
     logicalTime := 0 |}.

Definition set_logicalTime (l : Z) (ts : LocalTimeSource) : LocalTimeSource :=
  {| physicalTimeUpdateInterval := physicalTimeUpdateInterval ts;
     logicalTimeBits := logicalTimeBits ts;
     maxLogicalTime := maxLogicalTime ts;
     physicalTime := physicalTime ts;
     logicalTime := l |}.

(** One round of the loop of [updatePhysicalTime], under the mutex. *)
Definition updatePhysicalTime (now : Z) (ts : LocalTimeSource)
  : LocalTimeSource := refresh now ts.

(** [GetTime], under the mutex; [now] is the wall clock at the call, read
    only when the logical counter is about to reach its maximum. The sleep
    of the debug mode changes no value and is left out. *)
Definition GetTime (now : Z) (ts : LocalTimeSource)
  : (Z * option error) * LocalTimeSource :=
  let ts1 :=
    if wrap64 (maxLogicalTime ts - 10) <=? logicalTime ts
    then refresh now ts else ts in
  let ts2 := set_logicalTime (wrap64 (logicalTime ts1 + 1)) ts1 in
  let timestamp :=
    wrap64 (wrap64 (physicalTime ts2 * Pow10 (logicalTimeBits ts2))
            + logicalTime ts2) in
  ((timestamp, None), ts2).

(** What happens to one clock, in the order the mutex admits it: a call of
    [GetTime] or a tick of the background goroutine, each with the wall
    clock it reads. *)
Inductive Step := CallGetTime (now : Z) | Tick (now : Z).

Definition wallClock (s : Step) : Z :=
  match s with CallGetTime now => now | Tick now => now end.

(** The timestamps the calls of a schedule return, in order. *)
Fixpoint timestamps (steps : list Step) (ts : LocalTimeSource) : list Z :=
  match steps with
  | [] => []
  | CallGetTime now :: rest =>
      let '((t, _), ts') := GetTime now ts in t :: timestamps rest ts'
  | Tick now :: rest => timestamps rest (updatePhysicalTime now ts)
  end.

(** The wall clock never goes back along a schedule that starts at [t0]. *)
Fixpoint clockNeverDecreases (t0 : Z) (steps : list Step) : bool :=
  match steps with
  | [] => true
  | s :: rest => (t0 <=? wallClock s) && clockNeverDecreases (wallClock s) rest
  end.

(** Every later timestamp of the list is larger than every earlier one. *)
Fixpoint strictlyIncreasing (l : list Z) : bool :=
  match l with
  | [] => true
  | x :: rest => forallb (λ y, x <? y) rest && strictlyIncreasing rest
  end.

(** 54 calls of [GetTime] within one millisecond, on a clock made in that
    millisecond; no tick of the background goroutine falls in between. *)
Definition millisecond : Z := 1700000000000.
Definition burst : list Step := replicate 54 (CallGetTime millisecond).

(** A clock as [NewLocalTimeSource] makes it and as [GetTime] and the
    ticks keep it: 6 logical bits, a counter between 0 and 53, a physical
    time that leaves room for the counter. *)
Definition wellFormed (ts : LocalTimeSource) : Prop :=
  logicalTimeBits ts = 6 ∧ maxLogicalTime ts = 63
  ∧ 0 ≤ logicalTime ts ≤ 53 ∧ 0 ≤ physicalTime ts < 2 ^ 42.

End Timesource.

(* ===================================================================== *)
(** * The executor: the HTTP router of [Server.Run] and its handlers *)
(* ===================================================================== *)

Module Executor.

(** [fasthttp]'s status codes. *)
Definition StatusOK : Z := 200.
Definition StatusBadRequest : Z := 400.
Definition StatusNotFound : Z := 404.

Section Server.

(** The state behind the reader and the committer. *)
Context {World : Type}.

(** The payload types of package [network], which the handlers only pass
    on: items, read strategies, configurations, commit infos, predicates. *)
Context {DataItem DataStrategy RecordConfig CommitInfo PredicateInfo : Type}.

(** ** The requests and responses of package [network], with the fields
    the handlers read and write *)

Record ReadRequest := {
  rr_DsName : string; rr_Key : string; rr_StartTime : Z;
  rr_Config : RecordConfig;
}.

Record PrepareRequest := {
  pr_DsName : string; pr_ItemList : list DataItem; pr_StartTime : Z;
  pr_Config : RecordConfig; pr_ValidationMap : gmap string PredicateInfo;
}.

Record CommitRequest := {
  cr_DsName : string; cr_List : list CommitInfo; cr_TCommit : Z;
}.

Record AbortRequest := {
  ar_DsName : string; ar_KeyList : list string; ar_GroupKeyList : string;
}.

(** A field the composite literal leaves out holds its zero value:
    [None] for an interface or a map, the empty string, 0. *)
Record ReadResponse := {
  rs_Status : string; rs_ErrMsg : string;
  rs_DataStrategy : option DataStrategy; rs_Data : option DataItem;
  rs_GroupKey : string; rs_ItemType : string;
}.

Record PrepareResponse := {
  ps_Status : string; ps_ErrMsg : string;
  ps_VerMap : option (gmap string string); ps_TCommit : Z;
}.

(** [network.Response[string]]. *)
Record Response := { r_Status : string; r_ErrMsg : string }.

(** What a handler leaves in the response of the [RequestCtx]: plain text,
    or the value [json.Marshal] was given. *)
Inductive Body :=
| Empty
| Text (s : string)
| JSONRead (r : ReadResponse)
| JSONPrepare (r : PrepareResponse)
| JSONResponse (r : Response).

Record HTTPResponse := { StatusCode : Z; body : Body }.

Record Request := { Path : string; PostBody : string }.

(** ** The server's collaborators *)

(** [network.Reader] and [network.Committer], as the handlers call them. *)
Record Server := {
  reader_Read : string → string → Z → RecordConfig → bool → World →
                (DataItem * DataStrategy * string * option error) * World;
  committer_Prepare : string → list DataItem → Z → RecordConfig →
                      gmap string PredicateInfo → World →
                      (gmap string string * Z * option error) * World;
  committer_Commit : string → list CommitInfo → Z → World →
                     option error * World;
  committer_Abort : string → list string → string → World →
                    option error * World;
}.

(** [json.Unmarshal] of a body into each request type: the request, or the
    decoder's error. *)
Variable unmarshalRead : string → ReadRequest + error.
Variable unmarshalPrepare : string → PrepareRequest + error.
Variable unmarshalCommit : string → CommitRequest + error.
Variable unmarshalAbort : string → AbortRequest + error.

(** [network.GetItemType]. *)
Variable GetItemType : string → string.

(** ** [RequestCtx] *)

(** [ctx.Error(msg, code)]. *)
Definition ctxError (msg : string) (code : Z) : HTTPResponse :=
  {| StatusCode := code; body := Text msg |}.

(** [ctx.Write] and [ctx.WriteString] on a fresh response: the status
    stays at its default, 200. *)
Definition ctxWrite (b : Body) : HTTPResponse :=
  {| StatusCode := StatusOK; body := b |}.

(** ** The handlers *)

Definition newline : string := String (Ascii.ascii_of_nat 10) "".

Definition pingHandler (req : Request) (w : World) : HTTPResponse * World :=
  (ctxWrite (Text "pong"), w).

Definition readHandler (s : Server) (req : Request) (w : World)
  : HTTPResponse * World :=
  match unmarshalRead (PostBody req) with
  | inr err =>
      (ctxError ("Invalid timestamp parameter: " +:+ err) StatusBadRequest, w)
  | inl r =>
      let '((item, dataType, gk, err), w') :=
        reader_Read s (rr_DsName r) (rr_Key r) (rr_StartTime r) (rr_Config r)
          true w in
      let response :=
        match err with
        | Some e =>
            {| rs_Status := "Error"; rs_ErrMsg := e;
               rs_DataStrategy := None; rs_Data := None;
               rs_GroupKey := ""; rs_ItemType := "" |}
        | None =>
            {| rs_Status := "OK"; rs_ErrMsg := "";
               rs_DataStrategy := Some dataType; rs_Data := Some item;
               rs_GroupKey := gk; rs_ItemType := GetItemType (rr_DsName r) |}
        end in
      (ctxWrite (JSONRead response), w')
  end.

Definition prepareHandler (s : Server) (req : Request) (w : World)
  : HTTPResponse * World :=
  match unmarshalPrepare (PostBody req) with
  | inr err =>
      (ctxError ("Invalid prepare request body, error: " +:+ err
                 +:+ newline +:+ " Body: " +:+ PostBody req +:+ newline)
         StatusBadRequest, w)
  | inl r =>
      let '((verMap, tCommit, err), w') :=
        committer_Prepare s (pr_DsName r) (pr_ItemList r) (pr_StartTime r)
          (pr_Config r) (pr_ValidationMap r) w in
      let resp :=
        match err with
        | Some e =>
            {| ps_Status := "Error"; ps_ErrMsg := e;
               ps_VerMap := None; ps_TCommit := 0 |}
        | None =>
            {| ps_Status := "OK"; ps_ErrMsg := "";
               ps_VerMap := Some verMap; ps_TCommit := tCommit |}
        end in
      (ctxWrite (JSONPrepare resp), w')
  end.

Definition commitHandler (s : Server) (req : Request) (w : World)
  : HTTPResponse * World :=
  match unmarshalCommit (PostBody req) with
  | inr _ => (ctxError "Invalid commit request body." StatusBadRequest, w)
  | inl r =>
      let '(err, w') :=
        committer_Commit s (cr_DsName r) (cr_List r) (cr_TCommit r) w in
      let resp :=
        match err with
        | Some e => {| r_Status := "Error"; r_ErrMsg := e |}
        | None => {| r_Status := "OK"; r_ErrMsg := "" |}
        end in
      (ctxWrite (JSONResponse resp), w')
  end.

Definition abortHandler (s : Server) (req : Request) (w : World)
  : HTTPResponse * World :=
  match unmarshalAbort (PostBody req) with
  | inr _ => (ctxError "Invalid abort request body." StatusBadRequest, w)
  | inl r =>
      let '(err, w') :=
        committer_Abort s (ar_DsName r) (ar_KeyList r) (ar_GroupKeyList r) w in
      let resp :=
        match err with
        | Some e => {| r_Status := "Error"; r_ErrMsg := e |}
        | None => {| r_Status := "OK"; r_ErrMsg := "" |}
        end in
      (ctxWrite (JSONResponse resp), w')
  end.

(** The [router] closure of [Server.Run]. *)
Definition router (s : Server) (req : Request) (w : World)
  : HTTPResponse * World :=
  if String.eqb (Path req) "/ping" then pingHandler req w
  else if String.eqb (Path req) "/read" then readHandler s req w
  else if String.eqb (Path req) "/prepare" then prepareHandler s req w
  else if String.eqb (Path req) "/commit" then commitHandler s req w
  else if String.eqb (Path req) "/abort" then abortHandler s req w
  else (ctxError "Unsupported path" StatusNotFound, w).

(** ** Reading a response *)

(** The paths the router knows. *)
Definition knownPaths : list string :=
  ["/ping"; "/read"; "/prepare"; "/commit"; "/abort"].

(** The [Status] and [ErrMsg] fields of a JSON body. *)
Definition jsonStatus (b : Body) : option (string * string) :=
  match b with
  | JSONRead r => Some (rs_Status r, rs_ErrMsg r)
  | JSONPrepare r => Some (ps_Status r, ps_ErrMsg r)
  | JSONResponse r => Some (r_Status r, r_ErrMsg r)
  | Empty | Text _ => None
  end.

(** What the reader or the committer returned to the handler of a request:
    [Some err] for a request to one of the four POST endpoints whose body
    decodes, [err] being the error of the call behind it; [None] for any
    other request. *)
Definition backendResult (s : Server) (req : Request) (w : World)
  : option (option error) :=
  if String.eqb (Path req) "/read" then
    match unmarshalRead (PostBody req) with
    | inl r =>
        Some (reader_Read s (rr_DsName r) (rr_Key r) (rr_StartTime r)
                (rr_Config r) true w).1.2
    | inr _ => None
    end
  else if String.eqb (Path req) "/prepare" then
    match unmarshalPrepare (PostBody req) with
    | inl r =>
        Some (committer_Prepare s (pr_DsName r) (pr_ItemList r)
                (pr_StartTime r) (pr_Config r) (pr_ValidationMap r) w).1.2
    | inr _ => None
    end
  else if String.eqb (Path req) "/commit" then
    match unmarshalCommit (PostBody req) with
    | inl r =>
        Some (committer_Commit s (cr_DsName r) (cr_List r) (cr_TCommit r) w).1
    | inr _ => None
    end
  else if String.eqb (Path req) "/abort" then
    match unmarshalAbort (PostBody req) with
    | inl r =>
        Some (committer_Abort s (ar_DsName r) (ar_KeyList r)
                (ar_GroupKeyList r) w).1
    | inr _ => None
    end
  else None.

(** The error of [json.Unmarshal] in the handler of a request: [Some err]
    for a request to one of the four POST endpoints whose body does not
    decode, [None] for any other request. *)
Definition decodeError (req : Request) : option error :=
  if String.eqb (Path req) "/read" then
    match unmarshalRead (PostBody req) with
    | inl _ => None
    | inr err => Some err
    end
  else if String.eqb (Path req) "/prepare" then
    match unmarshalPrepare (PostBody req) with
    | inl _ => None
    | inr err => Some err
    end
  else if String.eqb (Path req) "/commit" then
    match unmarshalCommit (PostBody req) with
    | inl _ => None
    | inr err => Some err
    end
  else if String.eqb (Path req) "/abort" then
    match unmarshalAbort (PostBody req) with
    | inl _ => None
    | inr err => Some err
    end
  else None.

(** The error the handler of a request meets, of either kind: the one of
    [json.Unmarshal], or else the one the reader or the committer
    returns. *)
Definition handlerError (s : Server) (req : Request) (w : World)
  : option error :=
  match decodeError req with
  | Some err => Some err
  | None =>
      match backendResult s req w with
      | Some (Some err) => Some err
      | _ => None
      end
  end.

(** The answer the specification gives to a handler's error [err]: status
    200 and a JSON body with [Status] "Error" and [err] as [ErrMsg]. *)
Definition errorInBody (resp : HTTPResponse) (err : error) : bool :=
  bool_decide (StatusCode resp = StatusOK)
  && bool_decide (jsonStatus (body resp) = Some ("Error", err)).

End Server.

(** ** A concrete server *)

(** Bodies are taken as they are: the body is the datastore name, and a
    body that starts with a brace does not decode. *)
Definition decodes (b : string) : bool :=
  negb (String.prefix "{" b).

Definition exampleServer : @Server unit string string unit unit unit :=
  {| reader_Read := λ ds _ _ _ _ w,
       (("item", "Normal", "",
         if String.eqb ds "Redis" then None else Some "key not found"), w);
     committer_Prepare := λ ds _ _ _ _ w,
       ((∅, 0%Z,
         if String.eqb ds "Redis" then None else Some "version mismatch"), w);
     committer_Commit := λ ds _ _ w,
       (if String.eqb ds "Redis" then None else Some "version mismatch", w);
     committer_Abort := λ ds _ _ w,
       (if String.eqb ds "Redis" then None else Some "key not found", w) |}.

Definition exampleRead (b : string)
  : @ReadRequest unit + error :=
  if decodes b
  then inl {| rr_DsName := b; rr_Key := "a"; rr_StartTime := 0;
              rr_Config := tt |}
  else inr "unexpected end of JSON input".

Definition examplePrepare (b : string)
  : @PrepareRequest string unit unit + error :=
  if decodes b
  then inl {| pr_DsName := b; pr_ItemList := []; pr_StartTime := 0;
              pr_Config := tt; pr_ValidationMap := ∅ |}
  else inr "unexpected end of JSON input".

Definition exampleCommit (b : string) : @CommitRequest unit + error :=
  if decodes b
  then inl {| cr_DsName := b; cr_List := []; cr_TCommit := 0 |}
  else inr "unexpected end of JSON input".

Definition exampleAbort (b : string) : AbortRequest + error :=
  if decodes b
  then inl {| ar_DsName := b; ar_KeyList := []; ar_GroupKeyList := "" |}
  else inr "unexpected end of JSON input".

Definition exampleRouter (req : Request) : @HTTPResponse string string * unit :=
  router exampleRead examplePrepare exampleCommit exampleAbort (λ _, "redis")
    exampleServer req tt.

End Executor.

(* ===================================================================== *)
(** * Package [txn]: the [Connector] interface, and the Redis connection
      as its test pins it down *)
(* ===================================================================== *)

Module Connector.
Import Config.

(** [txn.VersionMismatch] and [txn.KeyNotFound]. *)
Definition VersionMismatch : error := "version mismatch".
Definition KeyNotFound : error := "key not found".

(** [redis.RedisItem], with the fields the test fills in. *)
Record RedisItem := {
  RKey : string;
  RValue : string;
  RGroupKeyList : string;
  RTxnState : State;
  RTValid : Z;
  RTLease : Z;
  RPrev : string;
  RLinkedLen : Z;
  RIsDeleted : bool;
  RVersion : string;
}.

Definition set_RVersion (v : string) (i : RedisItem) : RedisItem :=
  {| RKey := RKey i; RValue := RValue i; RGroupKeyList := RGroupKeyList i;
     RTxnState := RTxnState i; RTValid := RTValid i; RTLease := RTLease i;
     RPrev := RPrev i; RLinkedLen := RLinkedLen i;
     RIsDeleted := RIsDeleted i; RVersion := v |}.

(** The part of [type Connector interface] that handles items, over the
    state [C] of a backend. [Connect], [Get] and [Put] are not used here. *)
Class ConnectorT (C : Type) := {
  GetItem : string → C → (option RedisItem * option error) * C;
  PutItem : string → RedisItem → C → (string * option error) * C;
  ConditionalUpdate : string → RedisItem → bool → C →
                      (string * option error) * C;
  Delete : string → C → option error * C;
}.

(** ** [TestRedisConnectionConditionalUpdateDoCreate] *)

(** The two items of the test. The values stand for the JSON strings of
    the two test items; [now] is the clock, in milliseconds, the leases
    are taken from. *)
Definition dbItem (now : Z) : RedisItem :=
  {| RKey := "item1"; RValue := "item1-db"; RGroupKeyList := "redis:1";
     RTxnState := COMMITTED; RTValid := 111; RTLease := now - 2000;
     RPrev := ""; RLinkedLen := 1; RIsDeleted := false; RVersion := "1" |}.

Definition cacheItem (now : Z) : RedisItem :=
  {| RKey := "item1"; RValue := "item1-cache"; RGroupKeyList := "redis:2";
     RTxnState := COMMITTED; RTValid := 222; RTLease := now - 1000;
     RPrev := "item1-db"; RLinkedLen := 2; RIsDeleted := false;
     RVersion := "1" |}.

Section Test.
Context {C : Type} `{ConnectorT C}.
Variable now : Z.

(** [assert.NoError] and [assert.EqualError]. *)
Definition NoError (e : option error) : bool := bool_decide (e = None).
Definition EqualError (e : option error) (msg : string) : bool :=
  bool_decide (e = Some msg).

(** "there is no item and doCreate is true" *)
Definition subtest1 (c : C) : bool * C :=
  let '(_, c1) := Delete (RKey (cacheItem now)) c in
  let '((_, err), c2) :=
    ConditionalUpdate (RKey (cacheItem now)) (cacheItem now) true c1 in
  (NoError err, c2).

(** "there is an item and doCreate is true" *)
Definition subtest2 (c : C) : bool * C :=
  let '(_, c1) := PutItem (RKey (dbItem now)) (dbItem now) c in
  let '((_, err), c2) :=
    ConditionalUpdate (RKey (cacheItem now)) (cacheItem now) true c1 in
  (EqualError err VersionMismatch, c2).

(** "there is no item and doCreate is false" *)
Definition subtest3 (c : C) : bool * C :=
  let '(_, c1) := Delete (RKey (cacheItem now)) c in
  let '((_, err), c2) :=
    ConditionalUpdate (RKey (cacheItem now)) (cacheItem now) false c1 in
  (EqualError err VersionMismatch, c2).

(** "there is an item and doCreate is false" *)
Definition subtest4 (c : C) : bool * C :=
  let '(_, c1) := PutItem (RKey (dbItem now)) (dbItem now) c in
  let '((_, err), c2) :=
    ConditionalUpdate (RKey (cacheItem now)) (cacheItem now) false c1 in
  (NoError err, c2).

(** The four subtests run one after the other against the same server;
    the test passes when every assertion holds. *)
Definition TestRedisConnectionConditionalUpdateDoCreate (c : C) : bool :=
  let '(b1, c1) := subtest1 c in
  let '(b2, c2) := subtest2 c1 in
  let '(b3, c3) := subtest3 c2 in
  let '(b4, _) := subtest4 c3 in
  b1 && b2 && b3 && b4.

End Test.

(** ** The Redis connection *)

Section Redis.

(** [util.AddToString]: the decimal string of the number plus [n]. *)
Variable AddToString : string → Z → string.

(** Modelled from the spec: [RedisConnection.GetItem] is not among the
    sources. Section 4.2: [GetItem(key)] gives the item or KeyNotFound. *)
Definition redis_GetItem (key : string) (s : gmap string RedisItem)
  : (option RedisItem * option error) * gmap string RedisItem :=
  match s !! key with
  | Some i => ((Some i, None), s)
  | None => ((None, Some KeyNotFound), s)
  end.

(** Modelled from the spec: [RedisConnection.PutItem] is not among the
    sources. Section 4.2: unconditional replace; the item is stored as it
    is given and its version returned. *)
Definition redis_PutItem (key : string) (value : RedisItem)
  (s : gmap string RedisItem)
  : (string * option error) * gmap string RedisItem :=
  ((RVersion value, None), <[key := value]> s).

(** Modelled from the spec: [RedisConnection.Delete] is not among the
    sources. Section 4.2: removes the record; deleting twice is no error
    ([TestRedisConnectionDeleteTwice]). *)
Definition redis_Delete (key : string) (s : gmap string RedisItem)
  : option error * gmap string RedisItem :=
  (None, delete key s).

(** Modelled from the spec: [RedisConnection.ConditionalUpdate] is not
    among the sources. Section 4.2 gives the cases: without [doCreate], a
    record is replaced only if its stored version equals the item's, and
    the stored version becomes that version plus one, which is returned;
    with [doCreate], the item is inserted, its version incremented, as an
    atomic insert-if-absent; everything else fails with VersionMismatch.
    The one case the section leaves open, [doCreate] on a key that holds a
    record, is the second subtest of
    [TestRedisConnectionConditionalUpdateDoCreate]: insert-if-absent finds
    the key taken and fails with VersionMismatch, equal versions or not. *)
Definition redis_ConditionalUpdate (key : string) (value : RedisItem)
  (doCreate : bool) (s : gmap string RedisItem)
  : (string * option error) * gmap string RedisItem :=
  let newVer := AddToString (RVersion value) 1 in
  if doCreate then
    match s !! key with
    | None => ((newVer, None), <[key := set_RVersion newVer value]> s)
    | Some _ => (("", Some VersionMismatch), s)
    end
  else
    match s !! key with
    | Some stored =>
        if decide (RVersion stored = RVersion value)
        then ((newVer, None), <[key := set_RVersion newVer value]> s)
        else (("", Some VersionMismatch), s)
    | None => (("", Some VersionMismatch), s)
    end.

(** The reading of section 4.2 under which the version comparison on an
    existing record does not look at [doCreate]. *)
Definition ConditionalUpdate_either (key : string) (value : RedisItem)
  (doCreate : bool) (s : gmap string RedisItem)
  : (string * option error) * gmap string RedisItem :=
  let newVer := AddToString (RVersion value) 1 in
  match s !! key with
  | Some stored =>
      if decide (RVersion stored = RVersion value)
      then ((newVer, None), <[key := set_RVersion newVer value]> s)
      else (("", Some VersionMismatch), s)
  | None =>
      if doCreate
      then ((newVer, None), <[key := set_RVersion newVer value]> s)
      else (("", Some VersionMismatch), s)
  end.

Definition RedisConnection : ConnectorT (gmap string RedisItem) :=
  {| GetItem := redis_GetItem; PutItem := redis_PutItem;
     ConditionalUpdate := redis_ConditionalUpdate; Delete := redis_Delete |}.

Definition EitherConnection : ConnectorT (gmap string RedisItem) :=
  {| GetItem := redis_GetItem; PutItem := redis_PutItem;
     ConditionalUpdate := ConditionalUpdate_either; Delete := redis_Delete |}.

End Redis.

(** Modelled from the spec: [util.AddToString] is not among the sources;
    "Version+1" on the decimal string of a version, a string that is no
    number counting as 0. *)
Definition AddToString (s : string) (n : Z) : string :=
  let v := match NilZero.int_of_string s with
           | Some d => Z.of_int d
           | None => 0%Z
           end in
  NilZero.string_of_int (Z.to_int (v + n)).

End Connector.

(* ===================================================================== *)
(** * Concrete participants, stores and clocks *)
(* ===================================================================== *)

Module TxnExamples.
Import Config Txn.

(** A world that counts the calls made on it; values are strings. *)
Definition participant (name : string) (prepare commit abort : option error)
  : @Datastorer nat string :=
  {| GetName := name;
     ds_SetTxn := S;
     ds_Start := λ w, (None, S w);
     ds_Read := λ _ _ w, (None, S w);
     ds_Write := λ _ _ w, (None, S w);
     ds_Delete := λ _ w, (None, S w);
     ds_Prepare := λ w, (prepare, S w);
     ds_Commit := λ w, (commit, S w);
     ds_Abort := λ _ w, (abort, S w) |}.

(** A runtime that ranges over a map in the order of its keys and runs
    goroutines in the order they were started, one that runs them in the
    opposite order, and one that changes its mind with the world: it
    keeps the order at an even count of calls and turns it round at an
    odd one. *)
Definition sorted (m : gmap string (@Datastorer nat string)) (w : nat)
  : list (string * @Datastorer nat string) * nat := (map_to_list m, w).
Definition fifo (l : list (@Datastorer nat string)) (w : nat)
  : list (@Datastorer nat string) * nat := (l, w).
Definition lifo (l : list (@Datastorer nat string)) (w : nat)
  : list (@Datastorer nat string) * nat := (reverse l, w).
Definition fickle (l : list (@Datastorer nat string)) (w : nat)
  : list (@Datastorer nat string) * nat :=
  (if Nat.even w then l else reverse l, w).

Definition globalStore (create delete : option error) : @TSRMaintainer nat :=
  {| tsr_ReadTSR := λ _ w, ((EMPTY, Some "key not found"), S w);
     tsr_WriteTSR := λ _ _ w, (None, S w);
     tsr_CreateTSR := λ _ st w, ((st, create), S w);
     tsr_DeleteTSR := λ _ w, (delete, S w) |}.

Definition clock : @TimeSourcer nat :=
  {| ts_GetTime := λ _ w, ((1700000000000000000 + Z.of_nat w, None)%Z, S w) |}.

Definition config (level : Z) : @ConfigT nat :=
  {| ConcurrentOptimizationLevel := DEFAULT;
     AsyncLevel := level;
     GenerateId := λ w, ("txn-1", S w) |}.

Definition parallel (level : Z) : @ConfigT nat :=
  {| ConcurrentOptimizationLevel := PARALLELIZE_ON_PREPARE;
     AsyncLevel := level;
     GenerateId := λ w, ("txn-1", S w) |}.

(** A transaction in state STARTED over the participants [dss]. *)
Definition started (readOnly : bool) (global : option (@TSRMaintainer nat))
  (dss : list (@Datastorer nat string)) : @Ctx nat string :=
  {| txn := {| TxnId := "txn-1"; TxnStartTime := 1700000000000000000;
               TxnCommitTime := 0; tsrMaintainer := global;
               dataStoreMap := list_to_map ((λ ds, (GetName ds, ds)) <$> dss);
               timeSource := clock; isReadOnly := readOnly;
               writeCount := (if readOnly then 0 else 1); isRemote := false;
               state := STARTED |};
     world := 0%nat |}.

(** Two participants whose [Prepare] succeeds and whose [Commit] fails; the
    global store accepts the TSR and fails to delete it. *)
Definition durable : @Ctx nat string :=
  started false (Some (globalStore None (Some "connection reset")))
    [participant "mongo" None (Some "connection reset") None;
     participant "redis" None (Some "connection reset") None].

(** The same participants; the TSR slot is taken. *)
Definition lostRace : @Ctx nat string :=
  started false (Some (globalStore (Some "key exists") None))
    [participant "mongo" None None None;
     participant "redis" None None None].

(** Two participants whose [Prepare] fails, each with an error of its
    own. *)
Definition bothFail : @Ctx nat string :=
  started false (Some (globalStore None None))
    [participant "mongo" (Some "version mismatch") None None;
     participant "redis" (Some "key exists") None None].

(** A client that adds two participants, sets the global store, starts
    the transaction and reads: no [Write], no [Delete]. *)
Definition readingClient : list (@Op nat string) :=
  [OpAddDatastore (participant "mongo" None None None);
   OpAddDatastore (participant "redis" None None None);
   OpSetGlobalDatastore (globalStore None None);
   OpStart;
   OpRead "redis" "a" "buffer"].

(** The contexts the client goes through, operation by operation. *)
Fixpoint performAll (ops : list (@Op nat string)) (c : @Ctx nat string)
  : @Ctx nat string :=
  match ops with
  | [] => c
  | op :: rest =>
      performAll rest (perform (config 0) sorted fifo op c).1.2
  end.

(** Every operation of [ops] returns. *)
Fixpoint allReturn (ops : list (@Op nat string)) (c : @Ctx nat string)
  : bool :=
  match ops with
  | [] => true
  | op :: rest =>
      match perform (config 0) sorted fifo op c with
      | (Returns _, c', _) => allReturn rest c'
      | (Panics, _, _) => false
      end
  end.

Definition afterReading : @Ctx nat string :=
  performAll readingClient {| txn := NewTransaction clock; world := 0%nat |}.

(** [bothFail] after its [Commit] has failed in the prepare phase: the
    context [go t.Abort()] finds. *)
Definition afterFailedPrepare : @Ctx nat string :=
  (Commit (config 0) sorted fifo bothFail).1.2.

(** Two participants that vote yes and refuse the [Abort] that follows a
    lost race. *)
Definition lostRaceHard : @Ctx nat string :=
  started false (Some (globalStore (Some "key exists") None))
    [participant "mongo" None None (Some "connection reset");
     participant "redis" None None (Some "connection reset")].

(** [lostRaceHard] after its [Commit] has lost the race for the TSR: the
    context [go t.Abort()] finds. *)
Definition afterLostRace : @Ctx nat string :=
  (Commit (config 0) sorted fifo lostRaceHard).1.2.

(** A started transaction on which nothing was written. *)
Definition untouched : @Ctx nat string :=
  started true (Some (globalStore None None))
    [participant "mongo" None None None;
     participant "redis" None None None].

(** A transaction that committed; [Read], [Write] and [Delete] come too
    late. *)
Definition committed : @Ctx nat string :=
  (Commit (config 0) sorted fifo durable).1.2.

End TxnExamples.

(* ===================================================================== *)
(** * Package [txn]: more of [Transaction] *)
(* ===================================================================== *)

Module TxnMore.
Import Config Txn.

Section More.
Context {World any : Type}.

Notation "x ← m ; k" := (bind m (λ x, k))
  (at level 20, m at level 100, k at level 200, only parsing).
Notation "m ;; k" := (bind m (λ _, k))
  (at level 100, k at level 200, right associativity, only parsing).

(** [AddDatastores]: [AddDatastore] on each, up to the first error. *)
Fixpoint AddDatastores (dss : list (@Datastorer World any))
  : @M World any (option error) :=
  match dss with
  | [] => ret None
  | ds :: rest =>
      err ← AddDatastore ds;
      match err with
      | Some e => ret (Some e)
      | None => AddDatastores rest
      end
  end.

(** The datastores of [dss] that [AddDatastores] registers in the map
    [m]: those before the first whose name is taken, by a datastore of
    [m] or by one registered before it. *)
Fixpoint added (dss : list (@Datastorer World any))
  (m : gmap string (@Datastorer World any)) : list (@Datastorer World any) :=
  match dss with
  | [] => []
  | ds :: rest =>
      match m !! GetName ds with
      | Some _ => []
      | None => ds :: added rest (<[GetName ds := ds]> m)
      end
  end.

(** What [Start] fixes for the life of a transaction: its identity, its
    participants, its global store and its clock. *)
Definition fixedPart (t : @Transaction World any) :=
  (TxnId t, TxnStartTime t, tsrMaintainer t, dataStoreMap t, timeSource t,
   isRemote t).

(** [follows R m]: every run of [m], returning or not, takes the
    transaction to one that [R] relates it to. *)
Definition follows {A} (R : relation (@Transaction World any))
  (m : @M World any A) : Prop :=
  ∀ c r c' tr, m c = (r, c', tr) → R (txn c) (txn c').

(** The transaction keeps what [proj] reads of it. *)
Definition same {B} (proj : @Transaction World any → B)
  : relation (@Transaction World any) :=
  λ t t', proj t' = proj t.

(** [isReadOnly] does not come back: it is true afterwards only if it was
    true before. *)
Definition stillReadOnly : relation (@Transaction World any) :=
  λ t t', isReadOnly t' = true → isReadOnly t = true.

(** The operations a client has once the transaction is set up. *)
Definition afterSetup (op : @Op World any) : bool :=
  match op with
  | OpAddDatastore _ | OpSetGlobalDatastore _ | OpStart => false
  | _ => true
  end.

(** What happens to a transaction: its client calls a method, or a
    goroutine it started runs. *)
Inductive Action :=
| Client (op : @Op World any)
| Goroutine (task : Task).

Variable Config : @ConfigT World.
Variable range :
  gmap string (@Datastorer World any) → World →
  list (string * @Datastorer World any) * World.
Variable sched :
  list (@Datastorer World any) → World → list (@Datastorer World any) * World.

Definition act (a : Action) : @M World any unit :=
  match a with
  | Client op => perform Config range sched op
  | Goroutine task => runTask range sched task
  end.

(** The goroutines a call has started, run one after the other. *)
Fixpoint runTasks (tasks : list Task) : @M World any unit :=
  match tasks with
  | [] => ret tt
  | task :: rest => runTask range sched task;; runTasks rest
  end.

(** After the sync point, by [AsyncLevel]: the goroutine [Commit]
    starts, what [Commit] does itself, what it leaves to the goroutine,
    and the world [Commit] returns in. [trc] are the participants'
    commits and [del] is the deletion of the TSR; [w3] is the world after
    the sync point, [w4] after the commits and [w5] after the deletion. *)
Definition deferred : list Task :=
  if decide (AsyncLevel Config = AsyncLevelTwo) then [GoCommitPhase]
  else if decide (AsyncLevel Config = AsyncLevelOne) then [GoDeleteTSR]
  else [].
Definition inline (trc : list Event) (del : Event) : list Event :=
  if decide (AsyncLevel Config = AsyncLevelTwo) then []
  else if decide (AsyncLevel Config = AsyncLevelOne) then trc
  else trc ++ [del].
Definition later (trc : list Event) (del : Event) : list Event :=
  if decide (AsyncLevel Config = AsyncLevelTwo) then trc ++ [del]
  else if decide (AsyncLevel Config = AsyncLevelOne) then [del]
  else [].
Definition returnsIn (w3 w4 w5 : World) : World :=
  if decide (AsyncLevel Config = AsyncLevelTwo) then w3
  else if decide (AsyncLevel Config = AsyncLevelOne) then w4
  else w5.

(** The actions that come after the setup: everything but
    [AddDatastore], [SetGlobalDatastore] and [Start]. *)
Definition settled (a : Action) : bool :=
  match a with
  | Client op => afterSetup op
  | Goroutine _ => true
  end.

(** ** The remote client *)

(** [NewTransactionWithRemote]; the client it stores is handed to
    [RemoteCommit] and [RemoteAbort] below. *)
Definition NewTransactionWithRemote (oracle : @TimeSourcer World)
  : @Transaction World any :=
  {| TxnId := ""; TxnStartTime := 0; TxnCommitTime := 0;
     tsrMaintainer := None; dataStoreMap := ∅; timeSource := oracle;
     isReadOnly := true; writeCount := 0; isRemote := true;
     state := EMPTY |}.

(** [txn.RemoteClient], as [RemoteCommit] and [RemoteAbort] call it. *)
Record RemoteClient {CommitInfo : Type} := {
  rc_Commit : string → list CommitInfo → World → option error * World;
  rc_Abort : string → list string → string → World → option error * World;
}.
Arguments RemoteClient : clear implicits.

(** A call on the remote client; it is no call on a participant and
    leaves no event. *)
Definition callClient {A} (f : World → A * World) : @M World any A :=
  λ c, let '(a, w) := f (world c) in
       (Returns a, {| txn := txn c; world := w |}, []).

(** [RemoteCommit]; [client] is the field [t.client], nil unless the
    transaction was made by [NewTransactionWithRemote]. *)
Definition RemoteCommit {CommitInfo} (client : option (RemoteClient CommitInfo))
  (dsName : string) (infoList : list CommitInfo)
  : @M World any (option error) :=
  t ← getTxn;
  if negb (isRemote t) then ret (Some "not a remote transaction")
  else match client with
       | None => panic
       | Some cl => callClient (rc_Commit cl dsName infoList)
       end.

(** [RemoteAbort]. *)
Definition RemoteAbort {CommitInfo} (client : option (RemoteClient CommitInfo))
  (dsName : string) (keyList : list string) : @M World any (option error) :=
  t ← getTxn;
  if negb (isRemote t) then ret (Some "not a remote transaction")
  else match client with
       | None => panic
       | Some cl => callClient (rc_Abort cl dsName keyList (TxnId t))
       end.

(** [RemoteValidate]: [panic("not implemented")]. *)
Definition RemoteValidate {DataItem} (dsName key : string) (item : DataItem)
  : @M World any (option error) := panic.

End More.

Arguments RemoteClient : clear implicits.
End TxnMore.

Module TxnMoreExamples.
Import Config Txn TxnMore TxnExamples.

(** A participant that cannot be reached when the transaction starts. *)
Definition unreachable (name : string) : @Datastorer nat string :=
  {| GetName := name;
     ds_SetTxn := S;
     ds_Start := λ w, (Some "connection refused", S w);
     ds_Read := λ _ _ w, (None, S w);
     ds_Write := λ _ _ w, (Some "connection refused", S w);
     ds_Delete := λ _ w, (None, S w);
     ds_Prepare := λ w, (None, S w);
     ds_Commit := λ w, (None, S w);
     ds_Abort := λ _ w, (None, S w) |}.

(** A time oracle that is down. *)
Definition oracleDown : @TimeSourcer nat :=
  {| ts_GetTime := λ _ w, ((0, Some "oracle unreachable")%Z, S w) |}.

Definition fresh : @Ctx nat string :=
  {| txn := NewTransaction clock; world := 0%nat |}.

(** A transaction that is set up and not started yet. *)
Definition setUp (global : option (@TSRMaintainer nat))
  (dss : list (@Datastorer nat string)) : @Ctx nat string :=
  {| txn := set_tsrMaintainer global
              (set_dataStoreMap
                 (list_to_map ((λ ds, (GetName ds, ds)) <$> dss))
                 (NewTransaction clock));
     world := 0%nat |}.

(** A started transaction with one participant and no global store. *)
Definition noGlobal : @Ctx nat string :=
  setUp None [participant "redis" None None None].

(** Two participants, the second of which cannot be reached. *)
Definition halfReachable : @Ctx nat string :=
  setUp (Some (globalStore None None))
    [participant "mongo" None None None; unreachable "redis"].

(** Three participants, the second of which cannot be reached. *)
Definition secondUnreachable : @Ctx nat string :=
  setUp (Some (globalStore None None))
    [participant "mongo" None None None; unreachable "redis";
     participant "tikv" None None None].

(** [durable] with a time oracle that is down. *)
Definition noTime : @Ctx nat string :=
  {| txn := {| TxnId := "txn-1"; TxnStartTime := 1700000000000000000;
               TxnCommitTime := 0;
               tsrMaintainer := Some (globalStore None None);
               dataStoreMap := dataStoreMap (txn durable);
               timeSource := oracleDown; isReadOnly := false;
               writeCount := 1; isRemote := false; state := STARTED |};
     world := 0%nat |}.

(** Three participants, the third under the name of the first. *)
Definition nameTakenTwice : list (@Datastorer nat string) :=
  [participant "mongo" None None None; participant "redis" None None None;
   unreachable "mongo"].

(** [noGlobal] after its [Start] has failed: the transaction its client
    is left with. *)
Definition afterFailedStart : @Ctx nat string :=
  (Start (config 0) sorted noGlobal).1.2.

(** A write that the participant refuses. *)
Definition refusedWrite : @Op nat string := OpWrite "redis" "a" "1".

Definition afterStart : @Ctx nat string :=
  (Start (config 0) sorted halfReachable).1.2.

(** What a remote client would answer, were it ever asked. *)
Definition remoteClient : RemoteClient nat string :=
  {| rc_Commit := λ _ _ w, (None, S w);
     rc_Abort := λ _ _ _ w, (None, S w) |}.

End TxnMoreExamples.

(* ===================================================================== *)
(** * Package [timesource]: schedules of one clock *)
(* ===================================================================== *)

Module TimesourceMore.
Import Timesource.
Local Open Scope Z_scope.

(** The clock a schedule leaves. *)
Fixpoint after (steps : list Step) (ts : LocalTimeSource) : LocalTimeSource :=
  match steps with
  | [] => ts
  | CallGetTime now :: rest => after rest (GetTime now ts).2
  | Tick now :: rest => after rest (updatePhysicalTime now ts)
  end.

(** Every step of the schedule reads a wall clock later than the step
    before it, the first one later than [t0]. *)
Fixpoint clockAdvances (t0 : Z) (steps : list Step) : bool :=
  match steps with
  | [] => true
  | s :: rest => (t0 <? wallClock s) && clockAdvances (wallClock s) rest
  end.

(** The wall clock reads milliseconds that leave room for the counter:
    [UnixMilli] stays below [2^42] until the year 2109. *)
Definition inRange (steps : list Step) : bool :=
  forallb (λ s, (0 <=? wallClock s) && (wallClock s <? 2 ^ 42)) steps.

(** Sixty calls one millisecond apart, on a clock made at [millisecond]:
    enough of them for the counter to reach its window. *)
Definition spaced : list Step :=
  (λ k, CallGetTime (millisecond + Z.of_nat k)) <$> seq 1 60.

End TimesourceMore.

(* ===================================================================== *)
(** * Package [network]: the client of the executor *)
(* ===================================================================== *)

Module NetClient.
Import Executor.

(** How a call of the client ends: it returns, [log.Fatal] ends the
    process, or an index is out of range. *)
Inductive Exit (A : Type) := Returned (a : A) | Fatal | Panicked.
Arguments Returned {A} a.
Arguments Fatal {A}.
Arguments Panicked {A}.

(** [Client]; the mutex guards [curIndex], and a call of [GetServerAddr]
    is one step. *)
Record Client := { ServerAddrList : list string; curIndex : Z }.

Definition set_curIndex (i : Z) (c : Client) : Client :=
  {| ServerAddrList := ServerAddrList c; curIndex := i |}.

Definition NewClient (serverAddrList : list string) : Client :=
  {| ServerAddrList := (λ serverAddr, "http://" +:+ serverAddr) <$> serverAddrList;
     curIndex := 0 |}.

(** [GetServerAddr]: [None] when [c.ServerAddrList[c.curIndex]] is out of
    range, which panics after [curIndex] was reset. *)
Definition GetServerAddr (c : Client) : option string * Client :=
  let c1 :=
    if (Z.of_nat (length (ServerAddrList c)) <=? curIndex c)%Z
    then set_curIndex 0 c else c in
  match (if (curIndex c1 <? 0)%Z then None
         else ServerAddrList c1 !! Z.to_nat (curIndex c1)) with
  | Some addr => (Some addr, set_curIndex (wrap64 (curIndex c1 + 1)) c1)
  | None => (None, c1)
  end.

(** The addresses [n] calls in a row get. *)
Fixpoint serverAddrs (n : nat) (c : Client) : list (option string) :=
  match n with
  | O => []
  | S n' => let '(a, c') := GetServerAddr c in a :: serverAddrs n' c'
  end.

Section Calls.

Context {World : Type}.
Context {DataItem DataStrategy RecordConfig CommitInfo PredicateInfo : Type}.

(** [network.PrepareRequest] as the client fills it: the fields the
    executor's handler reads, and [ItemType]. *)
Record PrepareData := {
  pd_ItemType : string;
  pd_Request : @PrepareRequest DataItem RecordConfig PredicateInfo;
}.

(** [json2.Marshal] of each request and [json2.Unmarshal] of a response
    body into each response type. *)
Variable marshalRead : @ReadRequest RecordConfig → string + error.
Variable marshalPrepare : PrepareData → string + error.
Variable marshalCommit : @CommitRequest CommitInfo → string + error.
Variable marshalAbort : AbortRequest → string + error.
Variable unmarshalReadResponse :
  @Body DataItem DataStrategy → @ReadResponse DataItem DataStrategy + error.
Variable unmarshalPrepareResponse :
  @Body DataItem DataStrategy → PrepareResponse + error.
Variable unmarshalResponse : @Body DataItem DataStrategy → Response + error.

(** [fasthttp.Do] of a POST request with the given URI and body: the
    response, or the error of the transport. *)
Variable Do : string → string → World →
              (@HTTPResponse DataItem DataStrategy + error) * World.

(** [txn.Normal], [txn.RedisItem], [txn.MongoItem], [txn.CouchItem]. *)
Variable Normal : DataStrategy.
Variables RedisItem MongoItem CouchItem : string.

(** The bytes [json2.Marshal] leaves when its error is dropped. *)
Definition bytesOf (m : string + error) : string :=
  match m with inl b => b | inr _ => "" end.

Definition getItemType (dsName : string) : string :=
  if String.eqb dsName "redis1" || String.eqb dsName "Redis" then RedisItem
  else if String.eqb dsName "mongo1" || String.eqb dsName "mongo2"
          || String.eqb dsName "MongoDB" then MongoItem
  else if String.eqb dsName "CouchDB" then CouchItem
  else if String.eqb dsName "KVRocks" then RedisItem
  else "".

(** [Client.Read]. *)
Definition Read (c : Client) (dsName key : string) (ts : Z)
  (cfg : RecordConfig) (w : World)
  : Exit (option DataItem * option DataStrategy * option error)
    * Client * World :=
  let data := {| rr_DsName := dsName; rr_Key := key; rr_StartTime := ts;
                 rr_Config := cfg |} in
  let jsonData := bytesOf (marshalRead data) in
  match GetServerAddr c with
  | (None, c') => (Panicked, c', w)
  | (Some addr, c') =>
      let reqUrl := addr +:+ "/read" in
      match Do reqUrl jsonData w with
      | (inr _, w') => (Fatal, c', w')
      | (inl resp, w') =>
          if negb (StatusCode resp =? StatusOK)%Z
          then (Returned (None, Some Normal, Some "unexpected status code"),
                c', w')
          else
            match unmarshalReadResponse (body resp) with
            | inr _ => (Fatal, c', w')
            | inl response =>
                if String.eqb (rs_Status response) "OK"
                then (Returned (rs_Data response, rs_DataStrategy response,
                                None), c', w')
                else (Returned (None, Some Normal, Some (rs_ErrMsg response)),
                      c', w')
            end
      end
  end.

(** [Client.Prepare]; here a request that does not marshal is fatal. *)
Definition Prepare (c : Client) (dsName : string) (itemList : list DataItem)
  (startTime : Z) (cfg : RecordConfig)
  (validationMap : gmap string PredicateInfo) (w : World)
  : Exit (option (gmap string string) * Z * option error) * Client * World :=
  let data :=
    {| pd_ItemType := getItemType dsName;
       pd_Request := {| pr_DsName := dsName; pr_ItemList := itemList;
                        pr_StartTime := startTime; pr_Config := cfg;
                        pr_ValidationMap := validationMap |} |} in
  match marshalPrepare data with
  | inr _ => (Fatal, c, w)
  | inl jsonData =>
      match GetServerAddr c with
      | (None, c') => (Panicked, c', w)
      | (Some addr, c') =>
          let reqUrl := addr +:+ "/prepare" in
          match Do reqUrl jsonData w with
          | (inr _, w') => (Fatal, c', w')
          | (inl resp, w') =>
              if negb (StatusCode resp =? StatusOK)%Z
              then (Returned (None, 0%Z, Some "unexpected status code"),
                    c', w')
              else
                match unmarshalPrepareResponse (body resp) with
                | inr _ => (Fatal, c', w')
                | inl response =>
                    if String.eqb (ps_Status response) "OK"
                    then (Returned (ps_VerMap response, ps_TCommit response,
                                    None), c', w')
                    else (Returned (None, 0%Z, Some (ps_ErrMsg response)),
                          c', w')
                end
          end
      end
  end.

(** [Client.Commit]. *)
Definition Commit (c : Client) (dsName : string) (infoList : list CommitInfo)
  (tCommit : Z) (w : World) : Exit (option error) * Client * World :=
  let data := {| cr_DsName := dsName; cr_List := infoList;
                 cr_TCommit := tCommit |} in
  let jsonData := bytesOf (marshalCommit data) in
  match GetServerAddr c with
  | (None, c') => (Panicked, c', w)
  | (Some addr, c') =>
      let reqUrl := addr +:+ "/commit" in
      match Do reqUrl jsonData w with
      | (inr _, w') => (Fatal, c', w')
      | (inl resp, w') =>
          if negb (StatusCode resp =? StatusOK)%Z
          then (Returned (Some "unexpected status code"), c', w')
          else
            match unmarshalResponse (body resp) with
            | inr _ => (Fatal, c', w')
            | inl response =>
                if String.eqb (r_Status response) "OK"
                then (Returned None, c', w')
                else (Returned (Some (r_ErrMsg response)), c', w')
            end
      end
  end.

(** [Client.Abort]. *)
Definition Abort (c : Client) (dsName : string) (keyList : list string)
  (groupKeyList : string) (w : World)
  : Exit (option error) * Client * World :=
  let data := {| ar_DsName := dsName; ar_KeyList := keyList;
                 ar_GroupKeyList := groupKeyList |} in
  let jsonData := bytesOf (marshalAbort data) in
  match GetServerAddr c with
  | (None, c') => (Panicked, c', w)
  | (Some addr, c') =>
      let reqUrl := addr +:+ "/abort" in
      match Do reqUrl jsonData w with
      | (inr _, w') => (Fatal, c', w')
      | (inl resp, w') =>
          if negb (StatusCode resp =? StatusOK)%Z
          then (Returned (Some "unexpected status code"), c', w')
          else
            match unmarshalResponse (body resp) with
            | inr _ => (Fatal, c', w')
            | inl response =>
                if String.eqb (r_Status response) "OK"
                then (Returned None, c', w')
                else (Returned (Some (r_ErrMsg response)), c', w')
            end
      end
  end.

End Calls.
End NetClient.

(** ** The client in front of the executor *)

Module Wire.
Import Executor NetClient.

Section Wiring.
Context {World : Type}.
Context {DataItem DataStrategy RecordConfig CommitInfo PredicateInfo : Type}.

(** The network reaches the executor [route] under the address [addr]:
    a POST to [addr] followed by a path is answered by the router. *)
Definition delivers
  (Do : string → string → World →
        (@HTTPResponse DataItem DataStrategy + error) * World)
  (route : Request → World → @HTTPResponse DataItem DataStrategy * World)
  (addr : string) : Prop :=
  ∀ path body w,
    Do (addr +:+ path) body w
    = let '(resp, w') := route {| Path := path; PostBody := body |} w in
      (inl resp, w').

(** Responses survive [json.Marshal] followed by [json.Unmarshal]. *)
Definition responsesRoundTrip
  (unmarshalReadResponse :
     @Body DataItem DataStrategy → @ReadResponse DataItem DataStrategy + error)
  (unmarshalPrepareResponse :
     @Body DataItem DataStrategy → PrepareResponse + error)
  (unmarshalResponse : @Body DataItem DataStrategy → Response + error)
  : Prop :=
  (∀ r, unmarshalReadResponse (JSONRead r) = inl r)
  ∧ (∀ r, unmarshalPrepareResponse (JSONPrepare r) = inl r)
  ∧ (∀ r, unmarshalResponse (JSONResponse r) = inl r).

End Wiring.

(** *** A client wired to [exampleServer] *)

Fixpoint dropChars (n : nat) (s : string) : string :=
  match n, s with
  | S n', String _ rest => dropChars n' rest
  | _, _ => s
  end.

Definition executorAddr : string := "http://executor:8000".

(** The network strips the address and hands the rest to the router. *)
Definition exampleDo (url body : string) (w : unit)
  : (@HTTPResponse string string + error) * unit :=
  let '(resp, w') :=
    router exampleRead examplePrepare exampleCommit exampleAbort
      (λ _, "redis") exampleServer
      {| Path := dropChars (String.length executorAddr) url; PostBody := body |}
      w in
  (inl resp, w').

(** Requests travel as the name of their datastore; responses as they
    are. *)
Definition sendRead (r : @ReadRequest unit) : string + error :=
  inl (rr_DsName r).
Definition sendPrepare (r : @PrepareData string unit unit) : string + error :=
  inl (pr_DsName (pd_Request r)).
Definition sendCommit (r : @CommitRequest unit) : string + error :=
  inl (cr_DsName r).
Definition sendAbort (r : AbortRequest) : string + error :=
  inl (ar_DsName r).

Definition receiveRead (b : @Body string string)
  : @ReadResponse string string + error :=
  match b with JSONRead r => inl r | _ => inr "invalid character" end.
Definition receivePrepare (b : @Body string string) : PrepareResponse + error :=
  match b with JSONPrepare r => inl r | _ => inr "invalid character" end.
Definition receive (b : @Body string string) : Response + error :=
  match b with JSONResponse r => inl r | _ => inr "invalid character" end.

Definition exampleClient : Client := NewClient ["executor:8000"].

End Wire.

(* ===================================================================== *)
(** * The YCSB binding for Redis *)
(* ===================================================================== *)

Module YcsbRedis.

(** [getKeyName]: the Redis key of a record of a table. *)
Definition getKeyName (table key : string) : string :=
  table +:+ "/" +:+ key.

(** The character of the string "/" (code 47). *)
Definition slash : Ascii.ascii :=
  Ascii.Ascii true true true true false true false false.

(** The table name holds no slash. *)
Fixpoint noSlash (s : string) : bool :=
  match s with
  | EmptyString => true
  | String a rest => negb (Ascii.eqb a slash) && noSlash rest
  end.

End YcsbRedis.

(* ===================================================================== *)
(** * The Redis connection under concurrent updates *)
(* ===================================================================== *)

Module ConnectorRace.
Import Config Connector.

(** [strconv.Itoa] on the ids of the goroutines, which are positive. *)
Definition Itoa (n : nat) : string := NilZero.string_of_uint (Nat.to_uint n).

(** The items of [TestRedisConnectionConditionalUpdateConcurrently]. The
    values stand for the JSON strings of the two persons; [now] is the
    clock, in milliseconds, the leases are taken from. *)
Definition olderItem (now : Z) : RedisItem :=
  {| RKey := "test_key"; RValue := "older"; RGroupKeyList := "redis:1";
     RTxnState := COMMITTED; RTValid := 111; RTLease := now - 2000;
     RPrev := ""; RLinkedLen := 0; RIsDeleted := false; RVersion := "2" |}.

Definition newerItem (now : Z) (id : nat) : RedisItem :=
  {| RKey := "test_key"; RValue := "newer"; RGroupKeyList := Itoa id;
     RTxnState := COMMITTED; RTValid := 222; RTLease := now - 1000;
     RPrev := ""; RLinkedLen := 0; RIsDeleted := false; RVersion := "2" |}.

(** What a goroutine of the test does, in the two steps another
    goroutine can come between: the call of [ConditionalUpdate], whose
    error it assigns to [err], and the test of [err] that follows. *)
Inductive Step :=
| Call (id : nat)
| IfErr (id : nat).


Section Race.
Context {C : Type} `{ConnectorT C}.
Variable now : Z.

(** The goroutines of "this is a update", in the order [steps] of their
    steps: [_, err = conn.ConditionalUpdate(...)] assigns the [err] of
    the test function, one variable for all the goroutines, and the test
    [err == nil] reads that variable. On success the goroutine leaves its
    id in [globalId]. What comes back is [successCnt] and [globalId]. *)
Fixpoint raceShared (steps : list Step) (err : option error)
  (successCnt globalId : nat) (c : C) : (nat * nat) * C :=
  match steps with
  | [] => ((successCnt, globalId), c)
  | Call id :: rest =>
      let '((_, err1), c1) :=
        ConditionalUpdate "test_key" (newerItem now id) false c in
      raceShared rest err1 successCnt globalId c1
  | IfErr id :: rest =>
      match err with
      | None => raceShared rest err (S successCnt) id c
      | Some _ => raceShared rest err successCnt globalId c
      end
  end.

(** The goroutines of "this is a create": [_, err := ...] declares an
    [err] in each goroutine; [errs] holds them by goroutine. *)
Fixpoint raceOwn (steps : list Step) (errs : gmap nat (option error))
  (successCnt globalId : nat) (c : C) : (nat * nat) * C :=
  match steps with
  | [] => ((successCnt, globalId), c)
  | Call id :: rest =>
      let '((_, err1), c1) :=
        ConditionalUpdate "test_key" (newerItem now id) true c in
      raceOwn rest (<[id := err1]> errs) successCnt globalId c1
  | IfErr id :: rest =>
      match errs !! id with
      | Some None => raceOwn rest errs (S successCnt) id c
      | _ => raceOwn rest errs successCnt globalId c
      end
  end.

(** What both subtests check in the end: one success, and the record
    under the key is the winner's. *)
Definition oneWinner (r : (nat * nat) * C) : bool :=
  let '((successCnt, globalId), c) := r in
  let '((item, err), _) := GetItem "test_key" c in
  Nat.eqb successCnt 1 && NoError err
  && match item with
     | Some i => String.eqb (RGroupKeyList i) (Itoa globalId)
     | None => false
     end.

(** "this is a update" *)
Definition raceToUpdate (steps : list Step) (c : C) : bool :=
  let '((_, err), c1) := PutItem "test_key" (olderItem now) c in
  NoError err && oneWinner (raceShared steps err 0 0 c1).

(** "this is a create" *)
Definition raceToCreate (steps : list Step) (c : C) : bool :=
  let '(_, c1) := Delete "test_key" c in
  oneWinner (raceOwn steps ∅ 0 0 c1).

Definition TestRedisConnectionConditionalUpdateConcurrently
  (steps1 steps2 : list Step) (c : C) : bool :=
  raceToUpdate steps1 c && raceToCreate steps2 c.

End Race.


End ConnectorRace.

(* ===================================================================== *)
(** * The coordinator: what [Commit], [Abort] and the operations do *)
(* ===================================================================== *)

Module TxnFacts.
Import Config Txn.

Section CoordinatorFacts.
Context {World any : Type}.
Variable Config : @ConfigT World.
Variable range :
  gmap string (@Datastorer World any) → World →
  list (string * @Datastorer World any) * World.
Variable sched :
  list (@Datastorer World any) → World → list (@Datastorer World any) * World.

Implicit Types (c : @Ctx World any) (t : @Transaction World any)
  (l : list (@Datastorer World any)) (tr : list Event) (w : World)
  (m : gmap string (@Datastorer World any)).

(** ** The steps of a method *)

Lemma bind_run {A B} (m : @M World any A) (f : A → @M World any B) c :
  bind m f c
  = match m c with
    | (Returns a, c1, tr1) =>
        let '(r, c2, tr2) := f a c1 in (r, c2, tr1 ++ tr2)
    | (Panics, c1, tr1) => (Panics, c1, tr1)
    end.
Proof. reflexivity. Qed.

Lemma SetState_run new c :
  SetState new c
  = if transition_ok (state (txn c)) new
    then (Returns None, {| txn := set_state new (txn c); world := world c |}, [])
    else (Returns (Some StateViolation), c, []).
Proof.
  unfold SetState, getTxn, modifyTxn, bind, ret.
  by destruct (transition_ok (state (txn c)) new).
Qed.

Lemma getTime_run mode c a w1 :
  ts_GetTime (timeSource (txn c)) mode (world c) = (a, w1) →
  getTime mode c
  = (Returns a, {| txn := txn c; world := w1 |}, [EvGetTime mode a.1 a.2]).
Proof. intros E. unfold getTime, getTxn, call, bind. by rewrite E. Qed.

Lemma CreateTSR_run id st c (g : @TSRMaintainer World) a w1 :
  tsrMaintainer (txn c) = Some g →
  tsr_CreateTSR g id st (world c) = (a, w1) →
  CreateTSR id st c
  = (Returns a, {| txn := txn c; world := w1 |}, [EvCreateTSR id st a.2]).
Proof. intros E1 E2. unfold CreateTSR, getTxn, call, bind. by rewrite E1, E2. Qed.

Lemma CreateTSR_nil id st c :
  tsrMaintainer (txn c) = None → CreateTSR id st c = (Panics, c, []).
Proof. intros E. unfold CreateTSR, getTxn, panic, bind. by rewrite E. Qed.

Lemma DeleteTSR_run c (g : @TSRMaintainer World) e w1 :
  tsrMaintainer (txn c) = Some g →
  tsr_DeleteTSR g (TxnId (txn c)) (world c) = (e, w1) →
  DeleteTSR c
  = (Returns e, {| txn := txn c; world := w1 |},
     [EvDeleteTSR (TxnId (txn c)) e]).
Proof. intros E1 E2. unfold DeleteTSR, getTxn, call, bind. by rewrite E1, E2. Qed.

Lemma WriteTSR_run id st c (g : @TSRMaintainer World) e w1 :
  tsrMaintainer (txn c) = Some g →
  tsr_WriteTSR g id st (world c) = (e, w1) →
  WriteTSR id st c
  = (Returns e, {| txn := txn c; world := w1 |}, [EvWriteTSR id st e]).
Proof. intros E1 E2. unfold WriteTSR, getTxn, call, bind. by rewrite E1, E2. Qed.

Lemma WriteTSR_nil id st c :
  tsrMaintainer (txn c) = None → WriteTSR id st c = (Panics, c, []).
Proof. intros E. unfold WriteTSR, getTxn, panic, bind. by rewrite E. Qed.

Lemma participants_run c l w1 :
  drawParticipants range (dataStoreMap (txn c)) (world c) = (l, w1) →
  participants range c = (Returns l, {| txn := txn c; world := w1 |}, []).
Proof.
  unfold drawParticipants, participants.
  destruct (range _ _) as [l0 w0]. by intros [= <- <-].
Qed.

Lemma goroutines_run l c l' w1 :
  sched l (world c) = (l', w1) →
  goroutines sched l c = (Returns l', {| txn := txn c; world := w1 |}, []).
Proof. intros E. unfold goroutines. by rewrite E. Qed.

(** ** The loops *)

Lemma callAll_calls (f : @Datastorer World any → World → option error * World)
  (mk : @Datastorer World any → option error → Event) l w tr w' :
  callAll f mk l w = (tr, w') → calls mk l tr.
Proof.
  revert w tr w'. induction l as [|ds l IH]; intros w tr w'; cbn [callAll].
  - intros [= <- <-]. by apply Forall2_nil.
  - destruct (f ds w) as [e w1]. destruct (callAll f mk l w1) as [tr1 w2] eqn:E.
    intros [= <- <-]. unfold calls. constructor; [by exists e|].
    by eapply IH.
Qed.

Lemma verdict_cons_fail sc n e tr :
  verdict sc (EvPrepare n (Some e) :: tr) = verdict (false, Some e) tr.
Proof.
  unfold verdict, lastPrepareError, prepareErrors. cbn.
  destruct (omap failedPrepare tr) as [|x xs] eqn:Ho; [done|].
  rewrite last_cons. by destruct (last (x :: xs)).
Qed.

Lemma forEach_prepare l sc c tr w' :
  callAll ds_Prepare (λ ds, EvPrepare (GetName ds)) l (world c) = (tr, w') →
  forEach prepareDatastore l sc c
  = (Returns (verdict sc tr), {| txn := txn c; world := w' |}, tr).
Proof.
  revert sc c tr w'. induction l as [|ds l IH]; intros sc c tr w';
    cbn [callAll forEach].
  - intros [= <- <-]. by destruct c.
  - destruct (ds_Prepare ds (world c)) as [err w1] eqn:Hp.
    destruct (callAll _ _ l w1) as [tr1 w2] eqn:E. intros [= <- <-].
    rewrite bind_run. unfold prepareDatastore at 1. rewrite bind_run.
    unfold call at 1. rewrite Hp. cbv beta iota.
    destruct err as [e|]; unfold ret at 1; cbv beta iota; cbn [app].
    + rewrite (IH (false, Some e) {| txn := txn c; world := w1 |} tr1 w2 E).
      by rewrite verdict_cons_fail.
    + by rewrite (IH sc {| txn := txn c; world := w1 |} tr1 w2 E).
Qed.

Lemma forEach_call (f : @Datastorer World any → World → option error * World)
  (mk : @Datastorer World any → option error → Event) l c tr w' :
  callAll f mk l (world c) = (tr, w') →
  forEach (λ ds _, bind (call (f ds) (mk ds)) (λ _, ret tt)) l tt c
  = (Returns tt, {| txn := txn c; world := w' |}, tr).
Proof.
  revert c tr w'. induction l as [|ds l IH]; intros c tr w';
    cbn [callAll forEach].
  - intros [= <- <-]. by destruct c.
  - destruct (f ds (world c)) as [err w1] eqn:Hp.
    destruct (callAll _ _ l w1) as [tr1 w2] eqn:E. intros [= <- <-].
    rewrite !bind_run. unfold call at 1. rewrite Hp. cbv beta iota.
    unfold ret at 1. cbv beta iota. cbn [app].
    by rewrite (IH {| txn := txn c; world := w1 |} tr1 w2 E).
Qed.

Lemma commitDatastores_run c trc w' :
  commits range sched (dataStoreMap (txn c)) (world c) = (trc, w') →
  commitDatastores range sched c
  = (Returns tt, {| txn := txn c; world := w' |}, trc).
Proof.
  unfold commits, drawGoroutines, commitDatastores.
  destruct (drawParticipants _ _ _) as [l w1] eqn:Hl.
  destruct (sched l w1) as [l' w2] eqn:Hs. intros Hc.
  rewrite bind_run, (participants_run c l w1 Hl). cbv beta iota.
  rewrite bind_run,
    (goroutines_run l {| txn := txn c; world := w1 |} l' w2 Hs).
  cbv beta iota. cbn [txn world].
  by rewrite (forEach_call _ _ l' {| txn := txn c; world := w2 |} trc w' Hc).
Qed.

Lemma preparePhase_run c trp w' :
  prepares Config range sched (dataStoreMap (txn c)) (world c) = (trp, w') →
  preparePhase Config range sched c
  = (Returns (verdict (true, None) trp), {| txn := txn c; world := w' |}, trp).
Proof.
  unfold prepares, drawPreparers, drawGoroutines, preparePhase.
  destruct (decide _).
  - destruct (drawParticipants _ _ _) as [l w1] eqn:Hl.
    destruct (sched l w1) as [l' w2] eqn:Hs. intros Hc.
    rewrite bind_run, (participants_run c l w1 Hl). cbv beta iota.
    rewrite bind_run,
      (goroutines_run l {| txn := txn c; world := w1 |} l' w2 Hs).
    cbv beta iota. cbn [txn world].
    by rewrite (forEach_prepare l' _ {| txn := txn c; world := w2 |} trp w' Hc).
  - destruct (drawParticipants _ _ _) as [l w1] eqn:Hl. intros Hc.
    rewrite bind_run, (participants_run c l w1 Hl). cbv beta iota.
    by rewrite (forEach_prepare l _ {| txn := txn c; world := w1 |} trp w' Hc).
Qed.

Lemma verdict_start tr :
  verdict (true, None) tr
  = match lastPrepareError tr with
    | Some e => (false, Some e)
    | None => (true, None)
    end.
Proof. reflexivity. Qed.

Ltac run_ret :=
  unfold ret, go; intros [= <- <- <-]; cbn [app]; rewrite ?app_nil_r.

Lemma Commit_run c r c' tr :
  Commit Config range sched c = (r, c', tr) →
  CommitRun Config range sched c r c' tr.
Proof.
  unfold Commit. rewrite bind_run, SetState_run.
  destruct (transition_ok (state (txn c)) COMMITTED) eqn:Hst; cbv beta iota.
  2:{ run_ret. by constructor. }
  rewrite bind_run. unfold getTxn at 1. cbv beta iota.
  cbn [txn world isReadOnly set_state].
  destruct (isReadOnly (txn c)) eqn:Hro.
  { run_ret. by constructor. }
  rewrite bind_run.
  match goal with |- context [getTime ?m ?c1] =>
    destruct (ts_GetTime (timeSource (txn c1)) m (world c1))
      as [[tc terr] w1] eqn:Htime;
    rewrite (getTime_run m c1 _ _ Htime) end.
  cbn [txn world timeSource set_state] in Htime.
  cbv beta iota. cbn [fst snd].
  rewrite bind_run. unfold modifyTxn at 1. cbv beta iota. cbn [txn world].
  destruct terr as [e|].
  { run_ret. by eapply CR_time. }
  rewrite bind_run.
  destruct (prepares Config range sched (dataStoreMap (txn c)) w1)
    as [trp w2] eqn:Hp.
  match goal with |- context [preparePhase _ _ _ ?c1] =>
    rewrite (preparePhase_run c1 trp w2 Hp) end.
  rewrite verdict_start. cbv beta iota.
  destruct (lastPrepareError trp) as [e|] eqn:Hlast; cbn [negb].
  { rewrite bind_run. unfold go at 1. cbv beta iota. run_ret.
    eapply CR_prepare; eauto. }
  rewrite bind_run. unfold getTxn at 1. cbv beta iota. cbn [txn world].
  cbn [TxnId set_TxnCommitTime set_state]. rewrite bind_run.
  destruct (tsrMaintainer (txn c)) as [g|] eqn:Hm.
  2:{ rewrite CreateTSR_nil by done. cbv beta iota. run_ret.
      eapply CR_nil; eauto. }
  match goal with |- context [CreateTSR ?id ?st ?c1] =>
    destruct (tsr_CreateTSR g id st (world c1)) as [[st' cerr] w3] eqn:Hc;
    rewrite (CreateTSR_run id st c1 g _ _ Hm Hc) end.
  cbn [world] in Hc. cbv beta iota. cbn [fst snd txn world].
  destruct cerr as [e|].
  { rewrite bind_run. unfold go at 1. cbv beta iota. run_ret.
    eapply CR_taken; eauto. }
  destruct (decide (AsyncLevel Config = AsyncLevelTwo)) as [Htwo|Htwo].
  { rewrite bind_run. unfold go at 1. cbv beta iota. run_ret.
    eapply CR_two; eauto. }
  rewrite bind_run.
  destruct (commits range sched (dataStoreMap (txn c)) w3)
    as [trc w4] eqn:Hcs.
  match goal with |- context [commitDatastores _ _ ?c1] =>
    rewrite (commitDatastores_run c1 trc w4 Hcs) end.
  cbv beta iota.
  destruct (decide (AsyncLevel Config = AsyncLevelOne)) as [Hone|Hone].
  { rewrite bind_run. unfold go at 1. cbv beta iota. run_ret.
    eapply CR_one; eauto. }
  rewrite bind_run.
  match goal with |- context [DeleteTSR ?c1] =>
    destruct (tsr_DeleteTSR g (TxnId (txn c1)) (world c1)) as [derr w5] eqn:Hd;
    rewrite (DeleteTSR_run c1 g _ _ Hm Hd) end.
  cbn [txn world TxnId set_TxnCommitTime set_state] in Hd |- *.
  cbv beta iota. run_ret. eapply CR_zero; eauto.
Qed.

Lemma CommitRun_fun c r1 c1 tr1 r2 c2 tr2 :
  CommitRun Config range sched c r1 c1 tr1 →
  CommitRun Config range sched c r2 c2 tr2 →
  (r1, c1, tr1) = (r2, c2, tr2).
Proof.
  intros H1 H2. destruct H1; destruct H2; simplify_eq; try done; congruence.
Qed.

(** Every path of [CommitRun] is a run of [Commit]. *)
Lemma Commit_complete c r c' tr :
  CommitRun Config range sched c r c' tr →
  Commit Config range sched c = (r, c', tr).
Proof.
  intros Hrun. destruct (Commit Config range sched c) as [[r0 c0] tr0] eqn:E.
  apply Commit_run in E. by apply (CommitRun_fun _ _ _ _ _ _ _ E Hrun).
Qed.

(** [Abort], when [SetState(ABORTED)] is allowed: with a global store,
    and without one. *)
Lemma Abort_run c (g : @TSRMaintainer World) e w1 tra w2 :
  transition_ok (state (txn c)) ABORTED = true →
  tsrMaintainer (txn c) = Some g →
  tsr_WriteTSR g (TxnId (txn c)) ABORTED (world c) = (e, w1) →
  aborts range (bool_decide (state (txn c) = COMMITTED))
    (dataStoreMap (txn c)) w1 = (tra, w2) →
  Abort range c
  = (Returns None, {| txn := set_state ABORTED (txn c); world := w2 |},
     EvWriteTSR (TxnId (txn c)) ABORTED e :: tra).
Proof.
  intros Hst Hm Hw Ha. unfold Abort, GetState.
  rewrite !bind_run. unfold getTxn at 1. cbv beta iota.
  unfold ret at 1. cbv beta iota. rewrite bind_run, SetState_run, Hst.
  cbv beta iota. rewrite bind_run. unfold getTxn at 1. cbv beta iota.
  cbn [txn world TxnId set_state]. rewrite bind_run.
  match goal with |- context [WriteTSR ?id ?st ?c1] =>
    rewrite (WriteTSR_run id st c1 g e w1 Hm Hw) end.
  cbv beta iota. rewrite bind_run. cbn [txn world].
  unfold aborts in Ha.
  destruct (drawParticipants range (dataStoreMap (txn c)) w1)
    as [l w1'] eqn:Hl.
  match goal with |- context [participants range ?c1] =>
    rewrite (participants_run c1 l w1' Hl) end.
  cbv beta iota. cbn [txn world]. rewrite bind_run.
  match goal with |- context [forEach ?b l tt ?c1] =>
    rewrite (forEach_call
               (λ ds, ds_Abort ds (bool_decide (state (txn c) = COMMITTED)))
               (λ ds, EvAbort (GetName ds)
                        (bool_decide (state (txn c) = COMMITTED)))
               l c1 tra w2 Ha) end.
  cbv beta iota. unfold ret. cbn [app txn]. by rewrite app_nil_r.
Qed.

Lemma Abort_nil c :
  transition_ok (state (txn c)) ABORTED = true →
  tsrMaintainer (txn c) = None →
  Abort range c
  = (Panics, {| txn := set_state ABORTED (txn c); world := world c |}, []).
Proof.
  intros Hst Hm. unfold Abort, GetState.
  rewrite !bind_run. unfold getTxn at 1. cbv beta iota.
  unfold ret at 1. cbv beta iota. rewrite bind_run, SetState_run, Hst.
  cbv beta iota. rewrite bind_run. unfold getTxn at 1. cbv beta iota.
  rewrite bind_run, WriteTSR_nil; [done|]. by destruct (txn c).
Qed.

(** ** Reading the trace of a run *)

Lemma calls_elem_of mk l tr ev :
  calls mk l tr → ev ∈ tr → ∃ ds e, ds ∈ l ∧ ev = mk ds e.
Proof.
  intros Hc Hin. apply list_elem_of_lookup in Hin as [i Hi].
  destruct (Forall2_lookup_r _ _ _ _ _ Hc Hi) as (ds & Hds & e & ->).
  exists ds, e. split; [|done]. by eapply list_elem_of_lookup_2.
Qed.

Lemma prepares_calls m w trp w' :
  prepares Config range sched m w = (trp, w') →
  ∃ l, calls (λ ds, EvPrepare (GetName ds)) l trp.
Proof.
  unfold prepares. destruct (drawPreparers _ _ _ _ _) as [l w1].
  intros Hc. exists l. by eapply callAll_calls.
Qed.

Lemma commits_calls m w trc w' :
  commits range sched m w = (trc, w') →
  ∃ l, calls (λ ds, EvCommit (GetName ds)) l trc.
Proof.
  unfold commits. destruct (drawGoroutines _ _ _ _) as [l w1].
  intros Hc. exists l. by eapply callAll_calls.
Qed.


Lemma lastPrepareError_elem_of tr e :
  lastPrepareError tr = Some e → ∃ n, EvPrepare n (Some e) ∈ tr.
Proof.
  unfold lastPrepareError, prepareErrors. intros E.
  apply last_Some_elem_of, list_elem_of_omap in E as (ev & Hin & Hev).
  destruct ev as [| | | | | | |n [e'|]| | | | | |]; try done.
  injection Hev as ->. by exists n.
Qed.


Lemma no_prepare_errors tr :
  prepareErrors tr = [] ↔ lastPrepareError tr = None.
Proof. unfold lastPrepareError. by rewrite last_None. Qed.

(** ** What the operations leave alone *)

Lemma keeps_ret {A} (a : A) : keeps (@ret World any A a).
Proof. by intros c r c' tr [= <- <- <-]. Qed.

Lemma keeps_panic {A} : keeps (@panic World any A).
Proof. by intros c r c' tr [= <- <- <-]. Qed.

Lemma keeps_getTxn : keeps (@getTxn World any).
Proof. by intros c r c' tr [= <- <- <-]. Qed.

Lemma keeps_go task : keeps (@go World any task).
Proof. by intros c r c' tr [= <- <- <-]. Qed.

Lemma keeps_call {A} (f : World → A * World) ev : keeps (@call World any A f ev).
Proof.
  intros c r c' tr. unfold call. destruct (f (world c)). by intros [= <- <- <-].
Qed.

Lemma keeps_participants : keeps (participants range).
Proof.
  intros c r c' tr. unfold participants. destruct (range _ _).
  by intros [= <- <- <-].
Qed.

Lemma keeps_goroutines l : keeps (goroutines sched l).
Proof.
  intros c r c' tr. unfold goroutines. destruct (sched _ _).
  by intros [= <- <- <-].
Qed.

Lemma keeps_modifyTxn (f : @Transaction World any → @Transaction World any) :
  (∀ t, isReadOnly (f t) = isReadOnly t) → keeps (modifyTxn f).
Proof. intros Hf c r c' tr [= <- <- <-]. apply Hf. Qed.

Lemma keeps_bind {A B} (m : @M World any A) (f : A → @M World any B) :
  keeps m → (∀ a, keeps (f a)) → keeps (bind m f).
Proof.
  intros Hm Hf c r c' tr. rewrite bind_run.
  destruct (m c) as [[[a|] c1] tr1] eqn:E.
  - destruct (f a c1) as [[r2 c2] tr2] eqn:E2. intros [= <- <- <-].
    rewrite (Hf _ _ _ _ _ E2). by eapply Hm.
  - intros [= <- <- <-]. by eapply Hm.
Qed.

Lemma keeps_forEach {S} (body : @Datastorer World any → S → @M World any S) l s :
  (∀ ds s, keeps (body ds s)) → keeps (forEach body l s).
Proof.
  intros Hb. revert s. induction l as [|ds l IH]; intros s; cbn [forEach].
  - apply keeps_ret.
  - apply keeps_bind; [apply Hb|apply IH].
Qed.

Lemma keeps_startAll l : keeps (@startAll World any l).
Proof.
  induction l as [|ds l IH]; cbn [startAll]; [apply keeps_ret|].
  apply keeps_bind; [apply keeps_call|]. intros [e|]; [apply keeps_ret|done].
Qed.

(** Takes a method apart into the steps that keep [isReadOnly]. *)
Ltac keeps_steps :=
  repeat first
    [ apply keeps_ret | apply keeps_panic | apply keeps_getTxn
    | apply keeps_go | apply keeps_call | apply keeps_startAll
    | apply keeps_participants | apply keeps_goroutines
    | apply keeps_modifyTxn; by intros []
    | apply keeps_forEach; intros
    | apply keeps_bind; [|intros]
    | match goal with
      | |- keeps (match ?x with _ => _ end) => destruct x
      | |- keeps (let '(_, _) := ?x in _) => destruct x
      end ].

Lemma keeps_SetState new : keeps (@SetState World any new).
Proof. unfold SetState. keeps_steps. Qed.

Lemma keeps_Commit : keeps (Commit Config range sched).
Proof.
  unfold Commit, preparePhase, commitDatastores, getTime, CreateTSR, DeleteTSR.
  keeps_steps; apply keeps_SetState.
Qed.

Lemma keeps_Abort : keeps (@Abort World any range).
Proof. unfold Abort, GetState, WriteTSR. keeps_steps; apply keeps_SetState. Qed.

Lemma keeps_Start : keeps (Start Config range).
Proof. unfold Start, getTime. keeps_steps; apply keeps_SetState. Qed.

Lemma keeps_runTask task : keeps (runTask range sched task).
Proof.
  destruct task; unfold runTask, commitDatastores, DeleteTSR;
    keeps_steps; apply keeps_Abort.
Qed.

Lemma keeps_perform op :
  isUpdate op = false → keeps (perform Config range sched op).
Proof.
  destruct op; try done; intros _;
    unfold perform, AddDatastore, SetGlobalDatastore, Read;
    first [ apply keeps_bind; [|intros; apply keeps_ret];
            first [apply keeps_Start | apply keeps_Commit | apply keeps_Abort]
          | keeps_steps ].
Qed.

Lemma history_read_only ops c :
  history Config range sched ops c →
  Forall (λ op, isUpdate op = false) ops →
  isReadOnly (txn c) = true.
Proof.
  induction 1 as [| ops c op c' tr _ IH Hop | ops c task c' tr _ IH Ht
                  | ops c w _ IH]; intros Hall.
  - done.
  - apply Forall_app in Hall as [Hops Hop'].
    rewrite Forall_singleton in Hop'.
    rewrite (keeps_perform op Hop' _ _ _ _ Hop). by apply IH.
  - rewrite (keeps_runTask task _ _ _ _ Ht). by apply IH.
  - by apply IH.
Qed.

(** ** One call per participant

    From here on [range] is taken to enumerate the map it ranges over
    and [sched] to permute the goroutines it is given, at every draw. *)

Hypothesis range_enumerates : ∀ m w, (range m w).1 ≡ₚ map_to_list m.
Hypothesis sched_permutes : ∀ l w, (sched l w).1 ≡ₚ l.

Lemma drawParticipants_perm m w :
  (drawParticipants range m w).1 ≡ₚ (map_to_list m).*2.
Proof.
  unfold drawParticipants. pose proof (range_enumerates m w) as H.
  destruct (range m w) as [l w1]. cbn in *. by rewrite H.
Qed.

Lemma drawGoroutines_perm m w :
  (drawGoroutines range sched m w).1 ≡ₚ (map_to_list m).*2.
Proof.
  unfold drawGoroutines. pose proof (drawParticipants_perm m w) as H.
  destruct (drawParticipants range m w) as [l w1]. cbn in H.
  by rewrite sched_permutes.
Qed.

Lemma drawPreparers_perm m w :
  (drawPreparers Config range sched m w).1 ≡ₚ (map_to_list m).*2.
Proof.
  unfold drawPreparers. destruct (decide _);
    [apply drawGoroutines_perm|apply drawParticipants_perm].
Qed.

Lemma once_per_participant_prepares t w trp w' :
  prepares Config range sched (dataStoreMap t) w = (trp, w') →
  once_per_participant t (λ ds, EvPrepare (GetName ds)) trp.
Proof.
  unfold prepares. pose proof (drawPreparers_perm (dataStoreMap t) w) as H.
  destruct (drawPreparers _ _ _ _ _) as [l w1]. intros Hc.
  exists l. split; [done|]. by eapply callAll_calls.
Qed.

Lemma once_per_participant_commits t w trc w' :
  commits range sched (dataStoreMap t) w = (trc, w') →
  once_per_participant t (λ ds, EvCommit (GetName ds)) trc.
Proof.
  unfold commits. pose proof (drawGoroutines_perm (dataStoreMap t) w) as H.
  destruct (drawGoroutines _ _ _ _) as [l w1]. intros Hc.
  exists l. split; [done|]. by eapply callAll_calls.
Qed.

Lemma once_per_participant_aborts t hc w tra w' :
  aborts range hc (dataStoreMap t) w = (tra, w') →
  once_per_participant t (λ ds, EvAbort (GetName ds) hc) tra.
Proof.
  unfold aborts. pose proof (drawParticipants_perm (dataStoreMap t) w) as H.
  destruct (drawParticipants _ _ _) as [l w1]. intros Hc.
  exists l. split; [done|]. by eapply callAll_calls.
Qed.

(** Splits a membership in a trace into its places, and drops the places
    that hold events of another kind. *)
Ltac in_trace H :=
  rewrite ?elem_of_cons, ?elem_of_app, ?elem_of_nil in H;
  lazymatch type of H with
  | _ ∨ _ => destruct H as [H|H]; in_trace H
  | False => destruct H
  | _ = _ => simplify_eq
  | _ ∈ ?tr =>
      try match goal with
          | Hc : prepares _ _ _ _ _ = (tr, _) |- _ =>
              let l := fresh "l" in
              let Hl := fresh "Hl" in
              let ds := fresh "ds" in
              let e := fresh "e" in
              destruct (prepares_calls _ _ _ _ Hc) as [l Hl];
              destruct (calls_elem_of _ _ _ _ Hl H) as (ds & e & _ & [=])
          | Hc : commits _ _ _ _ = (tr, _) |- _ =>
              let l := fresh "l" in
              let Hl := fresh "Hl" in
              let ds := fresh "ds" in
              let e := fresh "e" in
              destruct (commits_calls _ _ _ _ Hc) as [l Hl];
              destruct (calls_elem_of _ _ _ _ Hl H) as (ds & e & _ & [=])
          end
  end.

(** The paths of a run of [Commit], with the names used below. *)
Ltac commit_paths Hrun :=
  apply Commit_run in Hrun;
  destruct Hrun as
    [ Hok
    | Hok Hro
    | tc e w1 Hok Hro Ht
    | tc w1 trp w2 e Hok Hro Ht Hp Hlast
    | tc w1 trp w2 Hok Hro Ht Hp Hlast Hg
    | tc w1 trp w2 g st e w3 Hok Hro Ht Hp Hlast Hg Hc
    | tc w1 trp w2 g st w3 Hok Hro Ht Hp Hlast Hg Hc Htwo
    | tc w1 trp w2 g st w3 trc w4 Hok Hro Ht Hp Hlast Hg Hc Htwo Hcs Hone
    | tc w1 trp w2 g st w3 trc w4 e w5
        Hok Hro Ht Hp Hlast Hg Hc Htwo Hcs Hone Hd ].

(** ** The sync point *)

(** Up to the sync point: the commit time, the [Prepare] calls and
    [CreateTSR], each on the world the call before it left. *)
Lemma Commit_to_sync_point c (g : @TSRMaintainer World)
  tc w1 trp w2 st res w3 :
  transition_ok (state (txn c)) COMMITTED = true →
  isReadOnly (txn c) = false →
  tsrMaintainer (txn c) = Some g →
  ts_GetTime (timeSource (txn c)) "commit" (world c) = ((tc, None), w1) →
  prepares Config range sched (dataStoreMap (txn c)) w1 = (trp, w2) →
  prepareErrors trp = [] →
  tsr_CreateTSR g (TxnId (txn c)) COMMITTED w2 = ((st, res), w3) →
  ∃ r c' post,
    Commit Config range sched c
    = (r, c',
       EvGetTime "commit" tc None :: trp
       ++ EvCreateTSR (TxnId (txn c)) COMMITTED res :: post).
Proof.
  intros Hok Hro Hg Ht Hp Hnone Hc. apply no_prepare_errors in Hnone.
  destruct res as [e|].
  { eexists _, _, _. apply Commit_complete. eapply CR_taken; eauto. }
  destruct (decide (AsyncLevel Config = AsyncLevelTwo)) as [Htwo|Htwo].
  { eexists _, _, _. apply Commit_complete. eapply CR_two; eauto. }
  destruct (commits range sched (dataStoreMap (txn c)) w3) as [trc w4] eqn:Hcs.
  destruct (decide (AsyncLevel Config = AsyncLevelOne)) as [Hone|Hone].
  { eexists _, _, _. apply Commit_complete. eapply CR_one; eauto. }
  destruct (tsr_DeleteTSR g (TxnId (txn c)) w4) as [e w5] eqn:Hd.
  eexists _, _, _. apply Commit_complete. eapply CR_zero; eauto.
Qed.


(** C1. When the prepare phase succeeded on all participants, the next
    call of [Commit] is [CreateTSR(TxnId, COMMITTED)] on the global
    store, in the world the [Prepare] calls left. If the store answers
    with an error, [Commit] starts [go t.Abort()], returns an error and
    does nothing else: no participant [Commit]. If the store accepts,
    [Commit] returns nil in state COMMITTED, and [CreateTSR] is not
    called again. *)
Theorem commit_sync_point c (g : @TSRMaintainer World) tc w1 trp w2 st res w3 :
  transition_ok (state (txn c)) COMMITTED = true →
  isReadOnly (txn c) = false →
  tsrMaintainer (txn c) = Some g →
  ts_GetTime (timeSource (txn c)) "commit" (world c) = ((tc, None), w1) →
  prepares Config range sched (dataStoreMap (txn c)) w1 = (trp, w2) →
  prepareErrors trp = [] →
  tsr_CreateTSR g (TxnId (txn c)) COMMITTED w2 = ((st, res), w3) →
  once_per_participant (txn c) (λ ds, EvPrepare (GetName ds)) trp
  ∧ match res with
    | Some e =>
        Commit Config range sched c
        = (Returns (Some "transaction is aborted by other transaction"),
           {| txn := set_TxnCommitTime tc (set_state COMMITTED (txn c));
              world := w3 |},
           EvGetTime "commit" tc None :: trp
           ++ [EvCreateTSR (TxnId (txn c)) COMMITTED (Some e); EvGo GoAbort])
    | None =>
        ∃ w4 post,
          Commit Config range sched c
          = (Returns None,
             {| txn := set_TxnCommitTime tc (set_state COMMITTED (txn c));
                world := w4 |},
             EvGetTime "commit" tc None :: trp
             ++ EvCreateTSR (TxnId (txn c)) COMMITTED None :: post)
          ∧ ∀ txnId st' e, EvCreateTSR txnId st' e ∉ post
    end.
Proof.
  intros Hok Hro Hg Ht Hp Hnone Hc.
  split; [by eapply once_per_participant_prepares|].
  apply no_prepare_errors in Hnone.
  destruct res as [e|].
  { apply Commit_complete. eapply CR_taken; eauto. }
  destruct (decide (AsyncLevel Config = AsyncLevelTwo)) as [Htwo|Htwo].
  { exists w3, [EvGo GoCommitPhase]. split.
    - apply Commit_complete. eapply CR_two; eauto.
    - intros txnId st' e Hx. in_trace Hx. }
  destruct (commits range sched (dataStoreMap (txn c)) w3) as [trc w4] eqn:Hcs.
  destruct (decide (AsyncLevel Config = AsyncLevelOne)) as [Hone|Hone].
  { exists w4, (trc ++ [EvGo GoDeleteTSR]). split.
    - apply Commit_complete. eapply CR_one; eauto.
    - intros txnId st' e Hx. in_trace Hx. }
  destruct (tsr_DeleteTSR g (TxnId (txn c)) w4) as [e w5] eqn:Hd.
  exists w5, (trc ++ [EvDeleteTSR (TxnId (txn c)) e]). split.
  - apply Commit_complete. eapply CR_zero; eauto.
  - intros txnId st' e' Hx. in_trace Hx.
Qed.

(** C3. Once [CreateTSR] has succeeded, [Commit] returns nil whatever the
    participant [Commit] calls and [DeleteTSR] return. What it does
    after the sync point and before it returns depends on [AsyncLevel]:
    at level 2 nothing, the commits and the deletion being left to a
    goroutine; at level 1 one [Commit] call on every participant, the
    deletion being left to a goroutine; at any other level (0) the
    [Commit] calls and then [DeleteTSR]. Each call is made on the world
    the call before it left, and its result is in the trace. *)
Theorem commit_after_sync_point c (g : @TSRMaintainer World)
  tc w1 trp w2 st w3 trc w4 e w5 :
  transition_ok (state (txn c)) COMMITTED = true →
  isReadOnly (txn c) = false →
  tsrMaintainer (txn c) = Some g →
  ts_GetTime (timeSource (txn c)) "commit" (world c) = ((tc, None), w1) →
  prepares Config range sched (dataStoreMap (txn c)) w1 = (trp, w2) →
  prepareErrors trp = [] →
  tsr_CreateTSR g (TxnId (txn c)) COMMITTED w2 = ((st, None), w3) →
  commits range sched (dataStoreMap (txn c)) w3 = (trc, w4) →
  tsr_DeleteTSR g (TxnId (txn c)) w4 = (e, w5) →
  once_per_participant (txn c) (λ ds, EvCommit (GetName ds)) trc
  ∧ Commit Config range sched c
    = (Returns None,
       {| txn := set_TxnCommitTime tc (set_state COMMITTED (txn c));
          world := if decide (AsyncLevel Config = AsyncLevelTwo) then w3
                   else if decide (AsyncLevel Config = AsyncLevelOne) then w4
                   else w5 |},
       EvGetTime "commit" tc None :: trp
       ++ EvCreateTSR (TxnId (txn c)) COMMITTED None
       :: (if decide (AsyncLevel Config = AsyncLevelTwo)
           then [EvGo GoCommitPhase]
           else if decide (AsyncLevel Config = AsyncLevelOne)
           then trc ++ [EvGo GoDeleteTSR]
           else trc ++ [EvDeleteTSR (TxnId (txn c)) e])).
Proof.
  intros Hok Hro Hg Ht Hp Hnone Hc Hcs Hd.
  split; [by eapply once_per_participant_commits|].
  apply no_prepare_errors in Hnone. apply Commit_complete.
  destruct (decide (AsyncLevel Config = AsyncLevelTwo)) as [Htwo|Htwo].
  { eapply CR_two; eauto. }
  destruct (decide (AsyncLevel Config = AsyncLevelOne)) as [Hone|Hone].
  { eapply CR_one; eauto. }
  eapply CR_zero; eauto.
Qed.

(** ** A failing [Prepare] *)


(** ** [Read], [Write], [Delete] and [Abort] *)

(** C8. In every state other than STARTED, [Read], [Write] and [Delete]
    return the state-violation error, perform no call on any datastore
    and leave the transaction and the world as they were. *)
Theorem operations_need_STARTED c dsName key value :
  state (txn c) ≠ STARTED →
  Read dsName key value c = (Returns (Some StateViolation), c, [])
  ∧ Write dsName key value c = (Returns (Some StateViolation), c, [])
  ∧ Delete dsName key c = (Returns (Some StateViolation), c, []).
Proof.
  intros Hst. unfold Read, Write, Delete, CheckState.
  rewrite !bind_run. unfold getTxn. cbv beta iota.
  by destruct (decide (state (txn c) = STARTED)).
Qed.

(** C6 fails on the code when no global store is set. Where
    [SetState(ABORTED)] is allowed, [Abort] with a global store writes the
    ABORTED TSR, calls [Abort(hasCommitted)] on every participant, with
    [hasCommitted] true exactly when the state before was COMMITTED, and
    returns nil whatever these calls returned; without a global store it
    has set the state to ABORTED when it panics in [t.WriteTSR], before
    any participant is told. *)
Theorem abort_without_global_store c :
  transition_ok (state (txn c)) ABORTED = true →
  match tsrMaintainer (txn c) with
  | Some g =>
      Abort range c
      = (Returns None,
         {| txn := set_state ABORTED (txn c);
            world :=
              (aborts range (bool_decide (state (txn c) = COMMITTED))
                 (dataStoreMap (txn c))
                 (tsr_WriteTSR g (TxnId (txn c)) ABORTED (world c)).2).2 |},
         EvWriteTSR (TxnId (txn c)) ABORTED
           (tsr_WriteTSR g (TxnId (txn c)) ABORTED (world c)).1
         :: (aborts range (bool_decide (state (txn c) = COMMITTED))
               (dataStoreMap (txn c))
               (tsr_WriteTSR g (TxnId (txn c)) ABORTED (world c)).2).1)
      ∧ once_per_participant (txn c)
          (λ ds, EvAbort (GetName ds)
                   (bool_decide (state (txn c) = COMMITTED)))
          (aborts range (bool_decide (state (txn c) = COMMITTED))
             (dataStoreMap (txn c))
             (tsr_WriteTSR g (TxnId (txn c)) ABORTED (world c)).2).1
  | None =>
      Abort range c
      = (Panics, {| txn := set_state ABORTED (txn c); world := world c |}, [])
  end.
Proof.
  intros Hst. destruct (tsrMaintainer (txn c)) as [g|] eqn:Hg.
  - destruct (tsr_WriteTSR g (TxnId (txn c)) ABORTED (world c))
      as [e w1] eqn:Hw.
    cbn [fst snd].
    destruct (aborts range _ (dataStoreMap (txn c)) w1) as [tra w2] eqn:Ha.
    cbn [fst snd]. split.
    + by apply (Abort_run c g e w1 tra w2).
    + by eapply once_per_participant_aborts.
  - by apply Abort_nil.
Qed.

(** ** The read-only fast path *)

Lemma read_only_fast_path c :
  state (txn c) = STARTED → isReadOnly (txn c) = true →
  Commit Config range sched c
  = (Returns None,
     {| txn := set_state COMMITTED (txn c); world := world c |}, []).
Proof.
  intros Hst Hro. unfold Commit. rewrite bind_run, SetState_run, Hst.
  cbv beta iota. cbn [transition_ok]. rewrite bind_run. unfold getTxn at 1.
  cbv beta iota. cbn [txn isReadOnly set_state]. by rewrite Hro.
Qed.

(** C4. A transaction on which no [Write] and no [Delete] was performed is
    read-only: [Commit] on it, in state STARTED, sets the state to
    COMMITTED and returns nil at once. It performs no call at all (no
    commit timestamp, no [Prepare], no [Commit], no TSR) and leaves the
    world as it was. *)
Theorem commit_read_only ops c :
  history Config range sched ops c →
  Forall (λ op, isUpdate op = false) ops →
  state (txn c) = STARTED →
  Commit Config range sched c
  = (Returns None,
     {| txn := set_state COMMITTED (txn c); world := world c |}, []).
Proof.
  intros Hh Hops Hst. apply read_only_fast_path; [done|].
  by eapply history_read_only.
Qed.

(** ** A transaction that is not read-only takes the full path *)

(** C10. In state STARTED, [Write] and [Delete] on a datastore name that
    was never added return "datastore not found" and perform no call, yet
    leave [isReadOnly] false ([Write] has also incremented [writeCount]).
    A [Commit] that follows, on either, does not take the read-only fast
    path: with a clock that answers, participants that vote yes and a
    global store, it fetches the commit timestamp, calls [Prepare] once on
    every participant and then [CreateTSR(TxnId, COMMITTED)], each call
    on the world the call before it left. *)
Theorem update_on_unknown_datastore c dsName key value
  (g : @TSRMaintainer World) tc w1 trp w2 st res w3 :
  state (txn c) = STARTED →
  dataStoreMap (txn c) !! dsName = None →
  tsrMaintainer (txn c) = Some g →
  ts_GetTime (timeSource (txn c)) "commit" (world c) = ((tc, None), w1) →
  prepares Config range sched (dataStoreMap (txn c)) w1 = (trp, w2) →
  prepareErrors trp = [] →
  tsr_CreateTSR g (TxnId (txn c)) COMMITTED w2 = ((st, res), w3) →
  Write dsName key value c
  = (Returns (Some "datastore not found"),
     {| txn := set_writeCount (wrap64 (writeCount (txn c) + 1))
                 (set_isReadOnly false (txn c));
        world := world c |}, [])
  ∧ Delete dsName key c
    = (Returns (Some "datastore not found"),
       {| txn := set_isReadOnly false (txn c); world := world c |}, [])
  ∧ once_per_participant (txn c) (λ ds, EvPrepare (GetName ds)) trp
  ∧ ∀ c1,
      c1 = (Write dsName key value c).1.2 ∨ c1 = (Delete dsName key c).1.2 →
      ∃ r c2 post,
        Commit Config range sched c1
        = (r, c2,
           EvGetTime "commit" tc None :: trp
           ++ EvCreateTSR (TxnId (txn c)) COMMITTED res :: post).
Proof.
  intros Hst Hds Hg Ht Hp Hnone Hc.
  assert (Write dsName key value c
          = (Returns (Some "datastore not found"),
             {| txn := set_writeCount (wrap64 (writeCount (txn c) + 1))
                         (set_isReadOnly false (txn c));
                world := world c |}, [])) as Hw.
  { unfold Write, CheckState. rewrite bind_run. unfold getTxn at 1.
    cbv beta iota. rewrite Hst, Hds. by rewrite decide_True. }
  assert (Delete dsName key c
          = (Returns (Some "datastore not found"),
             {| txn := set_isReadOnly false (txn c); world := world c |}, []))
    as Hd.
  { unfold Delete, CheckState. rewrite bind_run. unfold getTxn at 1.
    cbv beta iota. rewrite Hst, Hds. by rewrite decide_True. }
  split_and!; [done|done|by eapply once_per_participant_prepares|].
  rewrite Hw, Hd. cbn [fst snd].
  assert (transition_ok (state (txn c)) COMMITTED = true) as Hok
    by (by rewrite Hst).
  intros c1 [-> | ->].
  - destruct (Commit_to_sync_point
                {| txn := set_writeCount (wrap64 (writeCount (txn c) + 1))
                            (set_isReadOnly false (txn c));
                   world := world c |} g tc w1 trp w2 st res w3)
      as (r & c2 & post & Hrun); try done.
    by exists r, c2, post.
  - destruct (Commit_to_sync_point
                {| txn := set_isReadOnly false (txn c); world := world c |}
                g tc w1 trp w2 st res w3)
      as (r & c2 & post & Hrun); try done.
    by exists r, c2, post.
Qed.

End CoordinatorFacts.

(** ** The theorems at work on concrete transactions *)

Import TxnExamples.

Lemma sorted_enumerates m w : (sorted m w).1 ≡ₚ map_to_list m.
Proof. reflexivity. Defined.

Lemma fifo_permutes l w : (fifo l w).1 ≡ₚ l.
Proof. reflexivity. Defined.

Lemma lifo_permutes l w : (lifo l w).1 ≡ₚ l.
Proof. apply reverse_Permutation. Defined.

Lemma fickle_permutes l w : (fickle l w).1 ≡ₚ l.
Proof.
  unfold fickle. destruct (Nat.even w); [reflexivity|].
  apply reverse_Permutation.
Defined.

Lemma commit_sync_point_witness :
  (once_per_participant (txn lostRace) (λ ds, EvPrepare (GetName ds))
     [EvPrepare "mongo" None; EvPrepare "redis" None]
   ∧ Commit (config 0) sorted fifo lostRace
     = (Returns (Some "transaction is aborted by other transaction"),
        {| txn := set_TxnCommitTime 1700000000000000000
                    (set_state COMMITTED (txn lostRace));
           world := 4%nat |},
        [EvGetTime "commit" 1700000000000000000 None;
         EvPrepare "mongo" None; EvPrepare "redis" None;
         EvCreateTSR "txn-1" COMMITTED (Some "key exists"); EvGo GoAbort]))
  ∧ (once_per_participant (txn durable) (λ ds, EvPrepare (GetName ds))
       [EvPrepare "mongo" None; EvPrepare "redis" None]
     ∧ ∃ w4 post,
         Commit (config 0) sorted fifo durable
         = (Returns None,
            {| txn := set_TxnCommitTime 1700000000000000000
                        (set_state COMMITTED (txn durable));
               world := w4 |},
            [EvGetTime "commit" 1700000000000000000 None;
             EvPrepare "mongo" None; EvPrepare "redis" None]
            ++ EvCreateTSR "txn-1" COMMITTED None :: post)
         ∧ ∀ txnId st' e, EvCreateTSR txnId st' e ∉ post).
Proof.
  split.
  - apply (commit_sync_point (config 0) sorted fifo sorted_enumerates
             fifo_permutes lostRace (globalStore (Some "key exists") None)
             1700000000000000000 1%nat
             [EvPrepare "mongo" None; EvPrepare "redis" None] 3%nat
             COMMITTED (Some "key exists") 4%nat); reflexivity.
  - apply (commit_sync_point (config 0) sorted fifo sorted_enumerates
             fifo_permutes durable
             (globalStore None (Some "connection reset"))
             1700000000000000000 1%nat
             [EvPrepare "mongo" None; EvPrepare "redis" None] 3%nat
             COMMITTED None 4%nat); reflexivity.
Defined.

Lemma history_performAll ops0 ops c :
  history (config 0) sorted fifo ops0 c →
  allReturn ops c = true →
  history (config 0) sorted fifo (ops0 ++ ops) (performAll ops c).
Proof.
  revert ops0 c. induction ops as [|op ops IH]; intros ops0 c Hh Hret.
  - by rewrite app_nil_r.
  - cbn [allReturn performAll] in *.
    destruct (perform _ _ _ op c) as [[[[]|] c'] tr] eqn:E; [|done].
    replace (ops0 ++ op :: ops) with ((ops0 ++ [op]) ++ ops)
      by (by rewrite <- app_assoc).
    apply IH; [|done]. by eapply history_perform.
Qed.

Lemma commit_after_sync_point_witness :
  once_per_participant (txn durable) (λ ds, EvCommit (GetName ds))
    [EvCommit "mongo" (Some "connection reset");
     EvCommit "redis" (Some "connection reset")]
  ∧ Commit (parallel 0) sorted fickle durable
    = (Returns None,
       {| txn := set_TxnCommitTime 1700000000000000000
                   (set_state COMMITTED (txn durable));
          world := 7%nat |},
       [EvGetTime "commit" 1700000000000000000 None;
        EvPrepare "redis" None; EvPrepare "mongo" None;
        EvCreateTSR "txn-1" COMMITTED None;
        EvCommit "mongo" (Some "connection reset");
        EvCommit "redis" (Some "connection reset");
        EvDeleteTSR "txn-1" (Some "connection reset")]).
Proof.
  apply (commit_after_sync_point (parallel 0) sorted fickle sorted_enumerates
           fickle_permutes durable
           (globalStore None (Some "connection reset"))
           1700000000000000000 1%nat
           [EvPrepare "redis" None; EvPrepare "mongo" None] 3%nat
           COMMITTED 4%nat
           [EvCommit "mongo" (Some "connection reset");
            EvCommit "redis" (Some "connection reset")] 6%nat
           (Some "connection reset") 7%nat); reflexivity.
Defined.


Lemma commit_read_only_witness :
  Commit (config 0) sorted fifo afterReading
  = (Returns None,
     {| txn := set_state COMMITTED (txn afterReading);
        world := world afterReading |}, []).
Proof.
  apply (commit_read_only (config 0) sorted fifo readingClient).
  - apply (history_performAll [] readingClient); [constructor|].
    vm_compute. reflexivity.
  - unfold readingClient. repeat constructor.
  - vm_compute. reflexivity.
Defined.

Import TxnMoreExamples.

Lemma abort_without_global_store_witness :
  (Start (config 0) sorted noGlobal
   = (Returns (Some "global datastore not set"), afterFailedStart, [])
   ∧ state (txn afterFailedStart) = STARTED
   ∧ Abort sorted afterFailedStart
     = (Panics,
        {| txn := set_state ABORTED (txn afterFailedStart); world := 0%nat |},
        []))
  ∧ Abort sorted afterLostRace
    = (Returns None,
       {| txn := set_state ABORTED (txn afterLostRace); world := 7%nat |},
       [EvWriteTSR "txn-1" ABORTED None;
        EvAbort "mongo" true (Some "connection reset");
        EvAbort "redis" true (Some "connection reset")])
    ∧ once_per_participant (txn afterLostRace)
        (λ ds, EvAbort (GetName ds) true)
        [EvAbort "mongo" true (Some "connection reset");
         EvAbort "redis" true (Some "connection reset")].
Proof.
  split; [split; [reflexivity|split; [reflexivity|]]|].
  - apply (abort_without_global_store sorted sorted_enumerates
             afterFailedStart).
    reflexivity.
  - apply (abort_without_global_store sorted sorted_enumerates afterLostRace).
    reflexivity.
Defined.

Lemma operations_need_STARTED_witness :
  Read "redis" "a" "1" committed
  = (Returns (Some StateViolation), committed, [])
  ∧ Write "redis" "a" "1" committed
    = (Returns (Some StateViolation), committed, [])
  ∧ Delete "redis" "a" committed
    = (Returns (Some StateViolation), committed, []).
Proof.
  apply (operations_need_STARTED committed "redis" "a").
  vm_compute. discriminate.
Defined.

Lemma update_on_unknown_datastore_witness :
  (Write "cassandra" "a" "1" untouched
   = (Returns (Some "datastore not found"),
      {| txn := set_writeCount 1 (set_isReadOnly false (txn untouched));
         world := 0%nat |}, [])
   ∧ Delete "cassandra" "a" untouched
     = (Returns (Some "datastore not found"),
        {| txn := set_isReadOnly false (txn untouched); world := 0%nat |}, [])
   ∧ once_per_participant (txn untouched) (λ ds, EvPrepare (GetName ds))
       [EvPrepare "mongo" None; EvPrepare "redis" None]
   ∧ ∀ c1,
       c1 = (Write "cassandra" "a" "1" untouched).1.2
       ∨ c1 = (Delete "cassandra" "a" untouched).1.2 →
       ∃ r c2 post,
         Commit (config 0) sorted fifo c1
         = (r, c2,
            [EvGetTime "commit" 1700000000000000000 None;
             EvPrepare "mongo" None; EvPrepare "redis" None]
            ++ EvCreateTSR "txn-1" COMMITTED None :: post))
  ∧ Commit (config 0) sorted fifo (Write "cassandra" "a" "1" untouched).1.2
    = (Returns None,
       {| txn := set_TxnCommitTime 1700000000000000000
                   (set_state COMMITTED
                      (txn (Write "cassandra" "a" "1" untouched).1.2));
          world := 7%nat |},
       [EvGetTime "commit" 1700000000000000000 None;
        EvPrepare "mongo" None; EvPrepare "redis" None;
        EvCreateTSR "txn-1" COMMITTED None;
        EvCommit "mongo" None; EvCommit "redis" None;
        EvDeleteTSR "txn-1" None]).
Proof.
  split; [|reflexivity].
  apply (update_on_unknown_datastore (config 0) sorted fifo
           sorted_enumerates fifo_permutes untouched "cassandra" "a" "1"
           (globalStore None None) 1700000000000000000 1%nat
           [EvPrepare "mongo" None; EvPrepare "redis" None] 3%nat
           COMMITTED None 4%nat); reflexivity.
Defined.


End TxnFacts.

(* ===================================================================== *)
(** * The clock *)
(* ===================================================================== *)

Module TimesourceFacts.
Import Timesource.
Local Open Scope Z_scope.

Lemma wrap64_small z : - 2 ^ 63 ≤ z < 2 ^ 63 → wrap64 z = z.
Proof. intros H. unfold wrap64. rewrite Z.mod_small; lia. Qed.

Lemma NewLocalTimeSource_wellFormed now :
  0 ≤ now < 2 ^ 42 → wellFormed (NewLocalTimeSource now).
Proof. intros H. unfold wellFormed. cbn. repeat split; try lia; reflexivity. Qed.

(** Where the logical counter does its work: while it is below the window,
    the next call keeps the physical time and returns the next
    timestamp. *)
Lemma GetTime_counts ts now :
  wellFormed ts → logicalTime ts < 53 →
  GetTime now ts
  = ((physicalTime ts * 1000000 + logicalTime ts + 1, None),
     set_logicalTime (logicalTime ts + 1) ts).
Proof.
  intros (Hb & Hm & Hl & Hp) Hlt. unfold GetTime. rewrite Hm.
  rewrite (wrap64_small (63 - 10)) by lia.
  destruct (Z.leb_spec (63 - 10) (logicalTime ts)); [lia|].
  rewrite (wrap64_small (logicalTime ts + 1)) by lia.
  cbn [logicalTime physicalTime logicalTimeBits set_logicalTime].
  rewrite Hb. change (Pow10 6) with 1000000.
  rewrite (wrap64_small (physicalTime ts * 1000000)) by lia.
  rewrite wrap64_small by lia. by rewrite Z.add_assoc.
Qed.

(** Where it stops: at the window the physical time is read again and the
    counter starts over, whatever the wall clock says. *)
Lemma GetTime_refreshes ts now :
  wellFormed ts → logicalTime ts = 53 → 0 ≤ now < 2 ^ 42 →
  GetTime now ts = ((now * 1000000 + 1, None), set_logicalTime 1 (refresh now ts)).
Proof.
  intros (Hb & Hm & Hl & Hp) Heq Hnow. unfold GetTime. rewrite Hm, Heq.
  rewrite (wrap64_small (63 - 10)) by lia. cbn [Z.leb Z.sub Z.compare].
  change (63 - 10 <=? 53) with true. cbv iota.
  cbn [logicalTime physicalTime logicalTimeBits set_logicalTime refresh].
  rewrite Hb. change (Pow10 6) with 1000000. change (wrap64 (0 + 1)) with 1.
  rewrite (wrap64_small (now * 1000000)) by lia.
  by rewrite wrap64_small by lia.
Qed.

(** C7 fails on the code. A clock made at millisecond 1700000000000 and
    called 54 times within that millisecond reads a wall clock that never
    goes back; its 53rd call returns 1700000000000000053 and its 54th
    returns 1700000000000000001, the timestamp of the first call. *)
Theorem timestamps_repeat_within_a_millisecond :
  clockNeverDecreases millisecond burst = true
  ∧ timestamps burst (NewLocalTimeSource millisecond) !! 0%nat
    = Some 1700000000000000001
  ∧ timestamps burst (NewLocalTimeSource millisecond) !! 52%nat
    = Some 1700000000000000053
  ∧ timestamps burst (NewLocalTimeSource millisecond) !! 53%nat
    = Some 1700000000000000001
  ∧ strictlyIncreasing (timestamps burst (NewLocalTimeSource millisecond))
    = false.
Proof. repeat split; vm_compute; reflexivity. Qed.

End TimesourceFacts.

(* ===================================================================== *)
(** * The executor's router *)
(* ===================================================================== *)

Module ExecutorFacts.
Import Executor.

Section RouterFacts.
Context {World DataItem DataStrategy RecordConfig CommitInfo PredicateInfo : Type}.
Variable unmarshalRead : string → @ReadRequest RecordConfig + error.
Variable unmarshalPrepare :
  string → @PrepareRequest DataItem RecordConfig PredicateInfo + error.
Variable unmarshalCommit : string → @CommitRequest CommitInfo + error.
Variable unmarshalAbort : string → AbortRequest + error.
Variable GetItemType : string → string.

Implicit Types
  (s : @Server World DataItem DataStrategy RecordConfig CommitInfo PredicateInfo)
  (req : Request) (w : World).

Local Abbreviation route :=
  (router unmarshalRead unmarshalPrepare unmarshalCommit unmarshalAbort
     GetItemType).
Local Abbreviation result :=
  (backendResult unmarshalRead unmarshalPrepare unmarshalCommit
     unmarshalAbort).
Local Abbreviation undecoded :=
  (decodeError unmarshalRead unmarshalPrepare unmarshalCommit
     unmarshalAbort).

Lemma route_unknown s req w :
  Path req ∉ knownPaths →
  route s req w = (ctxError "Unsupported path" StatusNotFound, w).
Proof.
  intros Hp. unfold router.
  repeat match goal with
         | |- context [String.eqb (Path req) ?p] =>
             destruct (String.eqb_spec (Path req) p) as [E|_];
             [exfalso; apply Hp; rewrite E; unfold knownPaths;
              repeat (apply elem_of_cons; (by left) || right) |]
         end.
  done.
Qed.

Lemma route_backend s req w err :
  result s req w = Some err →
  StatusCode (route s req w).1 = StatusOK
  ∧ jsonStatus (body (route s req w).1)
    = Some match err with
           | Some e => ("Error", e)
           | None => ("OK", "")
           end.
Proof.
  unfold backendResult, router.
  destruct (String.eqb_spec (Path req) "/ping") as [E|_].
  { rewrite E. cbn. done. }
  destruct (String.eqb (Path req) "/read").
  { unfold readHandler. destruct (unmarshalRead _) as [r|]; [|done].
    destruct (reader_Read _ _ _ _ _ _ _) as [[[[item dt] gk] e] w'].
    intros [= <-]. by destruct e. }
  destruct (String.eqb (Path req) "/prepare").
  { unfold prepareHandler. destruct (unmarshalPrepare _) as [r|]; [|done].
    destruct (committer_Prepare _ _ _ _ _ _ _) as [[[vm tc] e] w'].
    intros [= <-]. by destruct e. }
  destruct (String.eqb (Path req) "/commit").
  { unfold commitHandler. destruct (unmarshalCommit _) as [r|]; [|done].
    destruct (committer_Commit _ _ _ _ _) as [e w'].
    intros [= <-]. by destruct e. }
  destruct (String.eqb (Path req) "/abort"); [|done].
  unfold abortHandler. destruct (unmarshalAbort _) as [r|]; [|done].
  destruct (committer_Abort _ _ _ _ _) as [e w'].
  intros [= <-]. by destruct e.
Qed.

(** A body that does not decode is answered with status 400 and a plain
    text, before the reader or the committer is called: the answer is the
    same whatever they are. *)
Lemma route_undecodable s req w e :
  undecoded req = Some e →
  Path req ∈ ["/read"; "/prepare"; "/commit"; "/abort"]
  ∧ result s req w = None
  ∧ ∃ msg, ∀ s', route s' req w = (ctxError msg StatusBadRequest, w).
Proof.
  unfold decodeError, backendResult, router.
  destruct (String.eqb_spec (Path req) "/ping") as [E|_].
  { by rewrite E. }
  destruct (String.eqb_spec (Path req) "/read") as [->|_].
  { unfold readHandler. destruct (unmarshalRead _); [done|].
    intros _. split_and!; [set_solver|done|eauto]. }
  destruct (String.eqb_spec (Path req) "/prepare") as [->|_].
  { unfold prepareHandler. destruct (unmarshalPrepare _); [done|].
    intros _. split_and!; [set_solver|done|eauto]. }
  destruct (String.eqb_spec (Path req) "/commit") as [->|_].
  { unfold commitHandler. destruct (unmarshalCommit _); [done|].
    intros _. split_and!; [set_solver|done|eauto]. }
  destruct (String.eqb_spec (Path req) "/abort") as [->|_]; [|done].
  unfold abortHandler. destruct (unmarshalAbort _); [done|].
  intros _. split_and!; [set_solver|done|eauto].
Qed.

(** The two kinds of error exclude each other, and a request to one of the
    four POST endpoints meets the decoder or the backend. *)
Lemma route_cases s req w :
  Path req ∈ ["/read"; "/prepare"; "/commit"; "/abort"] →
  (∃ e, undecoded req = Some e ∧ result s req w = None)
  ∨ (undecoded req = None ∧ ∃ r, result s req w = Some r).
Proof.
  intros Hp. unfold decodeError, backendResult.
  destruct (String.eqb_spec (Path req) "/read") as [_|N1].
  { destruct (unmarshalRead _); eauto. }
  destruct (String.eqb_spec (Path req) "/prepare") as [_|N2].
  { destruct (unmarshalPrepare _); eauto. }
  destruct (String.eqb_spec (Path req) "/commit") as [_|N3].
  { destruct (unmarshalCommit _); eauto. }
  destruct (String.eqb_spec (Path req) "/abort") as [_|N4].
  { destruct (unmarshalAbort _); eauto. }
  repeat (apply elem_of_cons in Hp as [Hp|Hp]; [done|]).
  by apply elem_of_nil in Hp.
Qed.

(** C9, amended. A request whose path is none of /ping, /read, /prepare,
    /commit and /abort gets status 404. On the four POST endpoints, a body
    that the handler cannot decode gets status 400 and a plain text, and
    neither the reader nor the committer is called; when the body decodes
    and the reader or committer behind the handler returns an error, the
    response has status 200 and a JSON body with Status "Error" and the
    error's message in ErrMsg; when the call succeeds, status 200 and
    Status "OK". Every request to the four endpoints is of one of the
    three kinds. *)
Theorem router_contract s req w :
  (Path req ∉ knownPaths → StatusCode (route s req w).1 = StatusNotFound)
  ∧ (∀ e, undecoded req = Some e →
          result s req w = None
          ∧ ∃ msg, ∀ s', route s' req w = (ctxError msg StatusBadRequest, w))
  ∧ (∀ e, result s req w = Some (Some e) →
          StatusCode (route s req w).1 = StatusOK
          ∧ jsonStatus (body (route s req w).1) = Some ("Error", e))
  ∧ (result s req w = Some None →
     StatusCode (route s req w).1 = StatusOK
     ∧ ∃ msg, jsonStatus (body (route s req w).1) = Some ("OK", msg))
  ∧ (Path req ∈ ["/read"; "/prepare"; "/commit"; "/abort"] →
     (∃ e, undecoded req = Some e) ∨ (∃ r, result s req w = Some r)).
Proof.
  split_and!.
  - intros Hp. by rewrite route_unknown.
  - intros e He. by apply (route_undecodable s req w) in He as (_ & ? & ?).
  - intros e He. by apply route_backend in He.
  - intros He. apply route_backend in He as [? ?]. eauto.
  - intros Hp. destruct (route_cases s req w Hp) as [(e & ? & _)|(_ & ?)];
      eauto.
Qed.

End RouterFacts.

Lemma router_contract_witness :
  StatusCode (exampleRouter {| Path := "/metrics"; PostBody := "" |}).1
  = StatusNotFound
  ∧ (exampleRouter {| Path := "/commit"; PostBody := "{" |}
     = (ctxError "Invalid commit request body." StatusBadRequest, tt))
  ∧ (StatusCode (exampleRouter {| Path := "/read"; PostBody := "Mongo" |}).1
     = StatusOK
     ∧ jsonStatus
         (body (exampleRouter {| Path := "/read"; PostBody := "Mongo" |}).1)
       = Some ("Error", "key not found"))
  ∧ (StatusCode (exampleRouter {| Path := "/commit"; PostBody := "Redis" |}).1
     = StatusOK
     ∧ ∃ msg,
         jsonStatus
           (body (exampleRouter {| Path := "/commit"; PostBody := "Redis" |}).1)
         = Some ("OK", msg)).
Proof.
  split; [|split; [|split]].
  - apply (proj1 (router_contract exampleRead examplePrepare exampleCommit
                    exampleAbort (λ _, "redis") exampleServer
                    {| Path := "/metrics"; PostBody := "" |} tt)).
    vm_compute. intros H.
    repeat (apply elem_of_cons in H as [H|H]; [discriminate H|]).
    by apply elem_of_nil in H.
  - destruct (proj1 (proj2 (router_contract exampleRead examplePrepare
                              exampleCommit exampleAbort (λ _, "redis")
                              exampleServer
                              {| Path := "/commit"; PostBody := "{" |} tt))
                "unexpected end of JSON input" eq_refl)
      as (_ & msg & Hmsg).
    pose proof (Hmsg exampleServer) as H. unfold exampleRouter.
    rewrite H. f_equal. injection H as H. by rewrite <- H.
  - apply (proj1 (proj2 (proj2 (router_contract exampleRead examplePrepare
                           exampleCommit exampleAbort (λ _, "redis")
                           exampleServer
                           {| Path := "/read"; PostBody := "Mongo" |} tt)))).
    vm_compute. reflexivity.
  - apply (proj1 (proj2 (proj2 (proj2 (router_contract exampleRead
                           examplePrepare
                           exampleCommit exampleAbort (λ _, "redis")
                           exampleServer
                           {| Path := "/commit"; PostBody := "Redis" |}
                           tt))))).
    vm_compute. reflexivity.
Defined.

(** C9 fails on the code for an error the handler meets before it calls
    the committer: the body "{" of a request to /commit does not decode,
    and the answer is status 400 with a plain text, not status 200 with
    the error in a JSON body. *)
Lemma undecodable_body_gets_400 :
  handlerError exampleRead examplePrepare exampleCommit exampleAbort
    exampleServer {| Path := "/commit"; PostBody := "{" |} tt
  = Some "unexpected end of JSON input"
  ∧ exampleRouter {| Path := "/commit"; PostBody := "{" |}
    = ({| StatusCode := 400; body := Text "Invalid commit request body." |},
       tt)
  ∧ errorInBody (exampleRouter {| Path := "/commit"; PostBody := "{" |}).1
      "unexpected end of JSON input"
    = false.
Proof. repeat split; vm_compute; reflexivity. Qed.

End ExecutorFacts.

(* ===================================================================== *)
(** * [ConditionalUpdate] *)
(* ===================================================================== *)

Module ConnectorFacts.
Import Config Connector.

Section RedisFacts.
Variable AddToString : string → Z → string.

(** The Redis connection passes the repository's test, on every server
    state the test may find. *)
Lemma redis_passes_test now (s : gmap string RedisItem) :
  @TestRedisConnectionConditionalUpdateDoCreate _
    (RedisConnection AddToString) now s = true.
Proof.
  unfold TestRedisConnectionConditionalUpdateDoCreate, subtest1, subtest2,
    subtest3, subtest4.
  cbn -[dbItem cacheItem]. unfold redis_ConditionalUpdate, redis_PutItem,
    redis_Delete.
  cbn [RKey dbItem cacheItem].
  rewrite lookup_delete_eq. rewrite lookup_insert_eq.
  rewrite lookup_delete_eq. rewrite lookup_insert_eq.
  cbn [RVersion dbItem cacheItem]. by rewrite decide_True.
Qed.

(** A connection that compares versions on an existing record whatever
    [doCreate] says fails the second subtest. *)
Lemma either_fails_test now (s : gmap string RedisItem) :
  @TestRedisConnectionConditionalUpdateDoCreate _
    (EitherConnection AddToString) now s = false.
Proof.
  unfold TestRedisConnectionConditionalUpdateDoCreate, subtest1, subtest2,
    subtest3, subtest4.
  cbn -[dbItem cacheItem]. unfold ConditionalUpdate_either, redis_PutItem,
    redis_Delete.
  cbn [RKey dbItem cacheItem].
  rewrite lookup_delete_eq. rewrite lookup_insert_eq.
  cbn [RVersion dbItem cacheItem]. rewrite decide_True by done.
  rewrite lookup_delete_eq. cbv beta iota. rewrite lookup_insert_eq.
  cbn [RVersion dbItem]. by rewrite decide_True.
Qed.

(** C5, as the code has it. Without [doCreate], a record whose stored
    version equals the item's is replaced by the item at version plus one,
    which is returned; any other call without [doCreate] fails with
    VersionMismatch. With [doCreate], the item is inserted at version plus
    one when the key holds no record, and the call fails with
    VersionMismatch when it holds one, whatever its version. A failing
    call leaves the store as it was. *)
Theorem ConditionalUpdate_cases key item doCreate
  (s : gmap string RedisItem) :
  let r := redis_ConditionalUpdate AddToString key item doCreate s in
  let newVer := AddToString (RVersion item) 1 in
  match (redis_GetItem key s).1.1, doCreate with
  | Some stored, false =>
      if decide (RVersion stored = RVersion item)
      then r.1 = (newVer, None)
           ∧ (redis_GetItem key r.2).1.1 = Some (set_RVersion newVer item)
      else r.1.2 = Some VersionMismatch ∧ r.2 = s
  | Some _, true => r.1.2 = Some VersionMismatch ∧ r.2 = s
  | None, true =>
      r.1 = (newVer, None)
      ∧ (redis_GetItem key r.2).1.1 = Some (set_RVersion newVer item)
  | None, false => r.1.2 = Some VersionMismatch ∧ r.2 = s
  end.
Proof.
  unfold redis_ConditionalUpdate, redis_GetItem. cbv zeta.
  destruct doCreate, (s !! key) as [stored|] eqn:E; cbn [fst snd]; try done.
  - by rewrite lookup_insert_eq.
  - destruct (decide _); cbn [fst snd]; [|done].
    by rewrite lookup_insert_eq.
Qed.

End RedisFacts.

(** C5 fails on the second subtest of the repository's test: the key holds
    a record whose version, "1", is the item's, [doCreate] is true, and
    the call fails with VersionMismatch and leaves the record alone. *)
Lemma doCreate_on_existing_record :
  RVersion (dbItem 0) = RVersion (cacheItem 0)
  ∧ redis_ConditionalUpdate AddToString "item1" (cacheItem 0) true
      {["item1" := dbItem 0]}
    = (("", Some VersionMismatch), {["item1" := dbItem 0]})
  ∧ redis_ConditionalUpdate AddToString "item1" (cacheItem 0) false
      {["item1" := dbItem 0]}
    = (("2", None), {["item1" := set_RVersion "2" (cacheItem 0)]}).
Proof.
  split; [reflexivity|]. split.
  - reflexivity.
  - unfold redis_ConditionalUpdate. rewrite lookup_singleton_eq.
    rewrite decide_True by reflexivity.
    by rewrite insert_singleton_eq.
Qed.

End ConnectorFacts.

(* ===================================================================== *)
(** * More of the coordinator *)
(* ===================================================================== *)

Module TxnMoreFacts.
Import Config Txn TxnMore TxnFacts.

Section MoreFacts.
Context {World any : Type}.
Variable Config : @ConfigT World.
Variable range :
  gmap string (@Datastorer World any) → World →
  list (string * @Datastorer World any) * World.
Variable sched :
  list (@Datastorer World any) → World → list (@Datastorer World any) * World.

Implicit Types (c : @Ctx World any) (t : @Transaction World any)
  (l : list (@Datastorer World any)) (tr : list Event) (w : World).

Hypothesis range_enumerates : ∀ m w, (range m w).1 ≡ₚ map_to_list m.
Hypothesis sched_permutes : ∀ l w, (sched l w).1 ≡ₚ l.

(** ** Relations every step of a method follows *)

Section Follows.
Variable R : relation (@Transaction World any).
Context `{!PreOrder R}.

Lemma follows_intro {A} (m : @M World any A) c r c' tr :
  follows R m → m c = (r, c', tr) → R (txn c) (txn c').
Proof. intros Hm. apply Hm. Qed.

Lemma follows_ret {A} (a : A) : follows R (@ret World any A a).
Proof. by intros c r c' tr [= <- <- <-]. Qed.

Lemma follows_panic {A} : follows R (@panic World any A).
Proof. by intros c r c' tr [= <- <- <-]. Qed.

Lemma follows_getTxn : follows R (@getTxn World any).
Proof. by intros c r c' tr [= <- <- <-]. Qed.

Lemma follows_go task : follows R (@go World any task).
Proof. by intros c r c' tr [= <- <- <-]. Qed.

Lemma follows_call {A} (f : World → A * World) ev :
  follows R (@call World any A f ev).
Proof.
  intros c r c' tr. unfold call. destruct (f (world c)).
  by intros [= <- <- <-].
Qed.

Lemma follows_callClient {A} (f : World → A * World) :
  follows R (@callClient World any A f).
Proof.
  intros c r c' tr. unfold callClient. destruct (f (world c)).
  by intros [= <- <- <-].
Qed.

Lemma follows_participants : follows R (participants range).
Proof.
  intros c r c' tr. unfold participants. destruct (range _ _).
  by intros [= <- <- <-].
Qed.

Lemma follows_goroutines l : follows R (goroutines sched l).
Proof.
  intros c r c' tr. unfold goroutines. destruct (sched _ _).
  by intros [= <- <- <-].
Qed.

Lemma follows_modifyTxn (f : @Transaction World any → @Transaction World any) :
  (∀ t, R t (f t)) → follows R (modifyTxn f).
Proof. intros Hf c r c' tr [= <- <- <-]. apply Hf. Qed.

Lemma follows_bind {A B} (m : @M World any A) (f : A → @M World any B) :
  follows R m → (∀ a, follows R (f a)) → follows R (bind m f).
Proof.
  intros Hm Hf c r c' tr. rewrite bind_run.
  destruct (m c) as [[[a|] c1] tr1] eqn:E.
  - destruct (f a c1) as [[r2 c2] tr2] eqn:E2. intros [= <- <- <-].
    etrans; [by eapply Hm|by eapply Hf].
  - intros [= <- <- <-]. by eapply Hm.
Qed.

Lemma follows_forEach {S}
  (body : @Datastorer World any → S → @M World any S) l s :
  (∀ ds s, follows R (body ds s)) → follows R (forEach body l s).
Proof.
  intros Hb. revert s. induction l as [|ds l IH]; intros s; cbn [forEach].
  - apply follows_ret.
  - apply follows_bind; [apply Hb|apply IH].
Qed.

Lemma follows_startAll l : follows R (@startAll World any l).
Proof.
  induction l as [|ds l IH]; cbn [startAll]; [apply follows_ret|].
  apply follows_bind; [apply follows_call|].
  intros [e|]; [apply follows_ret|done].
Qed.

End Follows.

(** Takes a method apart into its steps; [side] settles what an
    assignment to the transaction has to respect. *)
Ltac follows_steps side :=
  repeat first
    [ match goal with |- PreOrder _ => exact _ end
    | apply follows_ret | apply follows_panic | apply follows_getTxn
    | apply follows_go | apply follows_call | apply follows_callClient
    | apply follows_startAll
    | apply follows_participants | apply follows_goroutines
    | apply follows_modifyTxn; [..|side]
    | apply follows_forEach; [..|intros]
    | apply follows_bind; [..| |intros]
    | match goal with
      | |- follows _ (match ?x with _ => _ end) => destruct x
      | |- follows _ (let '(_, _) := ?x in _) => destruct x
      end ].

#[local] Instance same_preorder {B} (proj : @Transaction World any → B) :
  PreOrder (same proj).
Proof. split; [by intros t|]. intros t1 t2 t3 H1 H2. unfold same in *. congruence. Qed.

#[local] Instance stillReadOnly_preorder : PreOrder (@stillReadOnly World any).
Proof.
  split; [by intros t H|].
  intros t1 t2 t3 H1 H2 H3. by apply H1, H2.
Qed.

Ltac same_side := intros []; reflexivity.
Ltac sticky_side := intros []; unfold stillReadOnly; cbn; congruence.

Lemma follows_methods (R : relation (@Transaction World any)) `{!PreOrder R} :
  (∀ s t, R t (set_state s t)) →
  (∀ z t, R t (set_TxnCommitTime z t)) →
  (∀ t, R t (set_isReadOnly false t)) →
  (∀ z t, R t (set_writeCount z t)) →
  ∀ op, afterSetup op = true → follows R (perform Config range sched op).
Proof.
  intros H1 H2 H3 H4 op Hop.
  destruct op; try done;
    unfold perform, Read, Write, Delete, Commit, Abort, GetState, SetState,
      preparePhase, commitDatastores, prepareDatastore, getTime, CreateTSR,
      DeleteTSR, WriteTSR;
    follows_steps ltac:(solve [auto]).
Qed.


Lemma follows_runTask (R : relation (@Transaction World any)) `{!PreOrder R} :
  (∀ s t, R t (set_state s t)) →
  ∀ task, follows R (runTask range sched task).
Proof.
  intros H1 task.
  destruct task;
    unfold runTask, Abort, GetState, SetState, commitDatastores, DeleteTSR,
      WriteTSR;
    follows_steps ltac:(solve [auto]).
Qed.

Lemma follows_setup (R : relation (@Transaction World any)) `{!PreOrder R} :
  (∀ s t, R t (set_state s t)) →
  (∀ m t, R t (set_dataStoreMap m t)) →
  (∀ m t, R t (set_tsrMaintainer m t)) →
  (∀ z t, R t (set_TxnId z t)) →
  (∀ z t, R t (set_TxnStartTime z t)) →
  ∀ op, afterSetup op = false → follows R (perform Config range sched op).
Proof.
  intros H1 H2 H3 H4 H5 op Hop.
  destruct op; try done;
    unfold perform, AddDatastore, SetGlobalDatastore, Start, SetState,
      getTime;
    follows_steps ltac:(solve [auto]).
Qed.

(** ** [AddDatastores] *)

Lemma AddDatastore_run ds c :
  AddDatastore ds c
  = match dataStoreMap (txn c) !! GetName ds with
    | Some _ => (Returns (Some "duplicated datastore name"), c, [])
    | None =>
        (Returns None,
         {| txn := set_dataStoreMap (<[GetName ds := ds]> (dataStoreMap (txn c)))
                     (txn c);
            world := ds_SetTxn ds (world c) |},
         [EvSetTxn (GetName ds)])
    end.
Proof.
  unfold AddDatastore. rewrite bind_run. unfold getTxn. cbv beta iota.
  destruct (dataStoreMap (txn c) !! GetName ds); [by destruct c|].
  rewrite bind_run. unfold call at 1. cbv beta iota. by rewrite bind_run.
Qed.

Lemma added_fresh dss (m : gmap string (@Datastorer World any)) ds :
  ds ∈ added dss m → m !! GetName ds = None.
Proof.
  revert m. induction dss as [|d dss IH]; intros m; cbn [added].
  - by intros ?%elem_of_nil.
  - destruct (m !! GetName d) eqn:Hd; [by intros ?%elem_of_nil|].
    intros [->|Hin]%elem_of_cons; [done|].
    by apply IH, lookup_insert_None in Hin as [? _].
Qed.

Lemma added_NoDup dss (m : gmap string (@Datastorer World any)) : NoDup (GetName <$> added dss m).
Proof.
  revert m. induction dss as [|d dss IH]; intros m; cbn [added].
  - constructor.
  - destruct (m !! GetName d) eqn:Hd; [constructor|].
    rewrite fmap_cons. constructor; [|apply IH].
    intros (ds & Hn & Hin)%list_elem_of_fmap.
    apply added_fresh, lookup_insert_None in Hin as [_ Hne]. congruence.
Qed.

Lemma added_prefix dss (m : gmap string (@Datastorer World any)) : added dss m `prefix_of` dss.
Proof.
  revert m. induction dss as [|d dss IH]; intros m; cbn [added].
  - done.
  - destruct (m !! GetName d); [apply prefix_nil|].
    apply prefix_cons, IH.
Qed.

Lemma added_all dss (m : gmap string (@Datastorer World any)) :
  added dss m = dss
  ↔ NoDup (GetName <$> dss) ∧ ∀ ds, ds ∈ dss → m !! GetName ds = None.
Proof.
  split.
  - intros Hall. split.
    + rewrite <- Hall. apply added_NoDup.
    + intros ds Hin. rewrite <- Hall in Hin. by eapply added_fresh.
  - revert m. induction dss as [|d dss IH]; intros m [Hnd Hfresh]; [done|].
    cbn [added]. rewrite Hfresh by (apply elem_of_cons; by left).
    f_equal. rewrite fmap_cons in Hnd. apply NoDup_cons in Hnd as [Hd Hnd].
    apply IH. split; [done|]. intros ds Hin. apply lookup_insert_None.
    split; [apply Hfresh; by right|].
    intros Heq. apply Hd, list_elem_of_fmap. by exists ds.
Qed.

(** X1. [AddDatastores] registers the datastores it is given one after
    the other, calling [SetTxn] on each, up to the first whose name is
    taken, by a participant that is there already or by one it has just
    registered: that one and those after it get no call and are not
    registered, the ones before it stay registered, and no participant is
    replaced. It returns nil when it has registered them all, which is
    when their names are pairwise distinct and none is taken, and
    "duplicated datastore name" otherwise. *)
Theorem AddDatastores_distinct_names dss c :
  AddDatastores dss c
  = (Returns (if decide (length (added dss (dataStoreMap (txn c)))
                         = length dss)
              then None else Some "duplicated datastore name"),
     {| txn :=
          set_dataStoreMap
            (list_to_map ((λ ds, (GetName ds, ds))
                          <$> added dss (dataStoreMap (txn c)))
             ∪ dataStoreMap (txn c)) (txn c);
        world := foldl (λ w ds, ds_SetTxn ds w) (world c)
                   (added dss (dataStoreMap (txn c))) |},
     (λ ds, EvSetTxn (GetName ds)) <$> added dss (dataStoreMap (txn c)))
  ∧ added dss (dataStoreMap (txn c)) `prefix_of` dss
  ∧ (length (added dss (dataStoreMap (txn c))) = length dss
     ↔ NoDup (GetName <$> dss)
       ∧ ∀ ds, ds ∈ dss → dataStoreMap (txn c) !! GetName ds = None)
  ∧ dataStoreMap (txn c)
    ⊆ list_to_map ((λ ds, (GetName ds, ds))
                   <$> added dss (dataStoreMap (txn c)))
      ∪ dataStoreMap (txn c).
Proof.
  split_and!; [|apply added_prefix| |].
  2:{ rewrite <- added_all. split; [|by intros ->].
      intros Hlen. apply prefix_length_eq; [apply added_prefix|lia]. }
  - revert c. induction dss as [|d dss IH]; intros c.
    + cbn [AddDatastores added fmap list_fmap foldl].
      rewrite decide_True by done.
      rewrite list_to_map_nil, (left_id_L ∅ (∪)).
      by destruct c as [[]].
    + cbn [AddDatastores added]. rewrite bind_run, AddDatastore_run.
      destruct (dataStoreMap (txn c) !! GetName d) as [old|] eqn:Hl.
      * cbn [fmap list_fmap foldl length].
        rewrite decide_False by done.
        rewrite list_to_map_nil, (left_id_L ∅ (∪)).
        by destruct c as [[]].
      * cbv beta iota. rewrite IH. cbn [txn world app].
        replace (dataStoreMap
                   (set_dataStoreMap (<[GetName d:=d]> (dataStoreMap (txn c)))
                      (txn c)))
          with (<[GetName d:=d]> (dataStoreMap (txn c))) by (by destruct (txn c)).
        set (l := added dss (<[GetName d:=d]> (dataStoreMap (txn c)))).
        rewrite fmap_cons, list_to_map_cons. cbn [foldl].
        rewrite <- insert_union_l, <- insert_union_r.
        2:{ apply not_elem_of_list_to_map_1. rewrite <- list_fmap_compose.
            intros (ds & Hn & Hin)%list_elem_of_fmap. cbn in Hn.
            apply added_fresh, lookup_insert_None in Hin as [_ Hne].
            congruence. }
        cbn [length].
        destruct (decide (length l = length dss)),
          (decide (S (length l) = S (length dss))); try lia;
          by destruct (txn c).
  - apply map_union_subseteq_r.
    apply map_disjoint_spec. intros n ds1 ds2 H1 H2.
    apply elem_of_list_to_map_2, list_elem_of_fmap in H1
      as (ds & [= -> ->] & Hin).
    apply added_fresh in Hin. congruence.
Qed.

(** ** [Start] *)

Lemma lastStart_cons n tr :
  lastStart (EvStart n None :: tr) = lastStart tr.
Proof. by destruct tr. Qed.

Lemma startAll_run l c tr w' :
  callAll ds_Start (λ ds, EvStart (GetName ds)) (reached l (world c)) (world c)
  = (tr, w') →
  startAll l c = (Returns (lastStart tr), {| txn := txn c; world := w' |}, tr).
Proof.
  revert c tr w'. induction l as [|ds l IH]; intros c tr w'.
  - intros [= <- <-]. by destruct c.
  - cbn [reached startAll]. rewrite bind_run. unfold call at 1.
    destruct (ds_Start ds (world c)) as [[e|] w1] eqn:Hs; cbv beta iota.
    + cbn [callAll]. rewrite Hs. by intros [= <- <-].
    + cbn [callAll]. rewrite Hs.
      destruct (callAll _ _ (reached l w1) w1) as [tr1 w2] eqn:Hl.
      intros [= <- <-].
      rewrite (IH {| txn := txn c; world := w1 |} tr1 w2) by done.
      by rewrite lastStart_cons.
Qed.

Lemma reached_run l w tr w' :
  callAll ds_Start (λ ds, EvStart (GetName ds)) (reached l w) w = (tr, w') →
  match lastStart tr with
  | None => tr = (λ ds, EvStart (GetName ds) None) <$> l
  | Some e =>
      ∃ l1 ds l2,
        l = l1 ++ ds :: l2
        ∧ tr = ((λ ds, EvStart (GetName ds) None) <$> l1)
               ++ [EvStart (GetName ds) (Some e)]
  end.
Proof.
  revert w tr w'. induction l as [|ds l IH]; intros w tr w'.
  - by intros [= <- <-].
  - cbn [reached]. destruct (ds_Start ds w) as [[e|] w1] eqn:Hs.
    + cbn [callAll]. rewrite Hs. intros [= <- <-]. by exists [], ds, l.
    + cbn [callAll]. rewrite Hs.
      destruct (callAll _ _ (reached l w1) w1) as [tr1 w2] eqn:Hl.
      intros [= <- <-]. rewrite lastStart_cons. apply IH in Hl.
      destruct (lastStart tr1) as [e|].
      * destruct Hl as (l1 & ds' & l2 & -> & ->).
        by exists (ds :: l1), ds', l2.
      * by rewrite Hl.
Qed.

(** X2. [Start] on a transaction that is set up: it generates the id,
    reads the start time and then starts the participants one after the
    other, in the order of its [range], stopping at the first error. When
    the clock fails no participant is started; when a participant's
    [Start] fails the ones before it have been started, with success, and
    the ones after it are left alone. Either way the error is returned as
    it is and the transaction stays in state STARTED with the id and the
    time it got. When it returns nil every participant was started. *)
Theorem Start_stops_at_first_error c (g : @TSRMaintainer World)
  txnId w1 ts terr w2 l w3 trs w4 :
  transition_ok (state (txn c)) STARTED = true →
  tsrMaintainer (txn c) = Some g →
  size (dataStoreMap (txn c)) ≠ 0%nat →
  GenerateId Config (world c) = (txnId, w1) →
  ts_GetTime (timeSource (txn c)) "start" w1 = ((ts, terr), w2) →
  drawParticipants range (dataStoreMap (txn c)) w2 = (l, w3) →
  callAll ds_Start (λ ds, EvStart (GetName ds)) (reached l w3) w3
  = (trs, w4) →
  Start Config range c
  = match terr with
    | Some e =>
        (Returns (Some e),
         {| txn := set_TxnStartTime ts
                     (set_TxnId txnId (set_state STARTED (txn c)));
            world := w2 |},
         [EvGenerateId txnId; EvGetTime "start" ts (Some e)])
    | None =>
        (Returns (lastStart trs),
         {| txn := set_TxnStartTime ts
                     (set_TxnId txnId (set_state STARTED (txn c)));
            world := w4 |},
         EvGenerateId txnId :: EvGetTime "start" ts None :: trs)
    end
  ∧ l ≡ₚ (map_to_list (dataStoreMap (txn c))).*2
  ∧ match lastStart trs with
    | None => trs = (λ ds, EvStart (GetName ds) None) <$> l
    | Some e =>
        ∃ l1 ds l2,
          l = l1 ++ ds :: l2
          ∧ trs = ((λ ds, EvStart (GetName ds) None) <$> l1)
                  ++ [EvStart (GetName ds) (Some e)]
    end.
Proof.
  intros Hst Hm Hsize Hid Ht Hl Hs. split_and!.
  - unfold Start.
    rewrite bind_run, SetState_run, Hst. cbv beta iota.
    rewrite bind_run. unfold getTxn at 1. cbv beta iota.
    cbn [txn world].
    replace (tsrMaintainer (set_state STARTED (txn c))) with (Some g)
      by (by destruct (txn c)).
    replace (dataStoreMap (set_state STARTED (txn c)))
      with (dataStoreMap (txn c)) by (by destruct (txn c)).
    rewrite decide_False by done.
    rewrite bind_run. unfold call at 1. cbn [world]. rewrite Hid.
    cbv beta iota.
    rewrite bind_run. unfold modifyTxn at 1. cbv beta iota.
    cbn [txn world]. rewrite bind_run.
    match goal with |- context [getTime ?mode ?c1] =>
      rewrite (getTime_run mode c1 (ts, terr) w2)
        by (cbn [txn world]; by destruct (txn c)) end.
    cbv beta iota. cbn [fst snd]. rewrite bind_run. unfold modifyTxn at 1.
    cbv beta iota. cbn [txn world].
    destruct terr as [e|]; [done|].
    rewrite bind_run.
    match goal with |- context [participants range ?c1] =>
      rewrite (participants_run range c1 l w3)
        by (cbn [txn world]; by destruct (txn c)) end.
    cbv beta iota.
    match goal with |- context [startAll l ?c1] =>
      rewrite (startAll_run l c1 trs w4) by done end.
    done.
  - pose proof (drawParticipants_perm range range_enumerates
                  (dataStoreMap (txn c)) w2) as Hp.
    by rewrite Hl in Hp.
  - by eapply reached_run.
Qed.

(** X3. [Start] moves to STARTED before it looks at the setup: without a
    global datastore, or without any participant, it returns the error of
    the check, makes no call (no id, no time, no participant) and leaves
    the transaction in state STARTED. *)
Theorem Start_checks_setup_late c :
  transition_ok (state (txn c)) STARTED = true →
  tsrMaintainer (txn c) = None ∨ size (dataStoreMap (txn c)) = 0%nat →
  ∃ e,
    Start Config range c
    = (Returns (Some e),
       {| txn := set_state STARTED (txn c); world := world c |}, [])
    ∧ e = match tsrMaintainer (txn c) with
          | Some _ => "no datastores added"
          | None => "global datastore not set"
          end.
Proof.
  intros Hst Hsetup. unfold Start.
  rewrite bind_run, SetState_run, Hst. cbv beta iota.
  rewrite bind_run. unfold getTxn at 1. cbv beta iota. cbn [txn world].
  replace (tsrMaintainer (set_state STARTED (txn c)))
    with (tsrMaintainer (txn c)) by (by destruct (txn c)).
  replace (dataStoreMap (set_state STARTED (txn c)))
    with (dataStoreMap (txn c)) by (by destruct (txn c)).
  destruct (tsrMaintainer (txn c)) as [m|] eqn:Hm.
  - destruct Hsetup as [|Hsize]; [done|]. rewrite decide_True by done.
    by eexists.
  - by eexists.
Qed.

(** ** What the operations leave alone *)

Lemma follows_act (R : relation (@Transaction World any)) `{!PreOrder R} :
  (∀ s t, R t (set_state s t)) →
  (∀ z t, R t (set_TxnCommitTime z t)) →
  (∀ t, R t (set_isReadOnly false t)) →
  (∀ z t, R t (set_writeCount z t)) →
  ∀ a, settled a = true → follows R (act Config range sched a).
Proof.
  intros H1 H2 H3 H4 [op|task] Ha.
  - by apply follows_methods.
  - by apply follows_runTask.
Qed.

Lemma follows_any (R : relation (@Transaction World any)) `{!PreOrder R} :
  (∀ s t, R t (set_state s t)) →
  (∀ z t, R t (set_TxnCommitTime z t)) →
  (∀ t, R t (set_isReadOnly false t)) →
  (∀ z t, R t (set_writeCount z t)) →
  (∀ m t, R t (set_dataStoreMap m t)) →
  (∀ m t, R t (set_tsrMaintainer m t)) →
  (∀ z t, R t (set_TxnId z t)) →
  (∀ z t, R t (set_TxnStartTime z t)) →
  ∀ a, follows R (act Config range sched a).
Proof.
  intros H1 H2 H3 H4 H5 H6 H7 H8 a.
  destruct (settled a) eqn:Ha; [by apply follows_act|].
  destruct a as [op|task]; [|done]. by apply follows_setup.
Qed.

Lemma Write_clears dsName key value c :
  state (txn c) = STARTED →
  ∃ r c' tr,
    Write dsName key value c = (r, c', tr) ∧ isReadOnly (txn c') = false.
Proof.
  intros Hst. unfold Write, CheckState. rewrite bind_run.
  unfold getTxn at 1. cbv beta iota. rewrite Hst, decide_True by done.
  rewrite bind_run. unfold modifyTxn at 1. cbv beta iota. cbn [txn world].
  match goal with |- context [bind ?m ?k ?c0] =>
    destruct (bind m k c0) as [[r2 c2] tr2] eqn:E end.
  exists r2, c2, tr2. split; [done|].
  apply (follows_intro (same isReadOnly)) in E.
  - rewrite E. by destruct (txn c).
  - follows_steps ltac:(by intros []).
Qed.

Lemma Delete_clears dsName key c :
  state (txn c) = STARTED →
  ∃ r c' tr, Delete dsName key c = (r, c', tr) ∧ isReadOnly (txn c') = false.
Proof.
  intros Hst. unfold Delete, CheckState. rewrite bind_run.
  unfold getTxn at 1. cbv beta iota. rewrite Hst, decide_True by done.
  rewrite bind_run. unfold modifyTxn at 1. cbv beta iota. cbn [txn world].
  match goal with |- context [match ?x with Some ds => _ | None => _ end ?c0] =>
    destruct x as [ds|]; [unfold call; cbn [world];
                          destruct (ds_Delete ds key (world c)) as [e w1]|];
    (do 3 eexists); (split; [reflexivity|]); by destruct (txn c)
  end.
Qed.

(** X4. Once the transaction is set up, nothing a client does with it and no
    goroutine it starts changes its id, its start time, its global
    datastore, its participants, its time source or whether it is remote:
    [Read], [Write], [Delete], [Commit] and [Abort] assign only [state],
    [TxnCommitTime], [isReadOnly] and [writeCount]. This holds for runs
    that panic too. *)
Theorem setup_is_fixed a c r c' tr :
  settled a = true →
  act Config range sched a c = (r, c', tr) →
  fixedPart (txn c') = fixedPart (txn c).
Proof.
  intros Ha Hrun.
  by eapply (follows_act (same fixedPart)).
Qed.

(** X5. [isReadOnly] never comes back: no operation and no goroutine sets it
    to true again, and a [Write] or a [Delete] made in state STARTED
    clears it whatever happens next in the call, be the datastore unknown
    or the participant's call an error. *)
Theorem read_only_is_lost_for_good a c r c' tr :
  act Config range sched a c = (r, c', tr) →
  (isReadOnly (txn c) = false → isReadOnly (txn c') = false)
  ∧ (∀ op, a = Client op → isUpdate op = true → state (txn c) = STARTED →
     isReadOnly (txn c') = false).
Proof.
  intros Hrun. split.
  - intros Hro. apply not_true_is_false. intros Hro'.
    assert (stillReadOnly (txn c) (txn c')) as Hs.
    { eapply (follows_any stillReadOnly); try done;
        intros ? t ?; by destruct t. }
    specialize (Hs Hro'). congruence.
  - intros op -> Hup Hst. revert Hrun. unfold act, perform.
    destruct op; try done; rewrite bind_run.
    + destruct (Write_clears dsName key value c Hst) as (r1 & c1 & tr1 & -> & Hc).
      destruct r1; by intros [= <- <- <-].
    + destruct (Delete_clears dsName key c Hst) as (r1 & c1 & tr1 & -> & Hc).
      destruct r1; by intros [= <- <- <-].
Qed.

(** ** More of [Commit] *)

Ltac in_trace H :=
  rewrite ?elem_of_cons, ?elem_of_app, ?elem_of_nil in H;
  lazymatch type of H with
  | _ ∨ _ => destruct H as [H|H]; in_trace H
  | False => destruct H
  | _ = _ => simplify_eq
  | _ ∈ ?tr =>
      try match goal with
          | Hc : prepares _ _ _ _ _ = (tr, _) |- _ =>
              let l := fresh "l" in
              let Hl := fresh "Hl" in
              let ds := fresh "ds" in
              let e := fresh "e" in
              destruct (prepares_calls _ _ _ _ _ _ _ Hc) as [l Hl];
              destruct (calls_elem_of _ _ _ _ Hl H) as (ds & e & _ & [=])
          | Hc : commits _ _ _ _ = (tr, _) |- _ =>
              let l := fresh "l" in
              let Hl := fresh "Hl" in
              let ds := fresh "ds" in
              let e := fresh "e" in
              destruct (commits_calls _ _ _ _ _ _ Hc) as [l Hl];
              destruct (calls_elem_of _ _ _ _ Hl H) as (ds & e & _ & [=])
          end
  end.

Ltac commit_paths Hrun :=
  apply Commit_run in Hrun;
  destruct Hrun as
    [ Hok
    | Hok Hro
    | tc e w1 Hok Hro Ht
    | tc w1 trp w2 e Hok Hro Ht Hp Hlast
    | tc w1 trp w2 Hok Hro Ht Hp Hlast Hg
    | tc w1 trp w2 g st e w3 Hok Hro Ht Hp Hlast Hg Hc
    | tc w1 trp w2 g st w3 Hok Hro Ht Hp Hlast Hg Hc Htwo
    | tc w1 trp w2 g st w3 trc w4 Hok Hro Ht Hp Hlast Hg Hc Htwo Hcs Hone
    | tc w1 trp w2 g st w3 trc w4 e w5
        Hok Hro Ht Hp Hlast Hg Hc Htwo Hcs Hone Hd ].

(** X6. When the clock fails at commit, [Commit] returns the clock's error as
    it is and does nothing else: no [Prepare], no TSR, and no
    [go t.Abort()] either. The transaction is left in state COMMITTED,
    the state [Commit] took before it asked for the time. *)
Theorem commit_clock_failure c r c' tr tc e :
  Commit Config range sched c = (r, c', tr) →
  EvGetTime "commit" tc (Some e) ∈ tr →
  r = Returns (Some e)
  ∧ tr = [EvGetTime "commit" tc (Some e)]
  ∧ txn c' = set_TxnCommitTime tc (set_state COMMITTED (txn c)).
Proof.
  intros Hrun Hin. rename tc into tc0, e into e0.
  commit_paths Hrun; in_trace Hin; done.
Qed.

Lemma calls_all_succeeded l trp :
  calls (λ ds, EvPrepare (GetName ds)) l trp →
  lastPrepareError trp = None →
  calls (λ ds _, EvPrepare (GetName ds) None) l trp.
Proof.
  unfold lastPrepareError, prepareErrors, calls. rewrite last_None.
  induction 1 as [|ds ev l tr [[e|] ->] Hc IH]; cbn [omap list_omap failedPrepare];
    intros Hnone; [by apply Forall2_nil|done|].
  constructor; [by exists None|by apply IH].
Qed.

(** X7. No participant is committed unless all have voted yes: when [Commit]
    calls [Commit] on a participant, or starts the goroutine that will,
    every participant has been prepared exactly once before, every
    [Prepare] returned nil, and the TSR was created, with success, in
    between. *)
Theorem commit_needs_every_vote c r c' tr ev :
  Commit Config range sched c = (r, c', tr) →
  ev ∈ tr →
  (∃ n e, ev = EvCommit n e) ∨ ev = EvGo GoCommitPhase →
  ∃ tc trp post,
    tr = EvGetTime "commit" tc None :: trp
         ++ EvCreateTSR (TxnId (txn c)) COMMITTED None :: post
    ∧ once_per_participant (txn c) (λ ds _, EvPrepare (GetName ds) None) trp
    ∧ ev ∈ post.
Proof.
  intros Hrun Hin Hev.
  assert (∀ trp w1 w2,
            prepares Config range sched (dataStoreMap (txn c)) w1 = (trp, w2) →
            lastPrepareError trp = None →
            once_per_participant (txn c)
              (λ ds _, EvPrepare (GetName ds) None) trp) as Hall.
  { intros trp w1 w2 Hp Hl.
    destruct (once_per_participant_prepares Config range sched
                range_enumerates sched_permutes _ _ _ _ Hp) as (l & Hperm & Hc).
    exists l. split; [done|by apply calls_all_succeeded]. }
  commit_paths Hrun;
    try (destruct Hev as [(n0 & e0 & ->)| ->]; in_trace Hin; fail).
  - exists tc, trp, [EvGo GoCommitPhase].
    split_and!; [done|by eapply Hall|].
    destruct Hev as [(n0 & e0 & ->)| ->]; [in_trace Hin|].
    apply elem_of_cons; by left.
  - exists tc, trp, (trc ++ [EvGo GoDeleteTSR]).
    split_and!; [done|by eapply Hall|].
    destruct Hev as [(n0 & e0 & ->)| ->]; [|in_trace Hin].
    assert (EvCommit n0 e0 ∈ trc) by (clear Hcs; in_trace Hin; done).
    apply elem_of_app; by left.
  - exists tc, trp, (trc ++ [EvDeleteTSR (TxnId (txn c)) e]).
    split_and!; [done|by eapply Hall|].
    destruct Hev as [(n0 & e0 & ->)| ->]; [|in_trace Hin].
    assert (EvCommit n0 e0 ∈ trc) by (clear Hcs; in_trace Hin; done).
    apply elem_of_app; by left.
Qed.

(** X8. The prepare phase has no early exit: once the commit time was
    obtained, [Prepare] is called on every participant, exactly once,
    also after one of them has failed, each call on the world the one
    before it left. When one of them failed, [Commit] then starts
    [go t.Abort()] and returns the error of the last that failed, behind
    "prepare phase failed: "; and no [Prepare] is called at any other
    point of [Commit]. *)
Theorem prepare_phase_has_no_early_exit c tc w1 trp w2 :
  transition_ok (state (txn c)) COMMITTED = true →
  isReadOnly (txn c) = false →
  ts_GetTime (timeSource (txn c)) "commit" (world c) = ((tc, None), w1) →
  prepares Config range sched (dataStoreMap (txn c)) w1 = (trp, w2) →
  once_per_participant (txn c) (λ ds, EvPrepare (GetName ds)) trp
  ∧ match lastPrepareError trp with
    | Some e =>
        Commit Config range sched c
        = (Returns (Some ("prepare phase failed: " +:+ e)),
           {| txn := set_TxnCommitTime tc (set_state COMMITTED (txn c));
              world := w2 |},
           EvGetTime "commit" tc None :: trp ++ [EvGo GoAbort])
    | None =>
        ∃ r c' rest,
          Commit Config range sched c
          = (r, c', EvGetTime "commit" tc None :: trp ++ rest)
          ∧ ∀ n e, EvPrepare n e ∉ rest
    end.
Proof.
  intros Hok Hro Ht Hp.
  split; [by eapply once_per_participant_prepares|].
  destruct (lastPrepareError trp) as [e|] eqn:Hlast.
  { apply Commit_complete. eapply CR_prepare; eauto. }
  destruct (tsrMaintainer (txn c)) as [g|] eqn:Hg.
  2:{ exists Panics, {| txn := set_TxnCommitTime tc (set_state COMMITTED (txn c));
                        world := w2 |}, [].
      split; [|by intros ?? ?%elem_of_nil].
      rewrite app_nil_r. apply Commit_complete. eapply CR_nil; eauto. }
  destruct (tsr_CreateTSR g (TxnId (txn c)) COMMITTED w2)
    as [[st [e|]] w3] eqn:Hc.
  { eexists _, _, _. split.
    - apply Commit_complete. eapply CR_taken; eauto.
    - intros n0 e0 Hx. in_trace Hx. }
  destruct (decide (AsyncLevel Config = AsyncLevelTwo)) as [Htwo|Htwo].
  { eexists _, _, _. split.
    - apply Commit_complete. eapply CR_two; eauto.
    - intros n0 e0 Hx. in_trace Hx. }
  destruct (commits range sched (dataStoreMap (txn c)) w3) as [trc w4] eqn:Hcs.
  destruct (decide (AsyncLevel Config = AsyncLevelOne)) as [Hone|Hone].
  { eexists _, _, _. split.
    - apply Commit_complete. eapply CR_one; eauto.
    - intros n0 e0 Hx. in_trace Hx. }
  destruct (tsr_DeleteTSR g (TxnId (txn c)) w4) as [e w5] eqn:Hd.
  eexists _, _, _. split.
  - apply Commit_complete. eapply CR_zero; eauto.
  - intros n0 e0 Hx. in_trace Hx.
Qed.


(** X10. [AsyncLevel] moves work to a goroutine and drops none of it: from
    the sync point on, what [Commit] does itself followed by what the
    goroutine it starts does, run on what [Commit] left, is at every
    level one [Commit] per participant and then [DeleteTSR], each call on
    the world the one before it left. At level 2 the goroutine does it
    all, at level 1 it deletes the TSR, at level 0 there is none. *)
Theorem async_level_drops_no_work c (g : @TSRMaintainer World)
  tc w1 trp w2 st w3 trc w4 e w5 :
  transition_ok (state (txn c)) COMMITTED = true →
  isReadOnly (txn c) = false →
  tsrMaintainer (txn c) = Some g →
  ts_GetTime (timeSource (txn c)) "commit" (world c) = ((tc, None), w1) →
  prepares Config range sched (dataStoreMap (txn c)) w1 = (trp, w2) →
  prepareErrors trp = [] →
  tsr_CreateTSR g (TxnId (txn c)) COMMITTED w2 = ((st, None), w3) →
  commits range sched (dataStoreMap (txn c)) w3 = (trc, w4) →
  tsr_DeleteTSR g (TxnId (txn c)) w4 = (e, w5) →
  Commit Config range sched c
  = (Returns None,
     {| txn := set_TxnCommitTime tc (set_state COMMITTED (txn c));
        world := returnsIn Config w3 w4 w5 |},
     EvGetTime "commit" tc None :: trp
     ++ EvCreateTSR (TxnId (txn c)) COMMITTED None
     :: inline Config trc (EvDeleteTSR (TxnId (txn c)) e)
     ++ (EvGo <$> deferred Config))
  ∧ runTasks range sched (deferred Config)
      {| txn := set_TxnCommitTime tc (set_state COMMITTED (txn c));
         world := returnsIn Config w3 w4 w5 |}
    = (Returns tt,
       {| txn := set_TxnCommitTime tc (set_state COMMITTED (txn c));
          world := w5 |},
       later Config trc (EvDeleteTSR (TxnId (txn c)) e))
  ∧ inline Config trc (EvDeleteTSR (TxnId (txn c)) e)
    ++ later Config trc (EvDeleteTSR (TxnId (txn c)) e)
    = trc ++ [EvDeleteTSR (TxnId (txn c)) e]
  ∧ once_per_participant (txn c) (λ ds, EvCommit (GetName ds)) trc.
Proof.
  intros Hok Hro Hg Ht Hp Hnone Hc Hcs Hd.
  apply no_prepare_errors in Hnone.
  assert (DeleteTSR
            {| txn := set_TxnCommitTime tc (set_state COMMITTED (txn c));
               world := w4 |}
          = (Returns e,
             {| txn := set_TxnCommitTime tc (set_state COMMITTED (txn c));
                world := w5 |},
             [EvDeleteTSR (TxnId (txn c)) e])) as Hdel.
  { rewrite (DeleteTSR_run _ g e w5); cbn [txn world];
      by destruct (txn c). }
  unfold returnsIn, inline, later, deferred.
  split_and!; [| | |by eapply once_per_participant_commits].
  - apply Commit_complete.
    destruct (decide (AsyncLevel Config = AsyncLevelTwo)) as [Htwo|Htwo].
    { cbn [fmap list_fmap app]. eapply CR_two; eauto. }
    destruct (decide (AsyncLevel Config = AsyncLevelOne)) as [Hone|Hone].
    { cbn [fmap list_fmap]. eapply CR_one; eauto. }
    cbn [fmap list_fmap]. rewrite app_nil_r. eapply CR_zero; eauto.
  - destruct (decide (AsyncLevel Config = AsyncLevelTwo)) as [Htwo|Htwo].
    { cbn [runTasks runTask]. rewrite !bind_run.
      rewrite (commitDatastores_run range sched _ trc w4)
        by (cbn [txn world]; by destruct (txn c)).
      cbv beta iota. cbn [txn world]. rewrite bind_run, Hdel.
      cbv beta iota. unfold ret. cbn [app]. by rewrite !app_nil_r. }
    destruct (decide (AsyncLevel Config = AsyncLevelOne)) as [Hone|Hone].
    { cbn [runTasks runTask]. rewrite !bind_run, Hdel.
      cbv beta iota. unfold ret. by cbn [app]. }
    done.
  - destruct (decide (AsyncLevel Config = AsyncLevelTwo)) as [Htwo|Htwo];
      [done|].
    destruct (decide (AsyncLevel Config = AsyncLevelOne)) as [Hone|Hone];
      [done|]. by rewrite app_nil_r.
Qed.

(** ** Remote calls *)

Lemma history_is_local ops c :
  history Config range sched ops c → isRemote (txn c) = false.
Proof.
  assert (∀ a, follows (same isRemote) (act Config range sched a)) as Hact.
  { intros a. apply follows_any; try apply _; done. }
  induction 1 as [| ops c op c' tr _ IH Hrun | ops c task c' tr _ IH Hrun
                  | ops c w _ IH]; [done| | |done].
  - apply (Hact (Client op)) in Hrun. unfold same in Hrun. congruence.
  - apply (Hact (Goroutine task)) in Hrun. unfold same in Hrun. congruence.
Qed.

(** X11. A transaction made by [NewTransaction] never turns remote: whatever
    its client has done with it, [RemoteCommit] and [RemoteAbort] return
    "not a remote transaction" and reach neither the remote client nor
    the transaction. *)
Theorem local_transaction_rejects_remote_calls {CommitInfo} ops c
  (client : option (RemoteClient World CommitInfo)) dsName infoList keyList :
  history Config range sched ops c →
  RemoteCommit client dsName infoList c
  = (Returns (Some "not a remote transaction"), c, [])
  ∧ RemoteAbort client dsName keyList c
    = (Returns (Some "not a remote transaction"), c, []).
Proof.
  intros Hh. apply history_is_local in Hh.
  unfold RemoteCommit, RemoteAbort. rewrite !bind_run.
  unfold getTxn. cbv beta iota. rewrite Hh. by destruct c.
Qed.

End MoreFacts.
Import TxnExamples TxnMoreExamples.

Lemma AddDatastores_distinct_names_witness :
  AddDatastores nameTakenTwice fresh
  = (Returns (Some "duplicated datastore name"),
     {| txn :=
          set_dataStoreMap
            (list_to_map
               [("mongo", participant "mongo" None None None);
                ("redis", participant "redis" None None None)] ∪ ∅)
            (txn fresh);
        world := 2%nat |},
     [EvSetTxn "mongo"; EvSetTxn "redis"])
  ∧ [participant "mongo" None None None; participant "redis" None None None]
    `prefix_of` nameTakenTwice
  ∧ (2%nat = 3%nat
     ↔ NoDup (GetName <$> nameTakenTwice)
       ∧ ∀ ds, ds ∈ nameTakenTwice →
               dataStoreMap (txn fresh) !! GetName ds = None)
  ∧ dataStoreMap (txn fresh)
    ⊆ list_to_map
        [("mongo", participant "mongo" None None None);
         ("redis", participant "redis" None None None)] ∪ ∅.
Proof. exact (AddDatastores_distinct_names nameTakenTwice fresh). Defined.

Lemma Start_stops_at_first_error_witness :
  Start (config 0) sorted secondUnreachable
  = (Returns (Some "connection refused"),
     {| txn := set_TxnStartTime 1700000000000000001
                 (set_TxnId "txn-1"
                    (set_state STARTED (txn secondUnreachable)));
        world := 4%nat |},
     [EvGenerateId "txn-1"; EvGetTime "start" 1700000000000000001 None;
      EvStart "mongo" None; EvStart "redis" (Some "connection refused")])
  ∧ [participant "mongo" None None None; unreachable "redis";
     participant "tikv" None None None]
    ≡ₚ (map_to_list (dataStoreMap (txn secondUnreachable))).*2
  ∧ ∃ l1 ds l2,
      [participant "mongo" None None None; unreachable "redis";
       participant "tikv" None None None] = l1 ++ ds :: l2
      ∧ [EvStart "mongo" None; EvStart "redis" (Some "connection refused")]
        = ((λ ds, EvStart (GetName ds) None) <$> l1)
          ++ [EvStart (GetName ds) (Some "connection refused")].
Proof.
  apply (Start_stops_at_first_error (config 0) sorted sorted_enumerates
           secondUnreachable (globalStore None None)
           "txn-1" 1%nat 1700000000000000001 None 2%nat
           [participant "mongo" None None None; unreachable "redis";
            participant "tikv" None None None] 2%nat
           [EvStart "mongo" None; EvStart "redis" (Some "connection refused")]
           4%nat); try reflexivity.
  vm_compute. lia.
Defined.

Lemma Start_checks_setup_late_witness :
  ∃ e,
    Start (config 0) sorted noGlobal
    = (Returns (Some e),
       {| txn := set_state STARTED (txn noGlobal); world := world noGlobal |},
       [])
    ∧ e = match tsrMaintainer (txn noGlobal) with
          | Some _ => "no datastores added"
          | None => "global datastore not set"
          end.
Proof.
  apply (Start_checks_setup_late (config 0) sorted noGlobal).
  - reflexivity.
  - left. reflexivity.
Defined.

Lemma setup_is_fixed_witness :
  fixedPart
    (txn (act (config 0) sorted fifo (Client refusedWrite) afterStart).1.2)
  = fixedPart (txn afterStart).
Proof.
  apply (setup_is_fixed (config 0) sorted fifo (Client refusedWrite)
           afterStart
           (act (config 0) sorted fifo (Client refusedWrite) afterStart).1.1
           _
           (act (config 0) sorted fifo (Client refusedWrite) afterStart).2).
  - reflexivity.
  - by destruct (act _ _ _ _ _) as [[??]?].
Defined.

Lemma read_only_is_lost_for_good_witness :
  (isReadOnly (txn afterStart) = false →
   isReadOnly
     (txn (act (config 0) sorted fifo (Client refusedWrite) afterStart).1.2)
   = false)
  ∧ (∀ op, Client refusedWrite = Client op → isUpdate op = true →
           state (txn afterStart) = STARTED →
           isReadOnly
             (txn (act (config 0) sorted fifo (Client refusedWrite)
                     afterStart).1.2)
           = false).
Proof.
  apply (read_only_is_lost_for_good (config 0) sorted fifo
           (Client refusedWrite) afterStart
           (act (config 0) sorted fifo (Client refusedWrite) afterStart).1.1
           _
           (act (config 0) sorted fifo (Client refusedWrite) afterStart).2).
  by destruct (act _ _ _ _ _) as [[??]?].
Defined.

Lemma commit_clock_failure_witness :
  (Commit (config 0) sorted fifo noTime).1.1
  = Returns (Some "oracle unreachable")
  ∧ (Commit (config 0) sorted fifo noTime).2
    = [EvGetTime "commit" 0 (Some "oracle unreachable")]
  ∧ txn (Commit (config 0) sorted fifo noTime).1.2
    = set_TxnCommitTime 0 (set_state COMMITTED (txn noTime)).
Proof.
  apply (commit_clock_failure (config 0) sorted fifo noTime).
  - by destruct (Commit _ _ _ _) as [[??]?].
  - vm_compute. left.
Defined.

Lemma commit_needs_every_vote_witness :
  ∃ tc trp post,
    (Commit (parallel 0) sorted fickle durable).2
    = EvGetTime "commit" tc None :: trp
      ++ EvCreateTSR (TxnId (txn durable)) COMMITTED None :: post
    ∧ once_per_participant (txn durable)
        (λ ds _, EvPrepare (GetName ds) None) trp
    ∧ EvCommit "mongo" (Some "connection reset") ∈ post.
Proof.
  apply (commit_needs_every_vote (parallel 0) sorted fickle
           sorted_enumerates fickle_permutes durable
           (Commit (parallel 0) sorted fickle durable).1.1
           (Commit (parallel 0) sorted fickle durable).1.2).
  - by destruct (Commit _ _ _ _) as [[??]?].
  - vm_compute. repeat first [left | right].
  - left. by exists "mongo", (Some "connection reset").
Defined.

Lemma prepare_phase_has_no_early_exit_witness :
  once_per_participant (txn bothFail) (λ ds, EvPrepare (GetName ds))
    [EvPrepare "mongo" (Some "version mismatch");
     EvPrepare "redis" (Some "key exists")]
  ∧ Commit (config 0) sorted fifo bothFail
    = (Returns (Some "prepare phase failed: key exists"),
       {| txn := set_TxnCommitTime 1700000000000000000
                   (set_state COMMITTED (txn bothFail));
          world := 3%nat |},
       [EvGetTime "commit" 1700000000000000000 None;
        EvPrepare "mongo" (Some "version mismatch");
        EvPrepare "redis" (Some "key exists"); EvGo GoAbort]).
Proof.
  apply (prepare_phase_has_no_early_exit (config 0) sorted fifo
           sorted_enumerates fifo_permutes bothFail
           1700000000000000000 1%nat
           [EvPrepare "mongo" (Some "version mismatch");
            EvPrepare "redis" (Some "key exists")] 3%nat); reflexivity.
Defined.


Lemma async_level_drops_no_work_witness :
  Commit (parallel 2) sorted fickle durable
  = (Returns None,
     {| txn := set_TxnCommitTime 1700000000000000000
                 (set_state COMMITTED (txn durable));
        world := 4%nat |},
     [EvGetTime "commit" 1700000000000000000 None;
      EvPrepare "redis" None; EvPrepare "mongo" None;
      EvCreateTSR "txn-1" COMMITTED None; EvGo GoCommitPhase])
  ∧ runTasks sorted fickle [GoCommitPhase]
      {| txn := set_TxnCommitTime 1700000000000000000
                  (set_state COMMITTED (txn durable));
         world := 4%nat |}
    = (Returns tt,
       {| txn := set_TxnCommitTime 1700000000000000000
                   (set_state COMMITTED (txn durable));
          world := 7%nat |},
       [EvCommit "mongo" (Some "connection reset");
        EvCommit "redis" (Some "connection reset");
        EvDeleteTSR "txn-1" (Some "connection reset")])
  ∧ [] ++ [EvCommit "mongo" (Some "connection reset");
           EvCommit "redis" (Some "connection reset");
           EvDeleteTSR "txn-1" (Some "connection reset")]
    = [EvCommit "mongo" (Some "connection reset");
       EvCommit "redis" (Some "connection reset")]
      ++ [EvDeleteTSR "txn-1" (Some "connection reset")]
  ∧ once_per_participant (txn durable) (λ ds, EvCommit (GetName ds))
      [EvCommit "mongo" (Some "connection reset");
       EvCommit "redis" (Some "connection reset")].
Proof.
  apply (async_level_drops_no_work (parallel 2) sorted fickle
           sorted_enumerates fickle_permutes durable
           (globalStore None (Some "connection reset"))
           1700000000000000000 1%nat
           [EvPrepare "redis" None; EvPrepare "mongo" None] 3%nat
           COMMITTED 4%nat
           [EvCommit "mongo" (Some "connection reset");
            EvCommit "redis" (Some "connection reset")] 6%nat
           (Some "connection reset") 7%nat); reflexivity.
Defined.

Lemma local_transaction_rejects_remote_calls_witness :
  RemoteCommit (Some remoteClient) "redis" ["a"] afterReading
  = (Returns (Some "not a remote transaction"), afterReading, [])
  ∧ RemoteAbort (Some remoteClient) "redis" ["a"] afterReading
    = (Returns (Some "not a remote transaction"), afterReading, []).
Proof.
  apply (local_transaction_rejects_remote_calls (config 0) sorted fifo
           readingClient).
  apply (history_performAll [] readingClient); [constructor|].
  vm_compute. reflexivity.
Defined.

End TxnMoreFacts.

(* ===================================================================== *)
(** * More of the local clock *)
(* ===================================================================== *)

Module TimesourceMoreFacts.
Import Timesource TimesourceMore TimesourceFacts.
Local Open Scope Z_scope.

Lemma GetTime_wellFormed ts now :
  wellFormed ts → 0 ≤ now < 2 ^ 42 →
  ∃ p l,
    GetTime now ts = ((p * 1000000 + l, None), (GetTime now ts).2)
    ∧ wellFormed (GetTime now ts).2
    ∧ physicalTime (GetTime now ts).2 = p
    ∧ logicalTime (GetTime now ts).2 = l
    ∧ (p = physicalTime ts ∧ l = logicalTime ts + 1 ∧ logicalTime ts < 53
       ∨ p = now ∧ l = 1 ∧ logicalTime ts = 53).
Proof.
  intros Hwf Hnow. pose proof Hwf as (Hb & Hm & Hl & Hp).
  destruct (decide (logicalTime ts < 53)) as [Hlt|Hge].
  - rewrite (GetTime_counts ts now Hwf Hlt).
    exists (physicalTime ts), (logicalTime ts + 1).
    cbn [snd physicalTime logicalTime set_logicalTime].
    split; [by rewrite Z.add_assoc|].
    split; [unfold wellFormed; cbn; split_and!; try done; lia|].
    split; [done|]. split; [done|]. left. lia.
  - assert (logicalTime ts = 53) as Heq by lia.
    rewrite (GetTime_refreshes ts now Hwf Heq Hnow).
    exists now, 1. cbn [snd physicalTime logicalTime set_logicalTime refresh].
    split; [done|].
    split; [unfold wellFormed; cbn; split_and!; try done; lia|].
    split; [done|]. split; [done|]. right. lia.
Qed.

(** X12. The clock keeps its shape along every schedule, and every timestamp
    it hands out is a millisecond reading times [10^6] plus a counter
    between 1 and 53: the reading is the one the clock was made with or
    one the schedule took, and the counter never gets near the 63 that
    [logicalTimeBits] leaves room for. *)
Theorem timestamps_are_reading_and_counter steps ts :
  wellFormed ts → inRange steps = true →
  wellFormed (after steps ts)
  ∧ Forall (λ t, 1 ≤ t mod 1000000 ≤ 53
                 ∧ (t / 1000000 = physicalTime ts
                    ∨ t / 1000000 ∈ wallClock <$> steps))
      (timestamps steps ts).
Proof.
  revert ts. induction steps as [|s steps IH]; intros ts Hwf Hr.
  - split; [done|constructor].
  - cbn [inRange forallb] in Hr. apply andb_true_iff in Hr as [Hs Hr].
    apply andb_true_iff in Hs as [H0 H1].
    apply Z.leb_le in H0. apply Z.ltb_lt in H1.
    destruct s as [now|now]; cbn [wallClock] in H0, H1;
      cbn [after timestamps].
    + destruct (GetTime_wellFormed ts now Hwf (conj H0 H1))
        as (p & l & Hg & Hwf' & Hp & Hl & Hcase).
      rewrite Hg. cbn [snd]. destruct (IH _ Hwf' Hr) as [Hafter Hts].
      split; [done|]. constructor.
      * assert (1 ≤ l ≤ 53) as Hl53.
        { destruct Hwf as (_ & _ & ? & _). lia. }
        assert ((p * 1000000 + l) / 1000000 = p) as Hdiv.
        { rewrite Z.div_add_l by lia. rewrite Z.div_small; lia. }
        assert ((p * 1000000 + l) mod 1000000 = l) as Hmod.
        { rewrite Z.add_comm, Z.mod_add by lia. apply Z.mod_small. lia. }
        rewrite Hdiv, Hmod. split; [done|].
        destruct Hcase as [(-> & _)|(-> & _)]; [by left|right].
        rewrite fmap_cons. apply elem_of_cons. by left.
      * eapply Forall_impl; [exact Hts|]. intros t [Hm Hd].
        split; [done|]. rewrite fmap_cons, elem_of_cons.
        destruct Hd as [Hd|Hd]; [|by right; right].
        rewrite Hp in Hd.
        destruct Hcase as [(-> & _)|(-> & _)]; [by left|right; by left].
    + assert (wellFormed (updatePhysicalTime now ts)) as Hwf'.
      { destruct Hwf as (? & ? & ? & ?). unfold wellFormed. cbn.
        split_and!; try done; lia. }
      destruct (IH _ Hwf' Hr) as [Hafter Hts]. split; [done|].
      eapply Forall_impl; [exact Hts|]. intros t [Hm Hd].
      split; [done|]. rewrite fmap_cons, elem_of_cons.
      destruct Hd as [Hd|Hd]; [right; by left|by right; right].
Qed.

Lemma timestamps_above steps ts t0 :
  wellFormed ts → inRange steps = true → physicalTime ts ≤ t0 →
  clockAdvances t0 steps = true →
  Forall (λ t, physicalTime ts * 1000000 + logicalTime ts < t)
    (timestamps steps ts)
  ∧ strictlyIncreasing (timestamps steps ts) = true.
Proof.
  revert ts t0. induction steps as [|s steps IH]; intros ts t0 Hwf Hr Hle Hadv.
  - split; [constructor|done].
  - cbn [inRange forallb] in Hr. apply andb_true_iff in Hr as [Hs Hr].
    apply andb_true_iff in Hs as [H0 H1].
    apply Z.leb_le in H0. apply Z.ltb_lt in H1.
    cbn [clockAdvances] in Hadv. apply andb_true_iff in Hadv as [Hlt Hadv].
    apply Z.ltb_lt in Hlt. pose proof Hwf as (_ & _ & Hl53 & Hp42).
    destruct s as [now|now]; cbn [wallClock] in *; cbn [timestamps].
    + destruct (GetTime_wellFormed ts now Hwf (conj H0 H1))
        as (p & l & Hg & Hwf' & Hp & Hl & Hcase).
      rewrite Hg. cbn [snd].
      destruct (IH (GetTime now ts).2 now Hwf' Hr) as [Hab Hinc];
        [destruct Hcase as [(? & _)|(? & _)]; lia|done|].
      rewrite Hp, Hl in Hab.
      assert (physicalTime ts * 1000000 + logicalTime ts < p * 1000000 + l)
        as Hstep by (destruct Hcase as [(-> & -> & _)|(-> & -> & _)]; lia).
      split.
      * constructor; [done|]. eapply Forall_impl; [exact Hab|].
        intros t Ht. cbn beta in *. lia.
      * cbn [strictlyIncreasing]. rewrite Hinc, andb_true_r.
        apply forallb_forall. intros t Ht. apply Z.ltb_lt.
        rewrite Forall_forall in Hab. apply Hab. by apply list_elem_of_In.
    + destruct (IH (updatePhysicalTime now ts) now) as [Hab Hinc];
        [|done|done|done|].
      { unfold wellFormed in *. cbn. destruct Hwf as (? & ? & _).
        split_and!; try done; lia. }
      split; [|done]. eapply Forall_impl; [exact Hab|].
      intros t Ht. cbn in Ht. lia.
Qed.

(** X13. Timestamps grow when the wall clock does: when every step of the
    schedule reads a wall clock strictly later than the step before it
    (calls and ticks at least a millisecond apart), each call of
    [GetTime] returns a timestamp larger than all the earlier ones. *)
Theorem timestamps_increase_with_the_clock steps ts :
  wellFormed ts → inRange steps = true →
  clockAdvances (physicalTime ts) steps = true →
  strictlyIncreasing (timestamps steps ts) = true.
Proof.
  intros Hwf Hr Hadv.
  by destruct (timestamps_above steps ts (physicalTime ts) Hwf Hr) as [_ ?].
Qed.

Lemma timestamps_are_reading_and_counter_witness :
  wellFormed (after burst (NewLocalTimeSource millisecond))
  ∧ Forall (λ t, 1 ≤ t mod 1000000 ≤ 53
                 ∧ (t / 1000000 = physicalTime (NewLocalTimeSource millisecond)
                    ∨ t / 1000000 ∈ wallClock <$> burst))
      (timestamps burst (NewLocalTimeSource millisecond)).
Proof.
  apply timestamps_are_reading_and_counter.
  - apply NewLocalTimeSource_wellFormed. unfold millisecond. lia.
  - vm_compute. reflexivity.
Defined.

Lemma timestamps_increase_with_the_clock_witness :
  strictlyIncreasing (timestamps spaced (NewLocalTimeSource millisecond))
  = true.
Proof.
  apply timestamps_increase_with_the_clock.
  - apply NewLocalTimeSource_wellFormed. unfold millisecond. lia.
  - vm_compute. reflexivity.
  - vm_compute. reflexivity.
Defined.

End TimesourceMoreFacts.

(* ===================================================================== *)
(** * More of the executor, and its client *)
(* ===================================================================== *)

Module ExecutorMoreFacts.
Import Executor.

Section StatusFacts.
Context {World DataItem DataStrategy RecordConfig CommitInfo PredicateInfo : Type}.
Variable unmarshalRead : string → @ReadRequest RecordConfig + error.
Variable unmarshalPrepare :
  string → @PrepareRequest DataItem RecordConfig PredicateInfo + error.
Variable unmarshalCommit : string → @CommitRequest CommitInfo + error.
Variable unmarshalAbort : string → AbortRequest + error.
Variable GetItemType : string → string.

Implicit Types
  (s : @Server World DataItem DataStrategy RecordConfig CommitInfo PredicateInfo)
  (req : Request) (w : World).

Local Abbreviation route :=
  (router unmarshalRead unmarshalPrepare unmarshalCommit unmarshalAbort
     GetItemType).
Local Abbreviation result :=
  (backendResult unmarshalRead unmarshalPrepare unmarshalCommit
     unmarshalAbort).

(** X14. The router answers with 200, 400 or 404 and nothing else. It answers
    200 exactly to /ping and to the requests that reached the reader or
    the committer; every other request is turned away with a plain text
    before anything behind the server is touched. *)
Theorem router_turns_away_early s req w :
  StatusCode (route s req w).1 ∈ [StatusOK; StatusBadRequest; StatusNotFound]
  ∧ (StatusCode (route s req w).1 = StatusOK
     ↔ Path req = "/ping" ∨ is_Some (result s req w))
  ∧ (StatusCode (route s req w).1 ≠ StatusOK →
     (route s req w).2 = w ∧ ∃ msg, body (route s req w).1 = Text msg).
Proof.
  assert (∀ x : Z, x ∈ [StatusOK; StatusBadRequest; StatusNotFound]
                   ↔ x = 200 ∨ x = 400 ∨ x = 404)%Z as Hin.
  { intros x. unfold StatusOK, StatusBadRequest, StatusNotFound.
    rewrite !elem_of_cons, elem_of_nil. tauto. }
  rewrite Hin. unfold router, backendResult.
  destruct (String.eqb_spec (Path req) "/ping") as [E|N0].
  { rewrite E. cbn. split_and!; [by left| |done]. split; [by left|done]. }
  assert (∀ (A : Type) (x : option A), ("/ping" = "/ping" ∨ is_Some x) ↔ True)
    as _ by (intros; split; [done|by left]).
  destruct (String.eqb_spec (Path req) "/read") as [E1|N1].
  { unfold readHandler. destruct (unmarshalRead _) as [r|e].
    - destruct (reader_Read _ _ _ _ _ _ _) as [[[[item dt] gk] e] w'].
      cbn. split_and!; [by left| |done]. split; [by right; eexists|done].
    - cbn. split_and!; [right; by left| |by eauto].
      split; [done|]. intros [?|[? [=]]]; done. }
  destruct (String.eqb_spec (Path req) "/prepare") as [E2|N2].
  { unfold prepareHandler. destruct (unmarshalPrepare _) as [r|e].
    - destruct (committer_Prepare _ _ _ _ _ _ _) as [[[vm tc] e] w'].
      cbn. split_and!; [by left| |done]. split; [by right; eexists|done].
    - cbn. split_and!; [right; by left| |by eauto].
      split; [done|]. intros [?|[? [=]]]; done. }
  destruct (String.eqb_spec (Path req) "/commit") as [E3|N3].
  { unfold commitHandler. destruct (unmarshalCommit _) as [r|e].
    - destruct (committer_Commit _ _ _ _ _) as [e w'].
      cbn. split_and!; [by left| |done]. split; [by right; eexists|done].
    - cbn. split_and!; [right; by left| |by eauto].
      split; [done|]. intros [?|[? [=]]]; done. }
  destruct (String.eqb_spec (Path req) "/abort") as [E4|N4].
  { unfold abortHandler. destruct (unmarshalAbort _) as [r|e].
    - destruct (committer_Abort _ _ _ _ _) as [e w'].
      cbn. split_and!; [by left| |done]. split; [by right; eexists|done].
    - cbn. split_and!; [right; by left| |by eauto].
      split; [done|]. intros [?|[? [=]]]; done. }
  cbn. split_and!; [right; by right| |by eauto].
  split; [done|]. intros [?|[? [=]]]; done.
Qed.

End StatusFacts.
End ExecutorMoreFacts.

Module NetClientFacts.
Import Executor NetClient Wire.

(** ** Picking a server *)

Lemma GetServerAddr_next (c : Client) (i : nat) :
  ServerAddrList c ≠ [] →
  (Z.of_nat (length (ServerAddrList c)) < 2 ^ 63)%Z →
  curIndex c = Z.of_nat i → (i ≤ length (ServerAddrList c))%nat →
  ∃ addr,
    ServerAddrList c !! (i mod length (ServerAddrList c))%nat = Some addr
    ∧ GetServerAddr c
      = (Some addr,
         set_curIndex (Z.of_nat (S (i mod length (ServerAddrList c)))) c).
Proof.
  intros Hne Hlen Hcur Hi. set (n := length (ServerAddrList c)) in *.
  assert (0 < n)%nat as Hn.
  { subst n. destruct (ServerAddrList c); [done|cbn; lia]. }
  assert (i mod n < n)%nat as Hmod by (apply Nat.mod_upper_bound; lia).
  destruct (lookup_lt_is_Some_2 (ServerAddrList c) (i mod n) Hmod)
    as [addr Haddr].
  exists addr. split; [done|]. unfold GetServerAddr. fold n. rewrite Hcur.
  destruct (Z.leb_spec (Z.of_nat n) (Z.of_nat i)) as [Hge|Hlt].
  - assert (i = n) as -> by lia. rewrite Nat.Div0.mod_same in *.
    cbn [curIndex set_curIndex ServerAddrList]. cbn [Z.ltb Z.compare Z.to_nat].
    change (Z.to_nat 0) with 0%nat. rewrite Haddr. reflexivity.
  - rewrite Nat.mod_small in * by lia. rewrite Hcur.
    destruct (Z.ltb_spec (Z.of_nat i) 0) as [?|_]; [lia|].
    rewrite Nat2Z.id, Haddr. unfold set_curIndex.
    rewrite TimesourceFacts.wrap64_small by lia. do 3 f_equal. lia.
Qed.

Lemma serverAddrs_from (c : Client) (i n k : nat) :
  ServerAddrList c ≠ [] →
  (Z.of_nat (length (ServerAddrList c)) < 2 ^ 63)%Z →
  curIndex c = Z.of_nat i → (i ≤ length (ServerAddrList c))%nat →
  (k < n)%nat →
  serverAddrs n c !! k
  = Some (ServerAddrList c !! ((i + k) mod length (ServerAddrList c))%nat).
Proof.
  revert c i k. induction n as [|n IH]; intros c i k Hne Hlen Hcur Hi Hk;
    [lia|].
  destruct (GetServerAddr_next c i Hne Hlen Hcur Hi) as (addr & Haddr & Hget).
  cbn [serverAddrs]. rewrite Hget.
  assert (0 < length (ServerAddrList c))%nat as Hn.
  { destruct (ServerAddrList c); [done|cbn; lia]. }
  destruct k as [|k].
  - cbn. by rewrite Nat.add_0_r, Haddr.
  - cbn [lookup list_lookup].
    change (serverAddrs n ?c' !! k) with (serverAddrs n c' !! k).
    assert (i mod length (ServerAddrList c) < length (ServerAddrList c))%nat
      as Hub by (apply Nat.mod_upper_bound; lia).
    rewrite (IH _ (S (i mod length (ServerAddrList c))) k);
      cbn [ServerAddrList set_curIndex curIndex]; try done; try lia.
    do 2 f_equal.
    replace (S (i mod length (ServerAddrList c)) + k)%nat
      with (i mod length (ServerAddrList c) + S k)%nat by lia.
    rewrite Nat.Div0.add_mod_idemp_l. done.
Qed.

(** X15. [GetServerAddr] goes round the list: on a client made by [NewClient]
    from a list that is not empty, the call number [k] (from 0) gets
    "http://" followed by the entry [k mod len] of the list. On an empty
    list every call panics. *)
Theorem GetServerAddr_goes_round l n k :
  (Z.of_nat (length l) < 2 ^ 63)%Z → (k < n)%nat →
  serverAddrs n (NewClient l) !! k
  = Some ((λ a, "http://" +:+ a) <$> l !! (k mod length l)%nat).
Proof.
  intros Hlen Hk. destruct l as [|a l].
  - clear Hlen. cbn [length NewClient fmap list_fmap].
    rewrite lookup_nil. cbn [fmap option_fmap option_map].
    revert k Hk. induction n as [|n IH]; intros k Hk; [lia|].
    destruct k as [|k]; [done|]. cbn [serverAddrs]. unfold GetServerAddr.
    cbn. apply IH. lia.
  - rewrite (serverAddrs_from _ 0 n k); try done.
    + cbn [NewClient ServerAddrList]. rewrite length_fmap, Nat.add_0_l.
      by rewrite list_lookup_fmap.
    + cbn [NewClient ServerAddrList]. by rewrite length_fmap.
    + lia.
Qed.

Lemma GetServerAddr_goes_round_witness :
  serverAddrs 5 (NewClient ["10.0.0.1:8000"; "10.0.0.2:8000"]) !! 4%nat
  = Some ((λ a, "http://" +:+ a)
          <$> ["10.0.0.1:8000"; "10.0.0.2:8000"]
              !! (4 mod length ["10.0.0.1:8000"; "10.0.0.2:8000"])%nat).
Proof.
  apply (GetServerAddr_goes_round ["10.0.0.1:8000"; "10.0.0.2:8000"] 5 4).
  - vm_compute. reflexivity.
  - lia.
Defined.

(** ** A call, end to end *)

Section EndToEnd.
Context {World DataItem DataStrategy RecordConfig CommitInfo PredicateInfo : Type}.

(** The executor's side. *)
Variable unmarshalRead : string → @ReadRequest RecordConfig + error.
Variable unmarshalPrepare :
  string → @PrepareRequest DataItem RecordConfig PredicateInfo + error.
Variable unmarshalCommit : string → @CommitRequest CommitInfo + error.
Variable unmarshalAbort : string → AbortRequest + error.
Variable GetItemType : string → string.
Variable s :
  @Server World DataItem DataStrategy RecordConfig CommitInfo PredicateInfo.

(** The client's side. *)
Variable marshalRead : @ReadRequest RecordConfig → string + error.
Variable marshalPrepare :
  @PrepareData DataItem RecordConfig PredicateInfo → string + error.
Variable marshalCommit : @CommitRequest CommitInfo → string + error.
Variable marshalAbort : AbortRequest → string + error.
Variable unmarshalReadResponse :
  @Body DataItem DataStrategy → @ReadResponse DataItem DataStrategy + error.
Variable unmarshalPrepareResponse :
  @Body DataItem DataStrategy → PrepareResponse + error.
Variable unmarshalResponse : @Body DataItem DataStrategy → Response + error.
Variable Do : string → string → World →
              (@HTTPResponse DataItem DataStrategy + error) * World.
Variable Normal : DataStrategy.
Variables RedisItem MongoItem CouchItem : string.

Local Abbreviation route :=
  (router unmarshalRead unmarshalPrepare unmarshalCommit unmarshalAbort
     GetItemType s).

(** X16. [Commit] and [Abort] of the client against the executor: whatever
    request the executor decodes from the bytes sent, the client returns
    what the committer returned for it, nil for nil and an error with the
    same message for an error, and the world is the one the committer
    left. When the executor cannot decode the bytes the client returns
    "unexpected status code" and nothing has happened behind the
    server. *)
Theorem commit_and_abort_end_to_end c c' addr dsName infoList tCommit
  keyList groupKeyList w :
  GetServerAddr c = (Some addr, c') →
  delivers Do route addr →
  responsesRoundTrip unmarshalReadResponse unmarshalPrepareResponse
    unmarshalResponse →
  Commit marshalCommit unmarshalResponse Do c dsName infoList tCommit w
  = match unmarshalCommit
            (bytesOf (marshalCommit
                        {| cr_DsName := dsName; cr_List := infoList;
                           cr_TCommit := tCommit |})) with
    | inl r =>
        let '(err, w') :=
          committer_Commit s (cr_DsName r) (cr_List r) (cr_TCommit r) w in
        (Returned err, c', w')
    | inr _ => (Returned (Some "unexpected status code"), c', w)
    end
  ∧ Abort marshalAbort unmarshalResponse Do c dsName keyList groupKeyList w
    = match unmarshalAbort
              (bytesOf (marshalAbort
                          {| ar_DsName := dsName; ar_KeyList := keyList;
                             ar_GroupKeyList := groupKeyList |})) with
      | inl r =>
          let '(err, w') :=
            committer_Abort s (ar_DsName r) (ar_KeyList r)
              (ar_GroupKeyList r) w in
          (Returned err, c', w')
      | inr _ => (Returned (Some "unexpected status code"), c', w)
      end.
Proof.
  intros Hget Hnet (_ & _ & Hresp). split.
  - unfold Commit. rewrite Hget. cbv zeta. rewrite Hnet.
    unfold router. cbn [Path PostBody String.eqb Ascii.eqb Bool.eqb].
    unfold commitHandler. cbn [PostBody].
    destruct (unmarshalCommit _) as [r|e]; [|done].
    destruct (committer_Commit _ _ _ _ _) as [[e|] w'];
      cbn; by rewrite Hresp.
  - unfold Abort. rewrite Hget. cbv zeta. rewrite Hnet.
    unfold router. cbn [Path PostBody String.eqb Ascii.eqb Bool.eqb].
    unfold abortHandler. cbn [PostBody].
    destruct (unmarshalAbort _) as [r|e]; [|done].
    destruct (committer_Abort _ _ _ _ _) as [[e|] w'];
      cbn; by rewrite Hresp.
Qed.

(** X17. [Read] and [Prepare] of the client against the executor. On success
    the client hands back the item and the strategy the reader returned
    (the group key stays behind), or the version map and the commit time
    of the committer; on an error it hands back the error's message and
    none of the payload. A request the executor cannot decode comes back
    as "unexpected status code", and a prepare request that does not
    marshal ends the process before any address is taken. *)
Theorem read_and_prepare_end_to_end c c' addr dsName key ts cfg itemList
  validationMap w :
  GetServerAddr c = (Some addr, c') →
  delivers Do route addr →
  responsesRoundTrip unmarshalReadResponse unmarshalPrepareResponse
    unmarshalResponse →
  Read marshalRead unmarshalReadResponse Do Normal c dsName key ts cfg w
  = match unmarshalRead
            (bytesOf (marshalRead
                        {| rr_DsName := dsName; rr_Key := key;
                           rr_StartTime := ts; rr_Config := cfg |})) with
    | inl r =>
        let '((item, dataType, _, err), w') :=
          reader_Read s (rr_DsName r) (rr_Key r) (rr_StartTime r)
            (rr_Config r) true w in
        (Returned match err with
                  | None => (Some item, Some dataType, None)
                  | Some e => (None, Some Normal, Some e)
                  end, c', w')
    | inr _ =>
        (Returned (None, Some Normal, Some "unexpected status code"), c', w)
    end
  ∧ Prepare marshalPrepare unmarshalPrepareResponse Do RedisItem MongoItem
      CouchItem c dsName itemList ts cfg validationMap w
    = match marshalPrepare
              {| pd_ItemType :=
                   getItemType RedisItem MongoItem CouchItem dsName;
                 pd_Request :=
                   {| pr_DsName := dsName; pr_ItemList := itemList;
                      pr_StartTime := ts; pr_Config := cfg;
                      pr_ValidationMap := validationMap |} |} with
      | inr _ => (Fatal, c, w)
      | inl jsonData =>
          match unmarshalPrepare jsonData with
          | inl r =>
              let '((verMap, tCommit, err), w') :=
                committer_Prepare s (pr_DsName r) (pr_ItemList r)
                  (pr_StartTime r) (pr_Config r) (pr_ValidationMap r) w in
              (Returned match err with
                        | None => (Some verMap, tCommit, None)
                        | Some e => (None, 0%Z, Some e)
                        end, c', w')
          | inr _ =>
              (Returned (None, 0%Z, Some "unexpected status code"), c', w)
          end
      end.
Proof.
  intros Hget Hnet (Hread & Hprep & _). split.
  - unfold Read. rewrite Hget. cbv zeta. rewrite Hnet.
    unfold router. cbn [Path PostBody String.eqb Ascii.eqb Bool.eqb].
    unfold readHandler. cbn [PostBody].
    destruct (unmarshalRead _) as [r|e]; [|done].
    destruct (reader_Read _ _ _ _ _ _ _) as [[[[item dt] gk] [e|]] w'];
      cbn; by rewrite Hread.
  - unfold Prepare. destruct (marshalPrepare _) as [jsonData|e]; [|done].
    rewrite Hget. cbv zeta. rewrite Hnet.
    unfold router. cbn [Path PostBody String.eqb Ascii.eqb Bool.eqb].
    unfold prepareHandler. cbn [PostBody].
    destruct (unmarshalPrepare _) as [r|e]; [|done].
    destruct (committer_Prepare _ _ _ _ _ _ _) as [[[vm tc] [e|]] w'];
      cbn; by rewrite Hprep.
Qed.

End EndToEnd.

Lemma exampleDo_delivers :
  delivers exampleDo
    (router exampleRead examplePrepare exampleCommit exampleAbort
       (λ _, "redis") exampleServer)
    executorAddr.
Proof. intros path body w. reflexivity. Defined.

Lemma receive_roundTrip : responsesRoundTrip receiveRead receivePrepare receive.
Proof. by split_and!. Defined.

Lemma commit_and_abort_end_to_end_witness :
  Commit sendCommit receive exampleDo exampleClient "Mongo" [] 7 tt
  = match exampleCommit
            (bytesOf (sendCommit {| cr_DsName := "Mongo"; cr_List := [];
                                    cr_TCommit := 7 |})) with
    | inl r =>
        let '(err, w') :=
          committer_Commit exampleServer (cr_DsName r) (cr_List r)
            (cr_TCommit r) tt in
        (Returned err, set_curIndex 1 exampleClient, w')
    | inr _ =>
        (Returned (Some "unexpected status code"),
         set_curIndex 1 exampleClient, tt)
    end
  ∧ Abort sendAbort receive exampleDo exampleClient "{" ["a"] "txn-1" tt
    = match exampleAbort
              (bytesOf (sendAbort {| ar_DsName := "{"; ar_KeyList := ["a"];
                                     ar_GroupKeyList := "txn-1" |})) with
      | inl r =>
          let '(err, w') :=
            committer_Abort exampleServer (ar_DsName r) (ar_KeyList r)
              (ar_GroupKeyList r) tt in
          (Returned err, set_curIndex 1 exampleClient, w')
      | inr _ =>
          (Returned (Some "unexpected status code"),
           set_curIndex 1 exampleClient, tt)
      end.
Proof.
  pose proof (commit_and_abort_end_to_end exampleRead examplePrepare
                exampleCommit exampleAbort (λ _, "redis") exampleServer
                sendCommit sendAbort receiveRead receivePrepare receive
                exampleDo exampleClient (set_curIndex 1 exampleClient)
                executorAddr) as H.
  split.
  - apply (H "Mongo" [] 7%Z [] "" tt); [reflexivity|..].
    + apply exampleDo_delivers.
    + apply receive_roundTrip.
  - apply (H "{" [] 0%Z ["a"] "txn-1" tt); [reflexivity|..].
    + apply exampleDo_delivers.
    + apply receive_roundTrip.
Defined.

Lemma read_and_prepare_end_to_end_witness :
  Read sendRead receiveRead exampleDo "Normal" exampleClient "Redis" "a" 7 tt
    tt
  = match exampleRead
            (bytesOf (sendRead {| rr_DsName := "Redis"; rr_Key := "a";
                                  rr_StartTime := 7; rr_Config := tt |})) with
    | inl r =>
        let '((item, dataType, _, err), w') :=
          reader_Read exampleServer (rr_DsName r) (rr_Key r) (rr_StartTime r)
            (rr_Config r) true tt in
        (Returned match err with
                  | None => (Some item, Some dataType, None)
                  | Some e => (None, Some "Normal", Some e)
                  end, set_curIndex 1 exampleClient, w')
    | inr _ =>
        (Returned (None, Some "Normal", Some "unexpected status code"),
         set_curIndex 1 exampleClient, tt)
    end
  ∧ Prepare sendPrepare receivePrepare exampleDo "redis" "mongo" "couch"
      exampleClient "Mongo" ["item"] 7 tt ∅ tt
    = match sendPrepare
              {| pd_ItemType := getItemType "redis" "mongo" "couch" "Mongo";
                 pd_Request :=
                   {| pr_DsName := "Mongo"; pr_ItemList := ["item"];
                      pr_StartTime := 7; pr_Config := tt;
                      pr_ValidationMap := ∅ |} |} with
      | inr _ => (Fatal, exampleClient, tt)
      | inl jsonData =>
          match examplePrepare jsonData with
          | inl r =>
              let '((verMap, tCommit, err), w') :=
                committer_Prepare exampleServer (pr_DsName r) (pr_ItemList r)
                  (pr_StartTime r) (pr_Config r) (pr_ValidationMap r) tt in
              (Returned match err with
                        | None => (Some verMap, tCommit, None)
                        | Some e => (None, 0%Z, Some e)
                        end, set_curIndex 1 exampleClient, w')
          | inr _ =>
              (Returned (None, 0%Z, Some "unexpected status code"),
               set_curIndex 1 exampleClient, tt)
          end
      end.
Proof.
  pose proof (read_and_prepare_end_to_end exampleRead examplePrepare
                exampleCommit exampleAbort (λ _, "redis") exampleServer
                sendRead sendPrepare receiveRead receivePrepare receive
                exampleDo "Normal" "redis" "mongo" "couch"
                exampleClient (set_curIndex 1 exampleClient) executorAddr)
    as H.
  split.
  - apply (H "Redis" "a" 7%Z tt [] ∅ tt); [reflexivity|..].
    + apply exampleDo_delivers.
    + apply receive_roundTrip.
  - apply (H "Mongo" "" 7%Z tt ["item"] ∅ tt); [reflexivity|..].
    + apply exampleDo_delivers.
    + apply receive_roundTrip.
Defined.

End NetClientFacts.

(* ===================================================================== *)
(** * The YCSB binding for Redis: keys *)
(* ===================================================================== *)

Module YcsbRedisFacts.
Import YcsbRedis.

Lemma append_slash_inj t1 t2 r1 r2 :
  noSlash t1 = true → noSlash t2 = true →
  t1 +:+ String slash r1 = t2 +:+ String slash r2 → t1 = t2 ∧ r1 = r2.
Proof.
  revert t2. induction t1 as [|a t1 IH]; intros [|b t2] H1 H2 Heq;
    simpl in Heq, H1, H2.
  - by injection Heq as ->.
  - injection Heq as Ha Hrest. rewrite <- Ha in H2. done.
  - injection Heq as Ha Hrest. rewrite Ha in H1. done.
  - injection Heq as Ha Hrest.
    apply andb_true_iff in H1 as [_ H1]. apply andb_true_iff in H2 as [_ H2].
    destruct (IH t2 H1 H2 Hrest) as [-> ->]. by rewrite Ha.
Qed.

Lemma getKeyName_unfold table key :
  getKeyName table key = table +:+ String slash key.
Proof. reflexivity. Qed.

(** X18. Records of different tables, or of different keys of a table, live
    under different Redis keys, as long as no table name holds a slash;
    with a slash in a table name two records can share a key. *)
Theorem getKeyName_separates_tables table1 key1 table2 key2 :
  noSlash table1 = true → noSlash table2 = true →
  (getKeyName table1 key1 = getKeyName table2 key2
   ↔ table1 = table2 ∧ key1 = key2)
  ∧ getKeyName (getKeyName table1 key1) key2
    = getKeyName table1 (getKeyName key1 key2).
Proof.
  intros H1 H2. split.
  - split; [|by intros [-> ->]]. rewrite !getKeyName_unfold.
    by apply append_slash_inj.
  - rewrite !getKeyName_unfold. clear.
    induction table1 as [|a t IH]; [reflexivity|].
    change (String a ((t +:+ String slash key1) +:+ String slash key2)
            = String a (t +:+ String slash (key1 +:+ String slash key2))).
    by rewrite IH.
Qed.

Lemma getKeyName_separates_tables_witness :
  (getKeyName "usertable" "user1" = getKeyName "orders" "user1"
   ↔ "usertable" = "orders" ∧ "user1" = "user1")
  ∧ getKeyName (getKeyName "usertable" "user1") "user1"
    = getKeyName "usertable" (getKeyName "user1" "user1").
Proof.
  apply (getKeyName_separates_tables "usertable" "user1" "orders" "user1").
  - reflexivity.
  - reflexivity.
Defined.

End YcsbRedisFacts.

(* ===================================================================== *)
(** * The Redis connection under concurrent updates: one winner *)
(* ===================================================================== *)

Module ConnectorRaceFacts.
Import Config Connector ConnectorRace.

Section RaceFacts.
Variable now : Z.
Implicit Types (s : gmap string RedisItem) (steps : list Step)
  (waiting running : list nat).

Local Abbreviation shared :=
  (@raceShared _ (RedisConnection AddToString) now).
Local Abbreviation own := (@raceOwn _ (RedisConnection AddToString) now).




End RaceFacts.


End ConnectorRaceFacts.
